(** * Face-detection overlay components: model and verified properties

    The development embeds the two camera components of the repository
    (the BlazeFace overlay of [src/components/camera.tsx] and the variant
    that also crops every face and runs a landmark model on the crop) as
    state machines driven by browser events, and proves the properties
    the specification states about them.

    Organisation:
    - [JsNumber]: the arithmetic of JavaScript numbers, with the IEEE
      binary64 instance (what the browser computes) and the exact
      rational instance (used for order and midpoint arguments);
    - the DOM objects both components share (video element, canvas);
    - [Camera]: camera.tsx;
    - [CroppedFaceCamera]: the cropped-face variant. *)

From Stdlib Require Import ZArith QArith String List Bool Lia.
From Stdlib Require Import Floats.PrimFloat Numbers.Cyclic.Int63.Uint63.
From stdpp Require Import base option gmap list.

Set Warnings "-inexact-float".

(** ** JavaScript numbers *)

(** The operations the components apply to numbers.  Every definition
    below is parametric in them, so a statement about which expression
    reaches a canvas call holds for IEEE doubles as well as for exact
    arithmetic. *)
Class JsNumber (R : Type) := {
  num_mul : R -> R -> R;
  num_sub : R -> R -> R;
  num_div : R -> R -> R;
  num_of_Z : Z -> R
}.

Declare Scope js_scope.
Delimit Scope js_scope with js.
Infix "*" := num_mul : js_scope.
Infix "-" := num_sub : js_scope.
Infix "/" := num_div : js_scope.

(** Integer literals of the source as doubles. *)
Definition float_of_Z (z : Z) : float :=
  match z with
  | Z0 => PrimFloat.of_uint63 0%uint63
  | Zpos _ => PrimFloat.of_uint63 (Uint63.of_Z z)
  | Zneg p => PrimFloat.opp (PrimFloat.of_uint63 (Uint63.of_Z (Zpos p)))
  end.

(** IEEE 754 binary64: the numbers of the JavaScript engine. *)
#[export] Instance float_JsNumber : JsNumber float := {|
  num_mul := PrimFloat.mul;
  num_sub := PrimFloat.sub;
  num_div := PrimFloat.div;
  num_of_Z := float_of_Z
|}.

(** Exact rational arithmetic. *)
#[export] Instance Q_JsNumber : JsNumber Q := {|
  num_mul := Qmult;
  num_sub := Qminus;
  num_div := Qdiv;
  num_of_Z := inject_Z
|}.

(** ** Promises *)

(** How an awaited promise settles; a rejection carries the thrown value
    as the text it prints to. *)
Inductive Settled (A : Type) : Type :=
| Fulfilled (value : A)
| Rejected (err : string).
Arguments Fulfilled {A} value.
Arguments Rejected {A} err.

(** ** Shared data model *)

(** Handle of a loaded model object. *)
Definition Model := positive.

(** A media stream is the list of its tracks. *)
Definition MediaStream := list positive.

Definition HAVE_NOTHING : nat := 0.
Definition HAVE_ENOUGH_DATA : nat := 4.

Inductive ContextMode := ModeNone | Mode2d | ModeOther.

Section DataModel.
Context {R : Type}.

(** interface FaceDetection *)
Record FaceDetection := {
  topLeft : R * R;
  bottomRight : R * R;
  probability : R;
  landmarks : list (R * R)
}.

(** The calls a component makes on a 2D rendering context.  [Arc cx cy r]
    is [ctx.arc(cx, cy, r, 0, 2 * Math.PI)], the full circle. *)
Inductive DrawCmd :=
| ClearRect (x y w h : R)
| SetFillStyle (style : string)
| SetStrokeStyle (style : string)
| SetLineWidth (w : R)
| StrokeRect (x y w h : R)
| BeginPath
| Arc (cx cy r : R)
| Fill
| DrawImage (sx sy sw sh dx dy dw dh : R).

(** The video element behind [videoRef]. *)
Record Video := {
  srcObject : option MediaStream;
  readyState : nat;
  onloadedmetadata : bool;
  paused : bool;
  clientWidth : R;
  clientHeight : R;
  videoWidth : R;
  videoHeight : R
}.

(** A canvas element with the calls made on its context so far. *)
Record Canvas := {
  width : R;
  height : R;
  contextMode : ContextMode;
  calls : list DrawCmd
}.

(** The text shown in the debug panel, by the template that produced it. *)
Inductive DebugInfo :=
| DebugText (text : string)
| DebugFrame (frame : nat) (raw : list FaceDetection)
| DebugDetected (count : nat) (raw : list FaceDetection)
| DebugError (err : string)
| DebugLoadError (err : string).

(** canvas.getContext('2d'): null only when the canvas is already bound
    to a context of another kind. *)
Definition getContext2d (c : Canvas) : option Canvas :=
  match contextMode c with
  | ModeOther => None
  | _ => Some {| width := width c; height := height c;
                 contextMode := Mode2d; calls := calls c |}
  end.

Definition set_size (w h : R) (c : Canvas) : Canvas :=
  {| width := w; height := h; contextMode := contextMode c; calls := calls c |}.

Definition draw (cmds : list DrawCmd) (c : Canvas) : Canvas :=
  {| width := width c; height := height c; contextMode := contextMode c;
     calls := calls c ++ cmds |}.

(** Assigning [srcObject] runs the media element load algorithm, which
    resets the ready state. *)
Definition set_srcObject (s : option MediaStream) (v : Video) : Video :=
  {| srcObject := s; readyState := HAVE_NOTHING;
     onloadedmetadata := onloadedmetadata v; paused := paused v;
     clientWidth := clientWidth v; clientHeight := clientHeight v;
     videoWidth := videoWidth v; videoHeight := videoHeight v |}.

Definition set_onloadedmetadata (v : Video) : Video :=
  {| srcObject := srcObject v; readyState := readyState v;
     onloadedmetadata := true; paused := paused v;
     clientWidth := clientWidth v; clientHeight := clientHeight v;
     videoWidth := videoWidth v; videoHeight := videoHeight v |}.

Definition play (v : Video) : Video :=
  {| srcObject := srcObject v; readyState := readyState v;
     onloadedmetadata := onloadedmetadata v; paused := false;
     clientWidth := clientWidth v; clientHeight := clientHeight v;
     videoWidth := videoWidth v; videoHeight := videoHeight v |}.

Definition set_readyState (rs : nat) (v : Video) : Video :=
  {| srcObject := srcObject v; readyState := rs;
     onloadedmetadata := onloadedmetadata v; paused := paused v;
     clientWidth := clientWidth v; clientHeight := clientHeight v;
     videoWidth := videoWidth v; videoHeight := videoHeight v |}.

Definition set_metadata (vw vh : R) (v : Video) : Video :=
  {| srcObject := srcObject v; readyState := Nat.max 1 (readyState v);
     onloadedmetadata := onloadedmetadata v; paused := paused v;
     clientWidth := clientWidth v; clientHeight := clientHeight v;
     videoWidth := vw; videoHeight := vh |}.

Definition set_layout (cw ch : R) (v : Video) : Video :=
  {| srcObject := srcObject v; readyState := readyState v;
     onloadedmetadata := onloadedmetadata v; paused := paused v;
     clientWidth := cw; clientHeight := ch;
     videoWidth := videoWidth v; videoHeight := videoHeight v |}.

(** The StrokeRect calls among a list of context calls. *)
Definition rectangles (cmds : list DrawCmd) : list DrawCmd :=
  List.filter (fun c => match c with StrokeRect _ _ _ _ => true | _ => false end) cmds.

(** The Arc calls among a list of context calls. *)
Definition circles (cmds : list DrawCmd) : list DrawCmd :=
  List.filter (fun c => match c with Arc _ _ _ => true | _ => false end) cmds.

End DataModel.

Arguments FaceDetection R : clear implicits.
Arguments DrawCmd R : clear implicits.
Arguments Video R : clear implicits.
Arguments Canvas R : clear implicits.
Arguments DebugInfo R : clear implicits.


(** ** Event loop *)

(** The browser's task sources and the runs of the detection effect, for
    closures of type [C], suspended detectFaces calls of type [I] and
    effect dependencies of type [D]. *)
Section EventLoop.
Context {C I D : Type}.

(** A pending setTimeout(runDetection, delay) of an effect run. *)
Record Timer := {
  delay : nat;
  timerEffect : positive;
  timerClosure : C
}.

(** The browser's task sources and the runs of the detection effect.
    Timer handles are positive, so [if (timeoutId)] is the test that the
    variable was assigned; [timeoutIds] holds the [timeoutId] variable
    of every effect run that assigned it. *)
Record EventLoop := {
  timers : gmap positive Timer;
  nextTimer : positive;
  animationFrames : gmap positive C;
  nextAnimationFrame : positive;
  inferences : gmap positive I;
  nextInference : positive;
  timeoutIds : gmap positive positive;
  currentEffect : positive;
  nextEffect : positive;
  effectDeps : D
}.

Definition setTimeout (t : Timer) (lp : EventLoop) : EventLoop :=
  {| timers := <[nextTimer lp := t]> (timers lp); nextTimer := Pos.succ (nextTimer lp);
     animationFrames := animationFrames lp; nextAnimationFrame := nextAnimationFrame lp;
     inferences := inferences lp; nextInference := nextInference lp;
     timeoutIds := timeoutIds lp; currentEffect := currentEffect lp;
     nextEffect := nextEffect lp; effectDeps := effectDeps lp |}.

(** clearTimeout, and the removal of a timer that fires. *)
Definition clearTimeout (id : positive) (lp : EventLoop) : EventLoop :=
  {| timers := delete id (timers lp); nextTimer := nextTimer lp;
     animationFrames := animationFrames lp; nextAnimationFrame := nextAnimationFrame lp;
     inferences := inferences lp; nextInference := nextInference lp;
     timeoutIds := timeoutIds lp; currentEffect := currentEffect lp;
     nextEffect := nextEffect lp; effectDeps := effectDeps lp |}.

Definition requestAnimationFrame (closure : C) (lp : EventLoop) : EventLoop :=
  {| timers := timers lp; nextTimer := nextTimer lp;
     animationFrames := <[nextAnimationFrame lp := closure]> (animationFrames lp);
     nextAnimationFrame := Pos.succ (nextAnimationFrame lp);
     inferences := inferences lp; nextInference := nextInference lp;
     timeoutIds := timeoutIds lp; currentEffect := currentEffect lp;
     nextEffect := nextEffect lp; effectDeps := effectDeps lp |}.

Definition take_animationFrame (id : positive) (lp : EventLoop) : EventLoop :=
  {| timers := timers lp; nextTimer := nextTimer lp;
     animationFrames := delete id (animationFrames lp);
     nextAnimationFrame := nextAnimationFrame lp;
     inferences := inferences lp; nextInference := nextInference lp;
     timeoutIds := timeoutIds lp; currentEffect := currentEffect lp;
     nextEffect := nextEffect lp; effectDeps := effectDeps lp |}.

Definition add_inference (i : I) (lp : EventLoop) : EventLoop :=
  {| timers := timers lp; nextTimer := nextTimer lp;
     animationFrames := animationFrames lp; nextAnimationFrame := nextAnimationFrame lp;
     inferences := <[nextInference lp := i]> (inferences lp);
     nextInference := Pos.succ (nextInference lp);
     timeoutIds := timeoutIds lp; currentEffect := currentEffect lp;
     nextEffect := nextEffect lp; effectDeps := effectDeps lp |}.

Definition take_inference (id : positive) (lp : EventLoop) : EventLoop :=
  {| timers := timers lp; nextTimer := nextTimer lp;
     animationFrames := animationFrames lp; nextAnimationFrame := nextAnimationFrame lp;
     inferences := delete id (inferences lp); nextInference := nextInference lp;
     timeoutIds := timeoutIds lp; currentEffect := currentEffect lp;
     nextEffect := nextEffect lp; effectDeps := effectDeps lp |}.

(** The assignment [timeoutId = ...] inside the runDetection of [effect]. *)
Definition set_timeoutId (effect id : positive) (lp : EventLoop) : EventLoop :=
  {| timers := timers lp; nextTimer := nextTimer lp;
     animationFrames := animationFrames lp; nextAnimationFrame := nextAnimationFrame lp;
     inferences := inferences lp; nextInference := nextInference lp;
     timeoutIds := <[effect := id]> (timeoutIds lp); currentEffect := currentEffect lp;
     nextEffect := nextEffect lp; effectDeps := effectDeps lp |}.

(** A new run of the detection effect, with a fresh [timeoutId]. *)
Definition new_effect (deps : D) (lp : EventLoop) : EventLoop :=
  {| timers := timers lp; nextTimer := nextTimer lp;
     animationFrames := animationFrames lp; nextAnimationFrame := nextAnimationFrame lp;
     inferences := inferences lp; nextInference := nextInference lp;
     timeoutIds := timeoutIds lp; currentEffect := nextEffect lp;
     nextEffect := Pos.succ (nextEffect lp); effectDeps := deps |}.

End EventLoop.

Arguments Timer C : clear implicits.
Arguments EventLoop C I D : clear implicits.
(** ** camera.tsx *)

(** CameraComponent as a transition system.  A state holds the useState
    cells, the two DOM elements behind the refs, and what the browser
    keeps for the component: pending timers, requested animation frames
    and model calls that have not settled.  An event is one task of the
    browser: a promise settles, a button is clicked, a media event or a
    timer fires, React commits.  Each async function is split at its
    awaits: the part up to the await runs in the step of the event that
    calls it, the rest in the step of the event that settles the
    awaited promise.

    Closures carry what they captured: a detectFaces closure is the
    [model] of the render that created it (useCallback keeps the closure
    until [model] changes), and a run of the detection effect has its
    own [timeoutId] variable, which the runDetection of that run
    assigns and the cleanup of that run reads.  [frameCount] is shared
    by the calls of one detectFaces closure; loadModel runs once, so
    only one closure ever has a model and a single counter stands for
    it. *)

Module Camera.

Section Component.
Context {R : Type} `{JsNumber R}.

(** *** State *)

(** The useState cells of CameraComponent. *)
Record Hooks := {
  isStreaming : bool;
  error : option string;
  model : option Model;
  isLoading : bool;
  predictions : list (FaceDetection R);
  debugInfo : DebugInfo R
}.

(** Where the loadModel call of the mount effect stands. *)
Inductive LoadStage := AwaitSetBackend | AwaitBlazefaceLoad | LoadSettled.

(** Who awaits the promise of a detectFaces call: the runDetection of an
    effect run (with the model its detectFaces closure captured), or
    nobody when the call came from requestAnimationFrame. *)
Inductive Awaiter :=
| ResumeRunDetection (effect : positive) (closure : option Model)
| NoAwaiter.

(** A detectFaces call suspended at [await model.estimateFaces(...)],
    with the locals it computed before the call. *)
Record Inference := {
  scaleX : R;
  scaleY : R;
  awaiter : Awaiter
}.

(** The event loop of this component: closures are the model a
    detectFaces closure captured, the effect depends on
    [isStreaming, model]. *)
Definition Loop : Type := EventLoop (option Model) Inference (bool * option Model).

(** [frameCount] is the variable the memoised detectFaces closure
    increments; [estimateFacesCalls] counts the calls of
    model.estimateFaces made so far. *)
Record State := {
  hooks : Hooks;
  mounted : bool;
  video : Video R;
  canvas : Canvas R;
  frameCount : nat;
  loadStage : LoadStage;
  pendingGetUserMedia : nat;
  liveTracks : gset positive;
  estimateFacesCalls : nat;
  loop : Loop
}.

(** *** Field updates *)

Definition upd_hooks (f : Hooks -> Hooks) (st : State) : State :=
  {| hooks := f (hooks st); mounted := mounted st; video := video st;
     canvas := canvas st; frameCount := frameCount st; loadStage := loadStage st;
     pendingGetUserMedia := pendingGetUserMedia st; liveTracks := liveTracks st;
     estimateFacesCalls := estimateFacesCalls st; loop := loop st |}.

Definition upd_video (f : Video R -> Video R) (st : State) : State :=
  {| hooks := hooks st; mounted := mounted st; video := f (video st);
     canvas := canvas st; frameCount := frameCount st; loadStage := loadStage st;
     pendingGetUserMedia := pendingGetUserMedia st; liveTracks := liveTracks st;
     estimateFacesCalls := estimateFacesCalls st; loop := loop st |}.

Definition upd_canvas (f : Canvas R -> Canvas R) (st : State) : State :=
  {| hooks := hooks st; mounted := mounted st; video := video st;
     canvas := f (canvas st); frameCount := frameCount st; loadStage := loadStage st;
     pendingGetUserMedia := pendingGetUserMedia st; liveTracks := liveTracks st;
     estimateFacesCalls := estimateFacesCalls st; loop := loop st |}.

Definition upd_loop (f : Loop -> Loop) (st : State) : State :=
  {| hooks := hooks st; mounted := mounted st; video := video st;
     canvas := canvas st; frameCount := frameCount st; loadStage := loadStage st;
     pendingGetUserMedia := pendingGetUserMedia st; liveTracks := liveTracks st;
     estimateFacesCalls := estimateFacesCalls st; loop := f (loop st) |}.

Definition set_frameCount (n : nat) (st : State) : State :=
  {| hooks := hooks st; mounted := mounted st; video := video st;
     canvas := canvas st; frameCount := n; loadStage := loadStage st;
     pendingGetUserMedia := pendingGetUserMedia st; liveTracks := liveTracks st;
     estimateFacesCalls := estimateFacesCalls st; loop := loop st |}.

Definition set_loadStage (s : LoadStage) (st : State) : State :=
  {| hooks := hooks st; mounted := mounted st; video := video st;
     canvas := canvas st; frameCount := frameCount st; loadStage := s;
     pendingGetUserMedia := pendingGetUserMedia st; liveTracks := liveTracks st;
     estimateFacesCalls := estimateFacesCalls st; loop := loop st |}.

Definition set_pendingGetUserMedia (n : nat) (st : State) : State :=
  {| hooks := hooks st; mounted := mounted st; video := video st;
     canvas := canvas st; frameCount := frameCount st; loadStage := loadStage st;
     pendingGetUserMedia := n; liveTracks := liveTracks st;
     estimateFacesCalls := estimateFacesCalls st; loop := loop st |}.

Definition set_liveTracks (s : gset positive) (st : State) : State :=
  {| hooks := hooks st; mounted := mounted st; video := video st;
     canvas := canvas st; frameCount := frameCount st; loadStage := loadStage st;
     pendingGetUserMedia := pendingGetUserMedia st; liveTracks := s;
     estimateFacesCalls := estimateFacesCalls st; loop := loop st |}.

Definition count_estimateFaces (st : State) : State :=
  {| hooks := hooks st; mounted := mounted st; video := video st;
     canvas := canvas st; frameCount := frameCount st; loadStage := loadStage st;
     pendingGetUserMedia := pendingGetUserMedia st; liveTracks := liveTracks st;
     estimateFacesCalls := S (estimateFacesCalls st); loop := loop st |}.

(** The setters useState returns. *)
Definition setIsStreaming (b : bool) : State -> State :=
  upd_hooks (fun h => {| isStreaming := b; error := error h; model := model h;
    isLoading := isLoading h; predictions := predictions h; debugInfo := debugInfo h |}).

Definition setError (e : option string) : State -> State :=
  upd_hooks (fun h => {| isStreaming := isStreaming h; error := e; model := model h;
    isLoading := isLoading h; predictions := predictions h; debugInfo := debugInfo h |}).

Definition setModel (m : option Model) : State -> State :=
  upd_hooks (fun h => {| isStreaming := isStreaming h; error := error h; model := m;
    isLoading := isLoading h; predictions := predictions h; debugInfo := debugInfo h |}).

Definition setIsLoading (b : bool) : State -> State :=
  upd_hooks (fun h => {| isStreaming := isStreaming h; error := error h; model := model h;
    isLoading := b; predictions := predictions h; debugInfo := debugInfo h |}).

Definition setPredictions (p : list (FaceDetection R)) : State -> State :=
  upd_hooks (fun h => {| isStreaming := isStreaming h; error := error h; model := model h;
    isLoading := isLoading h; predictions := p; debugInfo := debugInfo h |}).

Definition setDebugInfo (d : DebugInfo R) : State -> State :=
  upd_hooks (fun h => {| isStreaming := isStreaming h; error := error h; model := model h;
    isLoading := isLoading h; predictions := predictions h; debugInfo := d |}).

(** *** Capture controller *)

(** startCamera up to [await getUserMedia]. *)
Definition startCamera (st : State) : State :=
  set_pendingGetUserMedia (S (pendingGetUserMedia st)) st.

(** startCamera after the await: the grant attaches the stream and
    installs the loadedmetadata handler, the denial surfaces an error. *)
Definition startCamera_resume (r : Settled MediaStream) (st : State) : State :=
  match pendingGetUserMedia st with
  | O => st
  | S n =>
    let st := set_pendingGetUserMedia n st in
    match r with
    | Fulfilled stream =>
      let st := set_liveTracks (liveTracks st ∪ list_to_set stream) st in
      if mounted st then
        setError None
          (upd_video (fun v => set_onloadedmetadata (set_srcObject (Some stream) v)) st)
      else st
    | Rejected _ =>
      setIsLoading false
        (setError (Some "Failed to access the camera. Please make sure you have given permission."%string) st)
    end
  end.

(** The loadedmetadata event of the video element: the intrinsic size is
    known, and the handler startCamera installed plays the video and
    marks the session as streaming. *)
Definition loadedmetadata (vw vh : R) (st : State) : State :=
  match srcObject (video st) with
  | None => st
  | Some _ =>
    let st := upd_video (set_metadata vw vh) st in
    if onloadedmetadata (video st) then
      setIsStreaming true (if mounted st then upd_video play st else st)
    else st
  end.

Definition stopCamera (st : State) : State :=
  if mounted st then
    match srcObject (video st) with
    | Some stream =>
      let st := set_liveTracks (liveTracks st ∖ list_to_set stream) st in
      let st := upd_video (set_srcObject None) st in
      let st := setIsStreaming false st in
      let st := setPredictions [] st in
      setDebugInfo (DebugText EmptyString) st
    | None => st
    end
  else st.

(** *** Model loader *)

(** The catch block of loadModel. *)
Definition loadModel_catch (st : State) : State :=
  set_loadStage LoadSettled
    (setIsLoading false (setError (Some "Failed to load the face detection model."%string) st)).

(** loadModel after [await tf.setBackend('webgl')]. *)
Definition loadModel_backend (r : Settled unit) (st : State) : State :=
  match loadStage st with
  | AwaitSetBackend =>
    match r with
    | Fulfilled _ => set_loadStage AwaitBlazefaceLoad st
    | Rejected _ => loadModel_catch st
    end
  | _ => st
  end.

(** loadModel after [await blazeface.load()]. *)
Definition loadModel_loaded (r : Settled Model) (st : State) : State :=
  match loadStage st with
  | AwaitBlazefaceLoad =>
    match r with
    | Fulfilled loadedModel =>
      set_loadStage LoadSettled (setIsLoading false (setModel (Some loadedModel) st))
    | Rejected _ => loadModel_catch st
    end
  | _ => st
  end.

(** *** Detection cycle *)

(** Whether an async call had already returned when it gave up control,
    or is suspended at an await. *)
Inductive Promise := Resolved | Pending.

(** The drawing of one face: the bounding box, then a filled circle per
    landmark. *)
Definition renderFace (scaleX scaleY : R) (face : FaceDetection R) : list (DrawCmd R) :=
  let '(x, y) := topLeft face in
  let width := (fst (bottomRight face) - fst (topLeft face))%js in
  let height := (snd (bottomRight face) - snd (topLeft face))%js in
  StrokeRect (x * scaleX)%js (y * scaleY)%js (width * scaleX)%js (height * scaleY)%js
  :: flat_map (fun landmark =>
       [BeginPath;
        Arc (fst landmark * scaleX)%js (snd landmark * scaleY)%js (num_of_Z 3);
        Fill]) (landmarks face).

(** The overlay renderer: what the try block draws for the predictions
    on a canvas of the given size. *)
Definition renderOverlay (w h scaleX scaleY : R) (predictions : list (FaceDetection R))
  : list (DrawCmd R) :=
  ClearRect (num_of_Z 0) (num_of_Z 0) w h
  :: SetFillStyle "rgba(255, 0, 0, 0.5)"
  :: SetStrokeStyle "#FF0000"
  :: SetLineWidth (num_of_Z 2)
  :: flat_map (renderFace scaleX scaleY) predictions.

(** detectFaces up to [await model.estimateFaces(video, returnTensors)],
    for the closure that captured [closure] as its model. *)
Definition detectFaces (closure : option Model) (k : Awaiter) (st : State)
  : State * Promise :=
  match mounted st, closure with
  | true, Some _ =>
    match getContext2d (canvas st) with
    | None => (st, Resolved)
    | Some ctx =>
      let st := upd_canvas (fun _ => ctx) st in
      if negb (readyState (video st) =? HAVE_ENOUGH_DATA)%nat then
        (upd_loop (requestAnimationFrame closure) st, Resolved)
      else
        let v := video st in
        let st := upd_canvas (set_size (clientWidth v) (clientHeight v)) st in
        let sx := (clientWidth v / videoWidth v)%js in
        let sy := (clientHeight v / videoHeight v)%js in
        (count_estimateFaces
           (upd_loop (add_inference {| scaleX := sx; scaleY := sy; awaiter := k |}) st),
         Pending)
    end
  | _, _ => (st, Resolved)
  end.

(** detectFaces after the await: the rest of the try block, or the catch
    block; either way the promise of detectFaces is fulfilled. *)
Definition detectFaces_resume (i : Inference) (r : Settled (list (FaceDetection R)))
    (st : State) : State * Settled unit :=
  match r with
  | Fulfilled predictions =>
    let st := setPredictions predictions st in
    let st := set_frameCount (S (frameCount st)) st in
    let st := setDebugInfo (DebugFrame (frameCount st) predictions) st in
    let st := upd_canvas (fun c =>
                draw (renderOverlay (width c) (height c) (scaleX i) (scaleY i) predictions) c) st in
    (st, Fulfilled tt)
  | Rejected err =>
    let st := setError (Some "Face detection failed. Please try again."%string) st in
    let st := setDebugInfo (DebugError err) st in
    (st, Fulfilled tt)
  end.

(** runDetection after [await detectFaces()]:
    [timeoutId = setTimeout(runDetection, 100)]. *)
Definition runDetection_resume (effect : positive) (closure : option Model)
    (r : Settled unit) (st : State) : State :=
  match r with
  | Fulfilled _ =>
    let id := nextTimer (loop st) in
    upd_loop (fun lp =>
      set_timeoutId effect id
        (setTimeout {| delay := 100; timerEffect := effect; timerClosure := closure |} lp)) st
  | Rejected _ => st
  end.

(** runDetection of the effect run [effect]. *)
Definition runDetection (effect : positive) (closure : option Model) (st : State) : State :=
  let '(st, p) := detectFaces closure (ResumeRunDetection effect closure) st in
  match p with
  | Resolved => runDetection_resume effect closure (Fulfilled tt) st
  | Pending => st
  end.

(** The settlement of a pending model.estimateFaces call. *)
Definition settle_inference (id : positive) (r : Settled (list (FaceDetection R)))
    (st : State) : State :=
  match inferences (loop st) !! id with
  | None => st
  | Some i =>
    let st := upd_loop (take_inference id) st in
    let '(st, done) := detectFaces_resume i r st in
    match awaiter i with
    | ResumeRunDetection effect closure => runDetection_resume effect closure done st
    | NoAwaiter => st
    end
  end.

Definition fire_timer (id : positive) (st : State) : State :=
  match timers (loop st) !! id with
  | None => st
  | Some t => runDetection (timerEffect t) (timerClosure t) (upd_loop (clearTimeout id) st)
  end.

Definition fire_animationFrame (id : positive) (st : State) : State :=
  match animationFrames (loop st) !! id with
  | None => st
  | Some closure => fst (detectFaces closure NoAwaiter (upd_loop (take_animationFrame id) st))
  end.

(** *** Effects *)

(** The cleanup of the detection effect: [if (timeoutId) clearTimeout(timeoutId)]. *)
Definition effect_cleanup (st : State) : State :=
  match timeoutIds (loop st) !! currentEffect (loop st) with
  | Some id => upd_loop (clearTimeout id) st
  | None => st
  end.

(** A commit of React: when [isStreaming] or [model] changed since the
    detection effect last ran, its cleanup runs and then its body, with
    the detectFaces closure of this render. *)
Definition flushEffects (st : State) : State :=
  let deps := (isStreaming (hooks st), model (hooks st)) in
  if decide (deps = effectDeps (loop st)) then st
  else
    let st := effect_cleanup st in
    let st := upd_loop (new_effect deps) st in
    if isStreaming (hooks st) && bool_decide (is_Some (model (hooks st))) then
      runDetection (currentEffect (loop st)) (model (hooks st)) st
    else st.

(** handleResize of the resize effect. *)
Definition handleResize (st : State) : State :=
  if mounted st then
    upd_canvas (set_size (clientWidth (video st)) (clientHeight (video st))) st
  else st.

(** *** The component as a transition system *)

Inductive Event :=
| EvSetBackend (r : Settled unit)
| EvBlazefaceLoad (r : Settled Model)
| EvClickStart
| EvGetUserMedia (r : Settled MediaStream)
| EvLoadedMetadata (vw vh : R)
| EvReadyState (rs : nat)
| EvLayout (cw ch : R)
| EvWindowResize
| EvClickStop
| EvFlushEffects
| EvTimer (id : positive)
| EvAnimationFrame (id : positive)
| EvInference (id : positive) (r : Settled (list (FaceDetection R))).

Definition step (st : State) (e : Event) : State :=
  match e with
  | EvSetBackend r => loadModel_backend r st
  | EvBlazefaceLoad r => loadModel_loaded r st
  | EvClickStart => startCamera st
  | EvGetUserMedia r => startCamera_resume r st
  | EvLoadedMetadata vw vh => loadedmetadata vw vh st
  | EvReadyState rs =>
    match srcObject (video st) with
    | Some _ => upd_video (set_readyState rs) st
    | None => st
    end
  | EvLayout cw ch => upd_video (set_layout cw ch) st
  | EvWindowResize => handleResize st
  | EvClickStop => stopCamera st
  | EvFlushEffects => flushEffects st
  | EvTimer id => fire_timer id st
  | EvAnimationFrame id => fire_animationFrame id st
  | EvInference id r => settle_inference id r st
  end.

Definition run (st : State) (es : list Event) : State := fold_left step es st.

(** What the JSX enables: the buttons follow [isStreaming] and
    [isLoading]; every other event is the environment's. *)
Definition enabled (st : State) (e : Event) : bool :=
  match e with
  | EvClickStart => negb (isStreaming (hooks st) || isLoading (hooks st))
  | EvClickStop => negb (negb (isStreaming (hooks st)) || isLoading (hooks st))
  | _ => true
  end.

(** Every event of a trace is enabled where it occurs. *)
Fixpoint all_enabled (st : State) (es : list Event) : bool :=
  match es with
  | [] => true
  | e :: es => enabled st e && all_enabled (step st e) es
  end.

(** The component after its first commit: nothing is streaming, the
    loading banner shows, loadModel is waiting for the backend, and the
    detection effect has run once without starting the loop. *)
Definition init : State :=
  {| hooks := {| isStreaming := false; error := None; model := None; isLoading := true;
                 predictions := []; debugInfo := DebugText EmptyString |};
     mounted := true;
     video := {| srcObject := None; readyState := HAVE_NOTHING; onloadedmetadata := false;
                 paused := true; clientWidth := num_of_Z 0; clientHeight := num_of_Z 0;
                 videoWidth := num_of_Z 0; videoHeight := num_of_Z 0 |};
     canvas := {| width := num_of_Z 300; height := num_of_Z 150;
                  contextMode := ModeNone; calls := [] |};
     frameCount := 0;
     loadStage := AwaitSetBackend;
     pendingGetUserMedia := 0;
     liveTracks := ∅;
     estimateFacesCalls := 0;
     loop := {| timers := ∅; nextTimer := 1; animationFrames := ∅; nextAnimationFrame := 1;
                inferences := ∅; nextInference := 1; timeoutIds := ∅;
                currentEffect := 1; nextEffect := 2; effectDeps := (false, None) |} |}.

(** *** Results panel *)

(** One entry of the list of results: the probability, the corners and
    the six labelled landmarks. *)
Record FaceItem := {
  itemIndex : nat;
  itemProbability : R;
  itemTopLeft : R * R;
  itemBottomRight : R * R;
  itemLandmarks : list (string * (R * R))
}.

Definition landmarkLabels : list string :=
  ["Right eye"; "Left eye"; "Nose"; "Mouth"; "Right ear"; "Left ear"]%string.

(** [face.landmarks[i][0]] and [face.landmarks[i][1]]: reading a
    coordinate of a landmark that is not there throws a TypeError. *)
Definition landmarkAt (face : FaceDetection R) (i : nat) : option (R * R) :=
  landmarks face !! i.

(** The <li> of one face; [None] when building it throws. *)
Definition renderItem (index : nat) (face : FaceDetection R) : option FaceItem :=
  l0 ← landmarkAt face 0;
  l1 ← landmarkAt face 1;
  l2 ← landmarkAt face 2;
  l3 ← landmarkAt face 3;
  l4 ← landmarkAt face 4;
  l5 ← landmarkAt face 5;
  Some {| itemIndex := index + 1;
          itemProbability := probability face;
          itemTopLeft := topLeft face;
          itemBottomRight := bottomRight face;
          itemLandmarks := zip landmarkLabels [l0; l1; l2; l3; l4; l5] |}.

Fixpoint renderItems (index : nat) (faces : list (FaceDetection R)) : option (list FaceItem) :=
  match faces with
  | [] => Some []
  | face :: faces =>
    item ← renderItem index face;
    items ← renderItems (S index) faces;
    Some (item :: items)
  end.

Inductive Panel :=
| PanelHidden
| PanelNoFaces
| PanelFaces (items : list FaceItem)
| PanelTypeError.

(** The "Face Detection Results" block of the JSX. *)
Definition resultsPanel (st : State) : Panel :=
  if isStreaming (hooks st) && bool_decide (is_Some (model (hooks st))) then
    if (0 <? length (predictions (hooks st)))%nat then
      match renderItems 0 (predictions (hooks st)) with
      | Some items => PanelFaces items
      | None => PanelTypeError
      end
    else PanelNoFaces
  else PanelHidden.

End Component.

Arguments State R : clear implicits.
Arguments Hooks R : clear implicits.
Arguments Event R : clear implicits.
Arguments Inference R : clear implicits.
Arguments FaceItem R : clear implicits.
Arguments Panel R : clear implicits.

End Camera.

(** ** The cropped-face variant of the camera component *)

(** The same component with a second model: every detected face is
    cropped into an offscreen canvas and passed to a landmark model.
    The transition system is built like that of camera.tsx; a cycle now
    has one await for the detections and one per face, and runDetection
    does not wait for the cycle it starts. *)

Module CroppedFaceCamera.

(** Handle of a result object of the landmark model
    (faceLandmarksDetection.Face); the component never looks inside. *)
Definition Face := positive.

Section Component.
Context {R : Type} `{JsNumber R}.

(** The two constants of the component, [const scaleFactor = 2] and
    [const yScalerPos = 0.85]; the definitions are stated for any values
    of them, [scaleFactor_value] and [yScalerPos_value] are the source's. *)
Variable scaleFactor : R.
Variable yScalerPos : R.

(** *** State *)

(** interface CroppedFace: [image] is the raster [toDataURL] encodes,
    [meshes] the field the source calls landmarks. *)
Record CroppedFace := {
  image : Canvas R;
  meshes : list Face
}.

(** The useState cells. *)
Record Hooks := {
  isStreaming : bool;
  error : option string;
  blazefaceModel : option Model;
  landmarkModel : option Model;
  isLoading : bool;
  predictions : list (FaceDetection R);
  croppedFaces : list CroppedFace;
  debugInfo : DebugInfo R
}.

Inductive LoadStage :=
| AwaitSetBackend
| AwaitBlazefaceLoad
| AwaitCreateDetector
| LoadSettled.

(** A detectFaces call suspended at one of its awaits, with its locals:
    at [await blazefaceModel.estimateFaces], or inside the for-of loop at
    [await landmarkModel.estimateFaces(croppedCanvas)] with the faces
    still to visit and the entries pushed so far. *)
Inductive Suspended :=
| AwaitBlazeface (scaleX scaleY : R)
| AwaitLandmarks (scaleX scaleY : R) (predictions : list (FaceDetection R))
    (croppedCanvas : Canvas R) (rest : list (FaceDetection R))
    (newCroppedFaces : list CroppedFace).

(** A detectFaces closure is the pair of models it captured. *)
Definition Closure : Type := option Model * option Model.

Definition Loop : Type := EventLoop Closure Suspended (bool * Closure).

Record State := {
  hooks : Hooks;
  mounted : bool;
  video : Video R;
  canvas : Canvas R;
  loadStage : LoadStage;
  pendingGetUserMedia : nat;
  liveTracks : gset positive;
  blazefaceCalls : nat;
  landmarkCalls : nat;
  loop : Loop
}.

(** *** Field updates *)

Definition upd_hooks (f : Hooks -> Hooks) (st : State) : State :=
  {| hooks := f (hooks st); mounted := mounted st; video := video st;
     canvas := canvas st; loadStage := loadStage st;
     pendingGetUserMedia := pendingGetUserMedia st; liveTracks := liveTracks st;
     blazefaceCalls := blazefaceCalls st; landmarkCalls := landmarkCalls st;
     loop := loop st |}.

Definition upd_video (f : Video R -> Video R) (st : State) : State :=
  {| hooks := hooks st; mounted := mounted st; video := f (video st);
     canvas := canvas st; loadStage := loadStage st;
     pendingGetUserMedia := pendingGetUserMedia st; liveTracks := liveTracks st;
     blazefaceCalls := blazefaceCalls st; landmarkCalls := landmarkCalls st;
     loop := loop st |}.

Definition upd_canvas (f : Canvas R -> Canvas R) (st : State) : State :=
  {| hooks := hooks st; mounted := mounted st; video := video st;
     canvas := f (canvas st); loadStage := loadStage st;
     pendingGetUserMedia := pendingGetUserMedia st; liveTracks := liveTracks st;
     blazefaceCalls := blazefaceCalls st; landmarkCalls := landmarkCalls st;
     loop := loop st |}.

Definition upd_loop (f : Loop -> Loop) (st : State) : State :=
  {| hooks := hooks st; mounted := mounted st; video := video st;
     canvas := canvas st; loadStage := loadStage st;
     pendingGetUserMedia := pendingGetUserMedia st; liveTracks := liveTracks st;
     blazefaceCalls := blazefaceCalls st; landmarkCalls := landmarkCalls st;
     loop := f (loop st) |}.

Definition set_loadStage (s : LoadStage) (st : State) : State :=
  {| hooks := hooks st; mounted := mounted st; video := video st;
     canvas := canvas st; loadStage := s;
     pendingGetUserMedia := pendingGetUserMedia st; liveTracks := liveTracks st;
     blazefaceCalls := blazefaceCalls st; landmarkCalls := landmarkCalls st;
     loop := loop st |}.

Definition set_pendingGetUserMedia (n : nat) (st : State) : State :=
  {| hooks := hooks st; mounted := mounted st; video := video st;
     canvas := canvas st; loadStage := loadStage st;
     pendingGetUserMedia := n; liveTracks := liveTracks st;
     blazefaceCalls := blazefaceCalls st; landmarkCalls := landmarkCalls st;
     loop := loop st |}.

Definition set_liveTracks (s : gset positive) (st : State) : State :=
  {| hooks := hooks st; mounted := mounted st; video := video st;
     canvas := canvas st; loadStage := loadStage st;
     pendingGetUserMedia := pendingGetUserMedia st; liveTracks := s;
     blazefaceCalls := blazefaceCalls st; landmarkCalls := landmarkCalls st;
     loop := loop st |}.

Definition count_blazeface (st : State) : State :=
  {| hooks := hooks st; mounted := mounted st; video := video st;
     canvas := canvas st; loadStage := loadStage st;
     pendingGetUserMedia := pendingGetUserMedia st; liveTracks := liveTracks st;
     blazefaceCalls := S (blazefaceCalls st); landmarkCalls := landmarkCalls st;
     loop := loop st |}.

Definition count_landmark (st : State) : State :=
  {| hooks := hooks st; mounted := mounted st; video := video st;
     canvas := canvas st; loadStage := loadStage st;
     pendingGetUserMedia := pendingGetUserMedia st; liveTracks := liveTracks st;
     blazefaceCalls := blazefaceCalls st; landmarkCalls := S (landmarkCalls st);
     loop := loop st |}.

Definition setIsStreaming (b : bool) : State -> State :=
  upd_hooks (fun h => {| isStreaming := b; error := error h;
    blazefaceModel := blazefaceModel h; landmarkModel := landmarkModel h;
    isLoading := isLoading h; predictions := predictions h;
    croppedFaces := croppedFaces h; debugInfo := debugInfo h |}).

Definition setError (e : option string) : State -> State :=
  upd_hooks (fun h => {| isStreaming := isStreaming h; error := e;
    blazefaceModel := blazefaceModel h; landmarkModel := landmarkModel h;
    isLoading := isLoading h; predictions := predictions h;
    croppedFaces := croppedFaces h; debugInfo := debugInfo h |}).

Definition setBlazefaceModel (m : option Model) : State -> State :=
  upd_hooks (fun h => {| isStreaming := isStreaming h; error := error h;
    blazefaceModel := m; landmarkModel := landmarkModel h;
    isLoading := isLoading h; predictions := predictions h;
    croppedFaces := croppedFaces h; debugInfo := debugInfo h |}).

Definition setLandmarkModel (m : option Model) : State -> State :=
  upd_hooks (fun h => {| isStreaming := isStreaming h; error := error h;
    blazefaceModel := blazefaceModel h; landmarkModel := m;
    isLoading := isLoading h; predictions := predictions h;
    croppedFaces := croppedFaces h; debugInfo := debugInfo h |}).

Definition setIsLoading (b : bool) : State -> State :=
  upd_hooks (fun h => {| isStreaming := isStreaming h; error := error h;
    blazefaceModel := blazefaceModel h; landmarkModel := landmarkModel h;
    isLoading := b; predictions := predictions h;
    croppedFaces := croppedFaces h; debugInfo := debugInfo h |}).

Definition setPredictions (p : list (FaceDetection R)) : State -> State :=
  upd_hooks (fun h => {| isStreaming := isStreaming h; error := error h;
    blazefaceModel := blazefaceModel h; landmarkModel := landmarkModel h;
    isLoading := isLoading h; predictions := p;
    croppedFaces := croppedFaces h; debugInfo := debugInfo h |}).

Definition setCroppedFaces (c : list CroppedFace) : State -> State :=
  upd_hooks (fun h => {| isStreaming := isStreaming h; error := error h;
    blazefaceModel := blazefaceModel h; landmarkModel := landmarkModel h;
    isLoading := isLoading h; predictions := predictions h;
    croppedFaces := c; debugInfo := debugInfo h |}).

Definition setDebugInfo (d : DebugInfo R) : State -> State :=
  upd_hooks (fun h => {| isStreaming := isStreaming h; error := error h;
    blazefaceModel := blazefaceModel h; landmarkModel := landmarkModel h;
    isLoading := isLoading h; predictions := predictions h;
    croppedFaces := croppedFaces h; debugInfo := d |}).

(** *** Capture controller *)

Definition startCamera (st : State) : State :=
  set_pendingGetUserMedia (S (pendingGetUserMedia st)) st.

Definition startCamera_resume (r : Settled MediaStream) (st : State) : State :=
  match pendingGetUserMedia st with
  | O => st
  | S n =>
    let st := set_pendingGetUserMedia n st in
    match r with
    | Fulfilled stream =>
      let st := set_liveTracks (liveTracks st ∪ list_to_set stream) st in
      if mounted st then
        setError None
          (upd_video (fun v => set_onloadedmetadata (set_srcObject (Some stream) v)) st)
      else st
    | Rejected _ =>
      setIsLoading false
        (setError (Some "Failed to access the camera. Please make sure you have given permission."%string) st)
    end
  end.

Definition loadedmetadata (vw vh : R) (st : State) : State :=
  match srcObject (video st) with
  | None => st
  | Some _ =>
    let st := upd_video (set_metadata vw vh) st in
    if onloadedmetadata (video st) then
      setIsStreaming true (if mounted st then upd_video play st else st)
    else st
  end.

Definition stopCamera (st : State) : State :=
  if mounted st then
    match srcObject (video st) with
    | Some stream =>
      let st := set_liveTracks (liveTracks st ∖ list_to_set stream) st in
      let st := upd_video (set_srcObject None) st in
      let st := setIsStreaming false st in
      let st := setPredictions [] st in
      let st := setCroppedFaces [] st in
      setDebugInfo (DebugText EmptyString) st
    | None => st
    end
  else st.

(** *** Model loader *)

(** The catch block of loadModels. *)
Definition loadModels_catch (err : string) (st : State) : State :=
  let st := setError (Some "Failed to load the face detection models."%string) st in
  let st := setDebugInfo (DebugLoadError err) st in
  set_loadStage LoadSettled (setIsLoading false st).

Definition loadModels_backend (r : Settled unit) (st : State) : State :=
  match loadStage st with
  | AwaitSetBackend =>
    match r with
    | Fulfilled _ => set_loadStage AwaitBlazefaceLoad st
    | Rejected err => loadModels_catch err st
    end
  | _ => st
  end.

Definition loadModels_blazeface (r : Settled Model) (st : State) : State :=
  match loadStage st with
  | AwaitBlazefaceLoad =>
    match r with
    | Fulfilled blazefaceLoadedModel =>
      set_loadStage AwaitCreateDetector (setBlazefaceModel (Some blazefaceLoadedModel) st)
    | Rejected err => loadModels_catch err st
    end
  | _ => st
  end.

Definition loadModels_detector (r : Settled Model) (st : State) : State :=
  match loadStage st with
  | AwaitCreateDetector =>
    match r with
    | Fulfilled landmarkLoadedModel =>
      let st := setLandmarkModel (Some landmarkLoadedModel) st in
      let st := setIsLoading false st in
      set_loadStage LoadSettled (setDebugInfo (DebugText "Models loaded successfully") st)
    | Rejected err => loadModels_catch err st
    end
  | _ => st
  end.

(** *** Secondary pipeline *)

(** document.createElement('canvas'): a fresh canvas of the default size. *)
Definition createElement_canvas : Canvas R :=
  {| width := num_of_Z 300; height := num_of_Z 150; contextMode := ModeNone; calls := [] |}.

Definition cropFace (video : Video R) (face : FaceDetection R) : Canvas R :=
  let tempCanvas := createElement_canvas in
  match getContext2d tempCanvas with
  | None => tempCanvas
  | Some tempCtx =>
    let '(x, y) := topLeft face in
    let width := (fst (bottomRight face) - fst (topLeft face))%js in
    let height := (snd (bottomRight face) - snd (topLeft face))%js in
    let scaledWidth := (width * scaleFactor)%js in
    let scaledHeight := (height * scaleFactor)%js in
    let scaledX := (x - (scaledWidth - width) / num_of_Z 2)%js in
    let scaledY := (y * yScalerPos - (scaledHeight - height) / num_of_Z 2)%js in
    draw [DrawImage scaledX scaledY scaledWidth scaledHeight
            (num_of_Z 0) (num_of_Z 0) scaledWidth scaledHeight]
         (set_size scaledWidth scaledHeight tempCtx)
  end.

(** *** Detection cycle *)

Inductive Promise := Resolved | Pending.

(** What one iteration of the for-of loop draws before it crops:
    [yScalerPos] multiplies the top of the box and nothing else. *)
Definition renderFace (scaleX scaleY : R) (face : FaceDetection R) : list (DrawCmd R) :=
  let '(x, y) := topLeft face in
  let width := (fst (bottomRight face) - fst (topLeft face))%js in
  let height := (snd (bottomRight face) - snd (topLeft face))%js in
  StrokeRect (x * scaleX)%js (y * scaleY * yScalerPos)%js (width * scaleX)%js (height * scaleY)%js
  :: flat_map (fun landmark =>
       [BeginPath;
        Arc (fst landmark * scaleX)%js (snd landmark * scaleY)%js (num_of_Z 3);
        Fill]) (landmarks face).

(** The for-of loop from the face at the head of [rest] on, until its
    next await or its end, and then the two setters after the loop. *)
Definition detectFaces_loop (scaleX scaleY : R) (predictions rest : list (FaceDetection R))
    (newCroppedFaces : list CroppedFace) (id : positive) (st : State) : State * Promise :=
  match rest with
  | face :: rest =>
    let st := upd_canvas (draw (renderFace scaleX scaleY face)) st in
    let croppedCanvas := cropFace (video st) face in
    let st := count_landmark st in
    (upd_loop (fun lp =>
       {| timers := timers lp; nextTimer := nextTimer lp;
          animationFrames := animationFrames lp;
          nextAnimationFrame := nextAnimationFrame lp;
          inferences := <[id := AwaitLandmarks scaleX scaleY predictions croppedCanvas
                                  rest newCroppedFaces]> (inferences lp);
          nextInference := nextInference lp; timeoutIds := timeoutIds lp;
          currentEffect := currentEffect lp; nextEffect := nextEffect lp;
          effectDeps := effectDeps lp |}) st, Pending)
  | [] =>
    let st := setCroppedFaces newCroppedFaces st in
    (setDebugInfo (DebugDetected (length predictions) predictions) st, Resolved)
  end.

(** The catch block of detectFaces. *)
Definition detectFaces_catch (err : string) (st : State) : State :=
  setDebugInfo (DebugError err) (setError (Some "Face detection failed. Please try again."%string) st).

(** detectFaces up to [await blazefaceModel.estimateFaces(video, false)]. *)
Definition detectFaces (closure : Closure) (st : State) : State * Promise :=
  match mounted st, closure with
  | true, (Some _, Some _) =>
    match getContext2d (canvas st) with
    | None => (st, Resolved)
    | Some ctx =>
      let st := upd_canvas (fun _ => ctx) st in
      if negb (readyState (video st) =? HAVE_ENOUGH_DATA)%nat then
        (upd_loop (requestAnimationFrame closure) st, Resolved)
      else
        let v := video st in
        let st := upd_canvas (set_size (clientWidth v) (clientHeight v)) st in
        let sx := (clientWidth v / videoWidth v)%js in
        let sy := (clientHeight v / videoHeight v)%js in
        (count_blazeface (upd_loop (add_inference (AwaitBlazeface sx sy)) st), Pending)
    end
  | _, _ => (st, Resolved)
  end.

(** detectFaces after [await blazefaceModel.estimateFaces]. *)
Definition detectFaces_detected (id : positive) (scaleX scaleY : R)
    (r : Settled (list (FaceDetection R))) (st : State) : State * Promise :=
  match r with
  | Fulfilled predictions =>
    let st := setPredictions predictions st in
    let st := upd_canvas (fun c =>
                draw [ClearRect (num_of_Z 0) (num_of_Z 0) (width c) (height c);
                      SetFillStyle "rgba(255, 0, 0, 0.5)";
                      SetStrokeStyle "#FF0000";
                      SetLineWidth (num_of_Z 2)] c) st in
    detectFaces_loop scaleX scaleY predictions predictions [] id st
  | Rejected err => (detectFaces_catch err st, Resolved)
  end.

(** detectFaces after [await landmarkModel.estimateFaces(croppedCanvas)]:
    the push, then the next iteration. *)
Definition detectFaces_landmarked (id : positive) (scaleX scaleY : R)
    (predictions : list (FaceDetection R)) (croppedCanvas : Canvas R)
    (rest : list (FaceDetection R)) (newCroppedFaces : list CroppedFace)
    (r : Settled (list Face)) (st : State) : State * Promise :=
  match r with
  | Fulfilled landmarks =>
    detectFaces_loop scaleX scaleY predictions rest
      (newCroppedFaces ++ [{| image := croppedCanvas; meshes := landmarks |}]) id st
  | Rejected err => (detectFaces_catch err st, Resolved)
  end.

(** runDetection: [detectFaces(); timeoutId = setTimeout(runDetection, 600)],
    the promise of detectFaces is not awaited. *)
Definition runDetection (effect : positive) (closure : Closure) (st : State) : State :=
  let st := fst (detectFaces closure st) in
  let id := nextTimer (loop st) in
  upd_loop (fun lp =>
    set_timeoutId effect id
      (setTimeout {| delay := 600; timerEffect := effect; timerClosure := closure |} lp)) st.

Definition settle_blazeface (id : positive) (r : Settled (list (FaceDetection R)))
    (st : State) : State :=
  match inferences (loop st) !! id with
  | Some (AwaitBlazeface sx sy) =>
    fst (detectFaces_detected id sx sy r (upd_loop (take_inference id) st))
  | _ => st
  end.

Definition settle_landmarks (id : positive) (r : Settled (list Face)) (st : State) : State :=
  match inferences (loop st) !! id with
  | Some (AwaitLandmarks sx sy predictions croppedCanvas rest newCroppedFaces) =>
    fst (detectFaces_landmarked id sx sy predictions croppedCanvas rest newCroppedFaces r
           (upd_loop (take_inference id) st))
  | _ => st
  end.

Definition fire_timer (id : positive) (st : State) : State :=
  match timers (loop st) !! id with
  | None => st
  | Some t => runDetection (timerEffect t) (timerClosure t) (upd_loop (clearTimeout id) st)
  end.

Definition fire_animationFrame (id : positive) (st : State) : State :=
  match animationFrames (loop st) !! id with
  | None => st
  | Some closure => fst (detectFaces closure (upd_loop (take_animationFrame id) st))
  end.

(** *** Effects *)

Definition effect_cleanup (st : State) : State :=
  match timeoutIds (loop st) !! currentEffect (loop st) with
  | Some id => upd_loop (clearTimeout id) st
  | None => st
  end.

(** A commit of React: the detection effect depends on [isStreaming],
    the two models and the detectFaces closure, which changes with the
    models only. *)
Definition flushEffects (st : State) : State :=
  let closure := (blazefaceModel (hooks st), landmarkModel (hooks st)) in
  let deps := (isStreaming (hooks st), closure) in
  if decide (deps = effectDeps (loop st)) then st
  else
    let st := effect_cleanup st in
    let st := upd_loop (new_effect deps) st in
    if isStreaming (hooks st) && bool_decide (is_Some (blazefaceModel (hooks st)))
       && bool_decide (is_Some (landmarkModel (hooks st))) then
      runDetection (currentEffect (loop st)) closure st
    else st.

(** *** The component as a transition system *)

Inductive Event :=
| EvSetBackend (r : Settled unit)
| EvBlazefaceLoad (r : Settled Model)
| EvCreateDetector (r : Settled Model)
| EvClickStart
| EvGetUserMedia (r : Settled MediaStream)
| EvLoadedMetadata (vw vh : R)
| EvReadyState (rs : nat)
| EvLayout (cw ch : R)
| EvClickStop
| EvFlushEffects
| EvTimer (id : positive)
| EvAnimationFrame (id : positive)
| EvBlazeface (id : positive) (r : Settled (list (FaceDetection R)))
| EvLandmarks (id : positive) (r : Settled (list Face)).

Definition step (st : State) (e : Event) : State :=
  match e with
  | EvSetBackend r => loadModels_backend r st
  | EvBlazefaceLoad r => loadModels_blazeface r st
  | EvCreateDetector r => loadModels_detector r st
  | EvClickStart => startCamera st
  | EvGetUserMedia r => startCamera_resume r st
  | EvLoadedMetadata vw vh => loadedmetadata vw vh st
  | EvReadyState rs =>
    match srcObject (video st) with
    | Some _ => upd_video (set_readyState rs) st
    | None => st
    end
  | EvLayout cw ch => upd_video (set_layout cw ch) st
  | EvClickStop => stopCamera st
  | EvFlushEffects => flushEffects st
  | EvTimer id => fire_timer id st
  | EvAnimationFrame id => fire_animationFrame id st
  | EvBlazeface id r => settle_blazeface id r st
  | EvLandmarks id r => settle_landmarks id r st
  end.

Definition run (st : State) (es : list Event) : State := fold_left step es st.

Definition enabled (st : State) (e : Event) : bool :=
  match e with
  | EvClickStart => negb (isStreaming (hooks st) || isLoading (hooks st))
  | EvClickStop => negb (negb (isStreaming (hooks st)) || isLoading (hooks st))
  | _ => true
  end.

Fixpoint all_enabled (st : State) (es : list Event) : bool :=
  match es with
  | [] => true
  | e :: es => enabled st e && all_enabled (step st e) es
  end.

(** The component after its first commit. *)
Definition init : State :=
  {| hooks := {| isStreaming := false; error := None; blazefaceModel := None;
                 landmarkModel := None; isLoading := true; predictions := [];
                 croppedFaces := []; debugInfo := DebugText EmptyString |};
     mounted := true;
     video := {| srcObject := None; readyState := HAVE_NOTHING; onloadedmetadata := false;
                 paused := true; clientWidth := num_of_Z 0; clientHeight := num_of_Z 0;
                 videoWidth := num_of_Z 0; videoHeight := num_of_Z 0 |};
     canvas := {| width := num_of_Z 300; height := num_of_Z 150;
                  contextMode := ModeNone; calls := [] |};
     loadStage := AwaitSetBackend;
     pendingGetUserMedia := 0;
     liveTracks := ∅;
     blazefaceCalls := 0;
     landmarkCalls := 0;
     loop := {| timers := ∅; nextTimer := 1; animationFrames := ∅; nextAnimationFrame := 1;
                inferences := ∅; nextInference := 1; timeoutIds := ∅;
                currentEffect := 1; nextEffect := 2; effectDeps := (false, (None, None)) |} |}.

(** The detectFaces calls suspended at an await. *)
Definition cyclesInFlight (st : State) : nat := size (inferences (loop st)).

End Component.

Arguments State R : clear implicits.
Arguments Hooks R : clear implicits.
Arguments Event R : clear implicits.
Arguments CroppedFace R : clear implicits.
Arguments Suspended R : clear implicits.

(** The values the source gives the two constants; in doubles the
    quotient 85 / 100 is the literal 0.85. *)
Definition scaleFactor_value {R : Type} `{JsNumber R} : R := num_of_Z 2.
Definition yScalerPos_value {R : Type} `{JsNumber R} : R := (num_of_Z 85 / num_of_Z 100)%js.

End CroppedFaceCamera.

(** * Vocabulary of the properties *)

(** ** Predicates on states and events *)

Section Vocabulary.
Context {R : Type} `{JsNumber R}.

(** The bounding box the renderer owes a detection under the given
    scale factors. *)
Definition scaledBox (scaleX scaleY : R) (face : FaceDetection R) : DrawCmd R :=
  StrokeRect (fst (topLeft face) * scaleX)%js
             (snd (topLeft face) * scaleY)%js
             ((fst (bottomRight face) - fst (topLeft face)) * scaleX)%js
             ((snd (bottomRight face) - snd (topLeft face)) * scaleY)%js.


(** Nothing of the detection loop exists: no timer, no animation-frame
    callback, no suspended cycle, and the model was never called. *)
Definition idle (st : Camera.State R) : Prop :=
  timers (Camera.loop st) = ∅
  /\ animationFrames (Camera.loop st) = ∅
  /\ inferences (Camera.loop st) = ∅
  /\ Camera.estimateFacesCalls st = 0.

(** The load operation fails at [e]: the promise it is waiting for is
    rejected. *)
Definition loadFails (st : Camera.State R) (e : Camera.Event R) : bool :=
  match Camera.loadStage st, e with
  | Camera.AwaitSetBackend, Camera.EvSetBackend (Rejected _) => true
  | Camera.AwaitBlazefaceLoad, Camera.EvBlazefaceLoad (Rejected _) => true
  | _, _ => false
  end.

(** Until the load settles no model is stored, and without a stored
    model the detection loop is idle. *)
Definition loader_inv (st : Camera.State R) : Prop :=
  (Camera.loadStage st <> Camera.LoadSettled -> Camera.model (Camera.hooks st) = None)
  /\ (Camera.model (Camera.hooks st) = None -> idle st).

(** The state of a session whose load has failed. *)
Definition load_failed (st : Camera.State R) : Prop :=
  Camera.loadStage st = Camera.LoadSettled
  /\ Camera.model (Camera.hooks st) = None
  /\ Camera.isLoading (Camera.hooks st) = false
  /\ idle st.


(** The grant of a getUserMedia request, which attaches a new stream. *)
Definition grants (e : Camera.Event R) : bool :=
  match e with
  | Camera.EvGetUserMedia (Fulfilled _) => true
  | _ => false
  end.


End Vocabulary.

Section CroppedVocabulary.
Context {R : Type} `{JsNumber R}.
Variable scaleFactor : R.
Variable yScalerPos : R.

(** The entry the loop pushes for a face and the answer of the landmark
    model on its crop. *)
Definition croppedEntry (video : Video R) (face : FaceDetection R)
    (landmarks : list CroppedFaceCamera.Face) : CroppedFaceCamera.CroppedFace R :=
  {| CroppedFaceCamera.image := CroppedFaceCamera.cropFace scaleFactor yScalerPos video face;
     CroppedFaceCamera.meshes := landmarks |}.

(** The settlements of one cycle, in order: the detections, then the
    landmarks of each face. *)
Definition cycleEvents (id : positive) (preds : list (FaceDetection R))
    (answers : list (list CroppedFaceCamera.Face)) : list (CroppedFaceCamera.Event R) :=
  CroppedFaceCamera.EvBlazeface id (Fulfilled preds)
  :: map (fun landmarks => CroppedFaceCamera.EvLandmarks id (Fulfilled landmarks)) answers.

(** The same for the cropped-face variant: while the session is
    streaming a stream is attached. *)
Definition cropped_streaming_attached (st : CroppedFaceCamera.State R) : Prop :=
  CroppedFaceCamera.mounted st = true
  /\ (CroppedFaceCamera.isStreaming (CroppedFaceCamera.hooks st) = true ->
      is_Some (srcObject (CroppedFaceCamera.video st))).

(** What the detection loop of the cropped-face variant never touches:
    the refs, the video element and the streaming flag. *)
Definition same_capture (st st' : CroppedFaceCamera.State R) : Prop :=
  CroppedFaceCamera.mounted st' = CroppedFaceCamera.mounted st
  /\ CroppedFaceCamera.video st' = CroppedFaceCamera.video st
  /\ CroppedFaceCamera.isStreaming (CroppedFaceCamera.hooks st')
     = CroppedFaceCamera.isStreaming (CroppedFaceCamera.hooks st).

End CroppedVocabulary.

(** Closes the goal of a step that leaves the model and the load stage
    as they are. *)
Ltac unchanged :=
  left; split; [reflexivity | left; first [reflexivity | assumption]].


(** ** Sessions and faces of the examples *)

(** The example of the specification, in doubles: native size 640x480
    shown at 320x240, one detection from (100,100) to (200,200). *)
Definition exampleFace : FaceDetection float :=
  {| topLeft := (100%float, 100%float); bottomRight := (200%float, 200%float);
     probability := 0.99%float;
     landmarks := [(120%float, 130%float); (170%float, 130%float); (145%float, 150%float);
                   (145%float, 175%float); (105%float, 140%float); (195%float, 140%float)] |}.

(** A session up to the start of the detection loop: the model loads,
    the camera starts, the first cycle finds the video not ready, asks
    for an animation frame and reschedules itself, and the video
    buffers. *)
Definition startedSession : list (Camera.Event float) :=
  [Camera.EvSetBackend (Fulfilled tt);
   Camera.EvBlazefaceLoad (Fulfilled 1%positive);
   Camera.EvFlushEffects;
   Camera.EvLayout 320%float 240%float;
   Camera.EvClickStart;
   Camera.EvGetUserMedia (Fulfilled [1%positive]);
   Camera.EvLoadedMetadata 640%float 480%float;
   Camera.EvFlushEffects;
   Camera.EvReadyState HAVE_ENOUGH_DATA].

(** The same session up to the first cycle that runs the model: the
    timer of the loop fires and the cycle waits for the model. *)
Definition exampleSession : list (Camera.Event float) :=
  startedSession ++ [Camera.EvTimer 1].

(** The session in which the animation frame of the first cycle fires
    first and its detectFaces is still waiting for the model when the
    timer of the loop fires. *)
Definition animationFrameSession : list (Camera.Event float) :=
  startedSession ++ [Camera.EvAnimationFrame 1; Camera.EvTimer 1].

(** A session of the cropped-face variant in which createDetector
    fails after the BlazeFace model has loaded, and the camera is
    started afterwards. *)
Definition detectorFailureSession : list (CroppedFaceCamera.Event float) :=
  [CroppedFaceCamera.EvSetBackend (Fulfilled tt);
   CroppedFaceCamera.EvBlazefaceLoad (Fulfilled 1%positive);
   CroppedFaceCamera.EvCreateDetector (Rejected "fetch failed");
   CroppedFaceCamera.EvFlushEffects;
   CroppedFaceCamera.EvClickStart;
   CroppedFaceCamera.EvGetUserMedia (Fulfilled [1%positive]);
   CroppedFaceCamera.EvLoadedMetadata 640%float 480%float;
   CroppedFaceCamera.EvReadyState HAVE_ENOUGH_DATA;
   CroppedFaceCamera.EvFlushEffects].




(** A session of camera.tsx in which Stop is clicked while the model is
    running on a frame, and the model answers afterwards. *)
Definition stopInFlightSession : list (Camera.Event float) :=
  exampleSession
  ++ [Camera.EvClickStop; Camera.EvFlushEffects;
      Camera.EvInference 1 (Fulfilled [exampleFace])].

(** A session whose load fails when blazeface.load() rejects; the user
    starts the camera afterwards and the stream plays. *)
Definition failedLoadSession : list (Camera.Event float) :=
  [Camera.EvClickStart;
   Camera.EvGetUserMedia (Fulfilled [1%positive]);
   Camera.EvLoadedMetadata 640%float 480%float;
   Camera.EvFlushEffects;
   Camera.EvReadyState HAVE_ENOUGH_DATA;
   Camera.EvTimer 1;
   Camera.EvAnimationFrame 1].

(** A session in which Stop is clicked between two cycles: the first
    cycle has completed and its successor is pending. *)
Definition stopBetweenCycles : list (Camera.Event float) :=
  exampleSession ++ [Camera.EvInference 1 (Fulfilled [exampleFace])].


(** A session of the cropped-face variant in which the first cycle is
    still waiting for the model when its timer fires. *)
Definition overlapSession : list (CroppedFaceCamera.Event float) :=
  [CroppedFaceCamera.EvSetBackend (Fulfilled tt);
   CroppedFaceCamera.EvBlazefaceLoad (Fulfilled 1%positive);
   CroppedFaceCamera.EvCreateDetector (Fulfilled 2%positive);
   CroppedFaceCamera.EvFlushEffects;
   CroppedFaceCamera.EvLayout 320%float 240%float;
   CroppedFaceCamera.EvClickStart;
   CroppedFaceCamera.EvGetUserMedia (Fulfilled [1%positive]);
   CroppedFaceCamera.EvLoadedMetadata 640%float 480%float;
   CroppedFaceCamera.EvReadyState HAVE_ENOUGH_DATA;
   CroppedFaceCamera.EvFlushEffects].

(** The faces and the answers of the landmark model in the example of
    a complete cycle. *)
Definition secondFace : FaceDetection float :=
  {| topLeft := (300%float, 120%float); bottomRight := (380%float, 220%float);
     probability := 0.8%float; landmarks := [(320%float, 150%float)] |}.


(** ** Vocabulary of the further properties *)

Section LoopVocabulary.
Context {C I D : Type}.

(** Every handle in use was issued before [n]. *)
Definition below {A : Type} (m : gmap positive A) (n : positive) : Prop :=
  forall id, is_Some (m !! id) -> (id < n)%positive.

(** [timeoutId = setTimeout(runDetection, delay)] in the runDetection of
    the effect run [effect]. *)
Definition schedule (ms : nat) (effect : positive) (closure : C)
    (lp : EventLoop C I D) : EventLoop C I D :=
  set_timeoutId effect (nextTimer lp)
    (setTimeout {| delay := ms; timerEffect := effect; timerClosure := closure |} lp).

(** The browser issues fresh handles, a [timeoutId] variable holds a
    handle that was issued, and the timer it names, while pending, is
    the one its own effect run scheduled; effect runs are numbered in
    the order of the commits. *)
Definition loop_wf (lp : EventLoop C I D) : Prop :=
  below (timers lp) (nextTimer lp)
  /\ below (animationFrames lp) (nextAnimationFrame lp)
  /\ below (inferences lp) (nextInference lp)
  /\ (forall effect id, timeoutIds lp !! effect = Some id -> (id < nextTimer lp)%positive)
  /\ (forall effect id t, timeoutIds lp !! effect = Some id -> timers lp !! id = Some t ->
                          timerEffect t = effect)
  /\ (currentEffect lp < nextEffect lp)%positive.

End LoopVocabulary.

Section CameraVocabulary.
Context {R : Type} `{JsNumber R}.

(** The circles the renderer owes the landmarks of a detection. *)
Definition scaledCircles (scaleX scaleY : R) (face : FaceDetection R) : list (DrawCmd R) :=
  map (fun landmark => Arc (fst landmark * scaleX)%js (snd landmark * scaleY)%js (num_of_Z 3))
      (landmarks face).

(** No stream was ever attached: the session is not streaming and the
    detection loop is idle. *)
Definition not_capturing (st : Camera.State R) : Prop :=
  srcObject (Camera.video st) = None
  /\ Camera.isStreaming (Camera.hooks st) = false
  /\ idle st.

(** The events that run code of the detection loop. *)
Definition touches_loop (e : Camera.Event R) : bool :=
  match e with
  | Camera.EvFlushEffects | Camera.EvTimer _ | Camera.EvAnimationFrame _
  | Camera.EvInference _ _ => true
  | _ => false
  end.

Definition commits (e : Camera.Event R) : bool :=
  match e with
  | Camera.EvFlushEffects => true
  | _ => false
  end.

(** The loop of the effect run [effect] is going: its timer is pending,
    or its runDetection awaits a cycle that waits for the model. *)
Definition loop_runs (effect : positive) (st : Camera.State R) : Prop :=
  (exists id t, timers (Camera.loop st) !! id = Some t /\ timerEffect t = effect)
  \/ (exists id i closure,
         inferences (Camera.loop st) !! id = Some i
         /\ Camera.awaiter i = Camera.ResumeRunDetection effect closure).

(** The answer of the model to a cycle. *)
Definition is_answer (e : Camera.Event R) : bool :=
  match e with
  | Camera.EvInference _ (Fulfilled _) => true
  | _ => false
  end.

(** From [st] to [st'] the frame counter is untouched and every cycle
    that was added to those in flight is a call of the model. *)
Definition may_call (st st' : Camera.State R) : Prop :=
  Camera.frameCount st' = Camera.frameCount st
  /\ size (inferences (Camera.loop st')) + Camera.estimateFacesCalls st
     <= size (inferences (Camera.loop st)) + Camera.estimateFacesCalls st'.

(** The frames counted and the cycles in flight are calls of the model. *)
Definition counts_inv (st : Camera.State R) : Prop :=
  Camera.frameCount st + size (inferences (Camera.loop st)) <= Camera.estimateFacesCalls st.

End CameraVocabulary.

Section CroppedVocabularyMore.
Context {R : Type} `{JsNumber R}.

(** Nothing of the detection loop of the cropped-face variant exists and
    neither model was ever called. *)
Definition cropped_idle (st : CroppedFaceCamera.State R) : Prop :=
  timers (CroppedFaceCamera.loop st) = ∅
  /\ animationFrames (CroppedFaceCamera.loop st) = ∅
  /\ inferences (CroppedFaceCamera.loop st) = ∅
  /\ CroppedFaceCamera.blazefaceCalls st = 0
  /\ CroppedFaceCamera.landmarkCalls st = 0.

(** The load of the cropped-face variant fails at [e]. *)
Definition loadModelsFails (st : CroppedFaceCamera.State R) (e : CroppedFaceCamera.Event R)
  : bool :=
  match CroppedFaceCamera.loadStage st, e with
  | CroppedFaceCamera.AwaitSetBackend, CroppedFaceCamera.EvSetBackend (Rejected _) => true
  | CroppedFaceCamera.AwaitBlazefaceLoad, CroppedFaceCamera.EvBlazefaceLoad (Rejected _) => true
  | CroppedFaceCamera.AwaitCreateDetector, CroppedFaceCamera.EvCreateDetector (Rejected _) => true
  | _, _ => false
  end.

(** Until the load settles the landmark model is not stored, and
    without it the loop is idle. *)
Definition cropped_loader_inv (st : CroppedFaceCamera.State R) : Prop :=
  (CroppedFaceCamera.loadStage st <> CroppedFaceCamera.LoadSettled ->
   CroppedFaceCamera.landmarkModel (CroppedFaceCamera.hooks st) = None)
  /\ (CroppedFaceCamera.landmarkModel (CroppedFaceCamera.hooks st) = None -> cropped_idle st).

(** Every pending timer belongs to the current run of the effect and is
    the one that run recorded in its [timeoutId]. *)
Definition one_timer (st : CroppedFaceCamera.State R) : Prop :=
  forall id t,
    timers (CroppedFaceCamera.loop st) !! id = Some t ->
    timerEffect t = currentEffect (CroppedFaceCamera.loop st)
    /\ timeoutIds (CroppedFaceCamera.loop st) !! currentEffect (CroppedFaceCamera.loop st)
       = Some id.

(** The timers, the [timeoutId] variables and the current effect run
    are the same in both states. *)
Definition same_timers (st st' : CroppedFaceCamera.State R) : Prop :=
  timers (CroppedFaceCamera.loop st') = timers (CroppedFaceCamera.loop st)
  /\ timeoutIds (CroppedFaceCamera.loop st') = timeoutIds (CroppedFaceCamera.loop st)
  /\ currentEffect (CroppedFaceCamera.loop st') = currentEffect (CroppedFaceCamera.loop st).

(** The landmark model and the stage of the load are the same in both
    states. *)
Definition same_models (st st' : CroppedFaceCamera.State R) : Prop :=
  CroppedFaceCamera.landmarkModel (CroppedFaceCamera.hooks st')
  = CroppedFaceCamera.landmarkModel (CroppedFaceCamera.hooks st)
  /\ CroppedFaceCamera.loadStage st' = CroppedFaceCamera.loadStage st.

(** A cycle whose landmark call fails after the given answers. *)
Definition failingCycleEvents (id : positive) (preds : list (FaceDetection R))
    (answers : list (list CroppedFaceCamera.Face)) (err : string)
  : list (CroppedFaceCamera.Event R) :=
  cycleEvents id preds answers ++ [CroppedFaceCamera.EvLandmarks id (Rejected err)].

(** The grant of a getUserMedia request in the cropped-face variant. *)
Definition cropped_grants (e : CroppedFaceCamera.Event R) : bool :=
  match e with
  | CroppedFaceCamera.EvGetUserMedia (Fulfilled _) => true
  | _ => false
  end.

(** The timer loop is over: the session is not streaming, no stream is
    attached, the video element has no data and no timer is pending. *)
Definition loop_over (st : CroppedFaceCamera.State R) : Prop :=
  timers (CroppedFaceCamera.loop st) = ∅
  /\ CroppedFaceCamera.isStreaming (CroppedFaceCamera.hooks st) = false
  /\ srcObject (CroppedFaceCamera.video st) = None
  /\ readyState (CroppedFaceCamera.video st) = HAVE_NOTHING.

(** The load of the two models has failed: it is settled without a
    landmark model, and the loop is idle. *)
Definition cropped_load_failed (st : CroppedFaceCamera.State R) : Prop :=
  CroppedFaceCamera.loadStage st = CroppedFaceCamera.LoadSettled
  /\ CroppedFaceCamera.landmarkModel (CroppedFaceCamera.hooks st) = None
  /\ CroppedFaceCamera.isLoading (CroppedFaceCamera.hooks st) = false
  /\ cropped_idle st.

(** What the renderer of the cropped-face variant sets up before the
    for-of loop. *)
Definition clearOverlay (c : Canvas R) : list (DrawCmd R) :=
  [ClearRect (num_of_Z 0) (num_of_Z 0) (width c) (height c);
   SetFillStyle "rgba(255, 0, 0, 0.5)";
   SetStrokeStyle "#FF0000";
   SetLineWidth (num_of_Z 2)].

(** The box the cropped-face variant strokes for a detection. *)
Definition offsetBox (yScalerPos scaleX scaleY : R) (face : FaceDetection R) : DrawCmd R :=
  StrokeRect (fst (topLeft face) * scaleX)%js
             (snd (topLeft face) * scaleY * yScalerPos)%js
             ((fst (bottomRight face) - fst (topLeft face)) * scaleX)%js
             ((snd (bottomRight face) - snd (topLeft face)) * scaleY)%js.

End CroppedVocabularyMore.

(** What can still happen after a stop of the cropped-face variant with
    a cycle in flight: the cycle runs to its end, the cleared timer and
    an animation frame are tried, the commit runs again. *)
Definition afterCroppedStop : list (CroppedFaceCamera.Event float) :=
  [CroppedFaceCamera.EvBlazeface 1 (Fulfilled [exampleFace]);
   CroppedFaceCamera.EvLandmarks 1 (Fulfilled [7%positive]);
   CroppedFaceCamera.EvTimer 1;
   CroppedFaceCamera.EvReadyState HAVE_ENOUGH_DATA;
   CroppedFaceCamera.EvAnimationFrame 1;
   CroppedFaceCamera.EvFlushEffects].

(** A session in which Start is clicked twice before the first stream
    plays: both requests are granted, then the stream plays and Stop is
    clicked. *)
Definition doubleStartSession : list (Camera.Event float) :=
  [Camera.EvSetBackend (Fulfilled tt);
   Camera.EvBlazefaceLoad (Fulfilled 1%positive);
   Camera.EvFlushEffects;
   Camera.EvClickStart;
   Camera.EvClickStart;
   Camera.EvGetUserMedia (Fulfilled [1%positive]);
   Camera.EvGetUserMedia (Fulfilled [2%positive]);
   Camera.EvLoadedMetadata 640%float 480%float;
   Camera.EvFlushEffects;
   Camera.EvClickStop;
   Camera.EvFlushEffects].

(** A session in which every camera request is denied. *)
Definition deniedSession : list (Camera.Event float) :=
  [Camera.EvSetBackend (Fulfilled tt);
   Camera.EvBlazefaceLoad (Fulfilled 1%positive);
   Camera.EvFlushEffects;
   Camera.EvClickStart;
   Camera.EvGetUserMedia (Rejected "NotAllowedError");
   Camera.EvFlushEffects;
   Camera.EvClickStart;
   Camera.EvGetUserMedia (Rejected "NotFoundError");
   Camera.EvTimer 1;
   Camera.EvAnimationFrame 1].

(** * Properties *)

(** ** Overlay renderer of camera.tsx *)

Section OverlayRenderer.
Context {R : Type} `{JsNumber R}.

Lemma rectangles_app (xs ys : list (DrawCmd R)) :
  rectangles (xs ++ ys) = rectangles xs ++ rectangles ys.
Proof. unfold rectangles. apply List.filter_app. Qed.

Lemma rectangles_landmarks (f : R * R -> list (DrawCmd R)) (ls : list (R * R)) :
  (forall l, rectangles (f l) = []) -> rectangles (flat_map f ls) = [].
Proof.
  intros Hf. induction ls as [|l ls IH]; simpl; [reflexivity|].
  rewrite rectangles_app, Hf, IH. reflexivity.
Qed.

Lemma rectangles_renderFace (sx sy : R) (face : FaceDetection R) :
  rectangles (Camera.renderFace sx sy face) = [scaledBox sx sy face].
Proof.
  unfold Camera.renderFace, scaledBox.
  destruct (topLeft face) as [x y]; simpl.
  f_equal. apply rectangles_landmarks. intros l. reflexivity.
Qed.

Lemma rectangles_renderFaces (sx sy : R) (faces : list (FaceDetection R)) :
  rectangles (flat_map (Camera.renderFace sx sy) faces) = map (scaledBox sx sy) faces.
Proof.
  induction faces as [|face faces IH]; simpl; [reflexivity|].
  rewrite rectangles_app, rectangles_renderFace, IH. reflexivity.
Qed.

Lemma rectangles_renderOverlay (w h sx sy : R) (faces : list (FaceDetection R)) :
  rectangles (Camera.renderOverlay w h sx sy faces) = map (scaledBox sx sy) faces.
Proof. unfold Camera.renderOverlay. simpl. apply rectangles_renderFaces. Qed.

(** What the settlement of a pending inference does to the canvas and
    to the stored predictions, whoever awaits the cycle. *)
Lemma settle_inference_fulfilled (st : Camera.State R) (id : positive)
    (i : Camera.Inference R) (preds : list (FaceDetection R)) :
  inferences (Camera.loop st) !! id = Some i ->
  let st' := Camera.settle_inference id (Fulfilled preds) st in
  Camera.predictions (Camera.hooks st') = preds
  /\ calls (Camera.canvas st')
     = calls (Camera.canvas st)
       ++ Camera.renderOverlay (width (Camera.canvas st)) (height (Camera.canvas st))
            (Camera.scaleX i) (Camera.scaleY i) preds
  /\ Camera.debugInfo (Camera.hooks st') = DebugFrame (S (Camera.frameCount st)) preds
  /\ Camera.estimateFacesCalls st' = Camera.estimateFacesCalls st.
Proof.
  intros Hi. unfold Camera.settle_inference. rewrite Hi. simpl.
  destruct (Camera.awaiter i); simpl; auto.
Qed.

(** The scale factors a cycle computes before it calls the model. *)
Lemma detectFaces_pending (st : Camera.State R) (m : Model) (k : Camera.Awaiter) :
  Camera.mounted st = true ->
  contextMode (Camera.canvas st) <> ModeOther ->
  readyState (Camera.video st) = HAVE_ENOUGH_DATA ->
  let st' := fst (Camera.detectFaces (Some m) k st) in
  snd (Camera.detectFaces (Some m) k st) = Camera.Pending
  /\ inferences (Camera.loop st') !! nextInference (Camera.loop st)
     = Some {| Camera.scaleX := (clientWidth (Camera.video st) / videoWidth (Camera.video st))%js;
               Camera.scaleY := (clientHeight (Camera.video st) / videoHeight (Camera.video st))%js;
               Camera.awaiter := k |}
  /\ Camera.estimateFacesCalls st' = S (Camera.estimateFacesCalls st)
  /\ calls (Camera.canvas st') = calls (Camera.canvas st)
  /\ width (Camera.canvas st') = clientWidth (Camera.video st)
  /\ height (Camera.canvas st') = clientHeight (Camera.video st)
  /\ timers (Camera.loop st') = timers (Camera.loop st).
Proof.
  intros Hm Hc Hr. unfold Camera.detectFaces, getContext2d. rewrite Hm.
  destruct (contextMode (Camera.canvas st)) eqn:Hmode; try congruence;
    simpl; rewrite Hr; simpl; rewrite lookup_insert_eq; auto 10.
Qed.

End OverlayRenderer.

(** C1. For every detection and every pair of scale factors, the
    renderer strokes the box at (topLeft.x * scaleX, topLeft.y * scaleY)
    with width (bottomRight.x - topLeft.x) * scaleX and height
    (bottomRight.y - topLeft.y) * scaleY: the rectangles a cycle adds to
    the canvas are exactly these boxes, one per detection in order, for
    the scale factors displayed size / native size the cycle computed
    per axis before calling the model.  For native 640x480 shown at
    320x240 and a detection from (100,100) to (200,200), the rectangle is
    drawn at (50,50) with width 50 and height 50. *)
Theorem overlay_rectangle_scaled_per_axis :
  (forall (R : Type) (N : JsNumber R) (st : Camera.State R) (id : positive)
          (i : Camera.Inference R) (preds : list (FaceDetection R)),
      inferences (Camera.loop st) !! id = Some i ->
      rectangles (calls (Camera.canvas (Camera.settle_inference id (Fulfilled preds) st)))
      = rectangles (calls (Camera.canvas st))
        ++ map (fun face =>
                  StrokeRect (fst (topLeft face) * Camera.scaleX i)%js
                             (snd (topLeft face) * Camera.scaleY i)%js
                             ((fst (bottomRight face) - fst (topLeft face)) * Camera.scaleX i)%js
                             ((snd (bottomRight face) - snd (topLeft face)) * Camera.scaleY i)%js)
               preds)
  /\ (forall (R : Type) (N : JsNumber R) (st : Camera.State R) (m : Model) (k : Camera.Awaiter),
      Camera.mounted st = true ->
      contextMode (Camera.canvas st) <> ModeOther ->
      readyState (Camera.video st) = HAVE_ENOUGH_DATA ->
      inferences (Camera.loop (fst (Camera.detectFaces (Some m) k st)))
        !! nextInference (Camera.loop st)
      = Some {| Camera.scaleX := (clientWidth (Camera.video st) / videoWidth (Camera.video st))%js;
                Camera.scaleY := (clientHeight (Camera.video st) / videoHeight (Camera.video st))%js;
                Camera.awaiter := k |})
  /\ rectangles (calls (Camera.canvas
       (Camera.run Camera.init
          (exampleSession ++ [Camera.EvInference 1 (Fulfilled [exampleFace])]))))
     = [StrokeRect 50%float 50%float 50%float 50%float].
Proof.
  split; [|split].
  - intros R N st id i preds Hi.
    destruct (settle_inference_fulfilled st id i preds Hi) as (_ & Hcalls & _).
    rewrite Hcalls, rectangles_app, rectangles_renderOverlay. reflexivity.
  - intros R N st m k Hm Hc Hr.
    apply (detectFaces_pending st m k Hm Hc Hr).
  - vm_compute. reflexivity.
Qed.

(** The general statement of C1 applied to the session of the example. *)
Lemma overlay_rectangle_scaled_witness :
  rectangles (calls (Camera.canvas
    (Camera.settle_inference 1 (Fulfilled [exampleFace]) (Camera.run Camera.init exampleSession))))
  = rectangles (calls (Camera.canvas (Camera.run Camera.init exampleSession)))
    ++ [StrokeRect (100 * 0.5)%float (100 * 0.5)%float
                   ((200 - 100) * 0.5)%float ((200 - 100) * 0.5)%float].
Proof.
  apply (proj1 overlay_rectangle_scaled_per_axis float float_JsNumber
           (Camera.run Camera.init exampleSession) 1%positive
           {| Camera.scaleX := 0.5%float; Camera.scaleY := 0.5%float;
              Camera.awaiter := Camera.ResumeRunDetection 3 (Some 1%positive) |}
           [exampleFace]).
  vm_compute. reflexivity.
Defined.

(** ** Crop region and box offset of the cropped-face variant *)

Section CroppedRendering.
Context {R : Type} `{JsNumber R}.

Lemma circles_app (xs ys : list (DrawCmd R)) :
  circles (xs ++ ys) = circles xs ++ circles ys.
Proof. unfold circles. apply List.filter_app. Qed.

Lemma circles_landmarks (sx sy : R) (ls : list (R * R)) :
  circles (flat_map (fun landmark =>
             [BeginPath;
              Arc (fst landmark * sx)%js (snd landmark * sy)%js (num_of_Z 3);
              Fill]) ls)
  = map (fun landmark => Arc (fst landmark * sx)%js (snd landmark * sy)%js (num_of_Z 3)) ls.
Proof.
  induction ls as [|l ls IH]; simpl; [reflexivity|].
  f_equal. exact IH.
Qed.

Lemma cropped_renderFace_rectangles (v sx sy : R) (face : FaceDetection R) :
  rectangles (CroppedFaceCamera.renderFace v sx sy face)
  = [StrokeRect (fst (topLeft face) * sx)%js
                (snd (topLeft face) * sy * v)%js
                ((fst (bottomRight face) - fst (topLeft face)) * sx)%js
                ((snd (bottomRight face) - snd (topLeft face)) * sy)%js].
Proof.
  unfold CroppedFaceCamera.renderFace.
  destruct (topLeft face) as [x y]; simpl.
  f_equal. apply rectangles_landmarks. intros l. reflexivity.
Qed.



End CroppedRendering.





(** ** Results panel of camera.tsx *)

Section ResultsPanel.
Context {R : Type} `{JsNumber R}.

Lemma renderItem_None (index : nat) (face : FaceDetection R) :
  Camera.renderItem index face = None <-> length (landmarks face) < 6.
Proof.
  unfold Camera.renderItem, Camera.landmarkAt.
  destruct (landmarks face) as [|l0 [|l1 [|l2 [|l3 [|l4 [|l5 ls]]]]]]; simpl;
    split; intros Hx; try reflexivity; try lia; try discriminate.
Qed.

Lemma renderItem_Some (index : nat) (face : FaceDetection R) (item : Camera.FaceItem R) :
  Camera.renderItem index face = Some item ->
  map fst (Camera.itemLandmarks item) = Camera.landmarkLabels
  /\ map snd (Camera.itemLandmarks item) = take 6 (landmarks face).
Proof.
  unfold Camera.renderItem, Camera.landmarkAt.
  destruct (landmarks face) as [|l0 [|l1 [|l2 [|l3 [|l4 [|l5 ls]]]]]]; simpl;
    intros Hx; try discriminate.
  injection Hx as <-. simpl. split; reflexivity.
Qed.

Lemma renderItems_None (faces : list (FaceDetection R)) (index : nat) :
  Camera.renderItems index faces = None
  <-> exists face, face ∈ faces /\ length (landmarks face) < 6.
Proof.
  revert index. induction faces as [|face faces IH]; intros index; simpl.
  - split; [discriminate|]. intros (face & Hin & _). inversion Hin.
  - destruct (Camera.renderItem index face) as [item|] eqn:Hitem; simpl.
    + destruct (Camera.renderItems (S index) faces) as [items|] eqn:Hitems; simpl.
      * split; [discriminate|]. intros (f & Hin & Hlen).
        apply elem_of_cons in Hin as [->|Hin].
        -- apply (proj2 (renderItem_None index face)) in Hlen. congruence.
        -- assert (Hnone : Camera.renderItems (S index) faces = None)
             by (apply IH; eauto).
           congruence.
      * split; [|reflexivity]. intros _.
        destruct (proj1 (IH (S index)) Hitems) as (f & Hin & Hlen).
        exists f. split; [right; exact Hin | exact Hlen].
    + split; [|reflexivity]. intros _. exists face.
      split; [left | apply (renderItem_None index); exact Hitem].
Qed.

End ResultsPanel.

(** C10. The results panel reads landmarks 0 to 5 of every stored
    detection, labelled right eye, left eye, nose, mouth, right ear and
    left ear, without a test of their number: the entry of a detection
    is built exactly when it has at least 6 landmarks, and the panel
    throws exactly when it is shown and some stored detection has fewer
    than 6. *)
Theorem results_panel_reads_six_landmarks :
  forall (R : Type) (N : JsNumber R),
    (forall (index : nat) (face : FaceDetection R),
        Camera.renderItem index face = None <-> length (landmarks face) < 6)
    /\ (forall (index : nat) (face : FaceDetection R) (item : Camera.FaceItem R),
        Camera.renderItem index face = Some item ->
        map fst (Camera.itemLandmarks item)
        = ["Right eye"; "Left eye"; "Nose"; "Mouth"; "Right ear"; "Left ear"]%string
        /\ map snd (Camera.itemLandmarks item) = take 6 (landmarks face))
    /\ (forall st : Camera.State R,
        Camera.resultsPanel st = Camera.PanelTypeError
        <-> Camera.isStreaming (Camera.hooks st) = true
            /\ is_Some (Camera.model (Camera.hooks st))
            /\ exists face, face ∈ Camera.predictions (Camera.hooks st)
                            /\ length (landmarks face) < 6).
Proof.
  intros R N. split; [|split].
  - apply renderItem_None.
  - apply renderItem_Some.
  - intros st. unfold Camera.resultsPanel.
    destruct (Camera.isStreaming (Camera.hooks st)); simpl.
    2: { split; [discriminate|]. intros (Hs & _). discriminate. }
    destruct (bool_decide (is_Some (Camera.model (Camera.hooks st)))) eqn:Hm.
    2: { apply bool_decide_eq_false in Hm.
         split; [discriminate|]. intros (_ & Hs & _). contradiction. }
    apply bool_decide_eq_true in Hm.
    destruct (Camera.predictions (Camera.hooks st)) as [|face faces] eqn:Hp.
    { simpl. split; [discriminate|]. intros (_ & _ & f & Hin & _). inversion Hin. }
    cbn [length Nat.ltb Nat.leb].
    destruct (Camera.renderItems 0 (face :: faces)) as [items|] eqn:Hitems.
    + split; [discriminate|]. intros (_ & _ & Hex).
      apply (proj2 (renderItems_None (face :: faces) 0)) in Hex. congruence.
    + split; [|reflexivity]. intros _. repeat split; [exact Hm|].
      apply (renderItems_None (face :: faces) 0). exact Hitems.
Qed.

(** A stored detection with five landmarks makes the panel throw. *)
Lemma results_panel_witness :
  Camera.renderItem 0
    {| topLeft := (0%float, 0%float); bottomRight := (1%float, 1%float);
       probability := 1%float;
       landmarks := [(0%float, 0%float); (0%float, 0%float); (0%float, 0%float);
                     (0%float, 0%float); (0%float, 0%float)] |} = None.
Proof.
  apply (proj1 (results_panel_reads_six_landmarks float float_JsNumber)).
  simpl. lia.
Defined.

(** ** Stopping the camera *)

Section StopCamera.
Context {R : Type} `{JsNumber R}.





Lemma detectFaces_hooks_video (closure : option Model) (k : Camera.Awaiter) (st : Camera.State R) :
  Camera.hooks (fst (Camera.detectFaces closure k st)) = Camera.hooks st
  /\ Camera.video (fst (Camera.detectFaces closure k st)) = Camera.video st
  /\ Camera.mounted (fst (Camera.detectFaces closure k st)) = Camera.mounted st.
Proof.
  unfold Camera.detectFaces.
  destruct (Camera.mounted st) eqn:Hm, closure; simpl; auto.
  destruct (getContext2d (Camera.canvas st)); simpl; auto.
  destruct (negb _); simpl; auto.
Qed.

Lemma runDetection_hooks_video (effect : positive) (closure : option Model) (st : Camera.State R) :
  Camera.hooks (Camera.runDetection effect closure st) = Camera.hooks st
  /\ Camera.video (Camera.runDetection effect closure st) = Camera.video st
  /\ Camera.mounted (Camera.runDetection effect closure st) = Camera.mounted st.
Proof.
  unfold Camera.runDetection.
  pose proof (detectFaces_hooks_video closure (Camera.ResumeRunDetection effect closure) st) as Hd.
  destruct (Camera.detectFaces closure (Camera.ResumeRunDetection effect closure) st) as [st' p].
  simpl in Hd. destruct p; simpl; exact Hd.
Qed.

Lemma detectFaces_loadStage (closure : option Model) (k : Camera.Awaiter) (st : Camera.State R) :
  Camera.loadStage (fst (Camera.detectFaces closure k st)) = Camera.loadStage st.
Proof.
  unfold Camera.detectFaces.
  destruct (Camera.mounted st) eqn:Hm, closure; simpl; auto.
  destruct (getContext2d (Camera.canvas st)); simpl; auto.
  destruct (negb _); simpl; auto.
Qed.

Lemma runDetection_loadStage (effect : positive) (closure : option Model) (st : Camera.State R) :
  Camera.loadStage (Camera.runDetection effect closure st) = Camera.loadStage st.
Proof.
  unfold Camera.runDetection.
  pose proof (detectFaces_loadStage closure (Camera.ResumeRunDetection effect closure) st) as Hd.
  destruct (Camera.detectFaces closure (Camera.ResumeRunDetection effect closure) st) as [st' p].
  simpl in Hd. destruct p; simpl; exact Hd.
Qed.



(** The cropped-face variant keeps the same invariant. *)

Lemma same_capture_attached (st st' : CroppedFaceCamera.State R) :
  same_capture st st' -> cropped_streaming_attached st -> cropped_streaming_attached st'.
Proof.
  intros (Hm & Hv & Hi) [Hmounted Hs]. unfold cropped_streaming_attached.
  rewrite Hm, Hv, Hi. auto.
Qed.

Lemma cropped_detectFaces_capture (closure : CroppedFaceCamera.Closure)
    (st : CroppedFaceCamera.State R) :
  same_capture st (fst (CroppedFaceCamera.detectFaces closure st)).
Proof.
  unfold CroppedFaceCamera.detectFaces, same_capture.
  destruct (CroppedFaceCamera.mounted st) eqn:Hm, closure as [[bm|] [lm|]]; simpl; auto.
  destruct (getContext2d (CroppedFaceCamera.canvas st)); simpl; auto.
  destruct (negb _); simpl; auto.
Qed.

Lemma cropped_runDetection_capture (effect : positive) (closure : CroppedFaceCamera.Closure)
    (st : CroppedFaceCamera.State R) :
  same_capture st (CroppedFaceCamera.runDetection effect closure st).
Proof.
  unfold CroppedFaceCamera.runDetection.
  destruct (cropped_detectFaces_capture closure st) as (Hm & Hv & Hi).
  unfold same_capture. simpl. auto.
Qed.

Lemma cropped_loop_capture (s v sx sy : R) (preds rest : list (FaceDetection R))
    (acc : list (CroppedFaceCamera.CroppedFace R)) (id : positive)
    (st : CroppedFaceCamera.State R) :
  same_capture st (fst (CroppedFaceCamera.detectFaces_loop s v sx sy preds rest acc id st)).
Proof.
  unfold CroppedFaceCamera.detectFaces_loop, same_capture.
  destruct rest; simpl; auto.
Qed.

Lemma cropped_step_attached (s v : R) (st : CroppedFaceCamera.State R)
    (e : CroppedFaceCamera.Event R) :
  cropped_streaming_attached st -> cropped_streaming_attached (CroppedFaceCamera.step s v st e).
Proof.
  intros Hinv. pose proof Hinv as [Hm Hs].
  assert (Hframe : forall st', same_capture st st' -> cropped_streaming_attached st')
    by (intros st' Hc; exact (same_capture_attached st st' Hc Hinv)).
  destruct e; simpl.
  - apply Hframe. unfold CroppedFaceCamera.loadModels_backend, CroppedFaceCamera.loadModels_catch.
    destruct (CroppedFaceCamera.loadStage st); try destruct r; repeat split.
  - apply Hframe. unfold CroppedFaceCamera.loadModels_blazeface, CroppedFaceCamera.loadModels_catch.
    destruct (CroppedFaceCamera.loadStage st); try destruct r; repeat split.
  - apply Hframe. unfold CroppedFaceCamera.loadModels_detector, CroppedFaceCamera.loadModels_catch.
    destruct (CroppedFaceCamera.loadStage st); try destruct r; repeat split.
  - apply Hframe. repeat split.
  - unfold CroppedFaceCamera.startCamera_resume.
    destruct (CroppedFaceCamera.pendingGetUserMedia st); [exact Hinv|].
    destruct r; simpl; [|apply Hframe; repeat split].
    rewrite Hm. simpl. split; [exact Hm | intros _; eexists; reflexivity].
  - unfold CroppedFaceCamera.loadedmetadata, cropped_streaming_attached.
    destruct (srcObject (CroppedFaceCamera.video st)) eqn:Hsrc; simpl.
    + destruct (onloadedmetadata (CroppedFaceCamera.video st)); simpl; rewrite ?Hm; simpl;
        rewrite Hsrc; (split; [first [exact Hm | reflexivity] | intros _; eexists; reflexivity]).
    + rewrite Hsrc. split; assumption.
  - unfold cropped_streaming_attached.
    destruct (srcObject (CroppedFaceCamera.video st)) eqn:Hsrc; simpl; rewrite Hsrc.
    + split; [exact Hm | intros _; eexists; reflexivity].
    + split; assumption.
  - unfold cropped_streaming_attached. simpl. auto.
  - unfold CroppedFaceCamera.stopCamera, cropped_streaming_attached. rewrite Hm.
    destruct (srcObject (CroppedFaceCamera.video st)) eqn:Hsrc; simpl.
    + split; [exact Hm | discriminate].
    + rewrite Hsrc. split; assumption.
  - unfold CroppedFaceCamera.flushEffects.
    destruct (decide _); [exact Hinv|].
    match goal with
    | |- context [if ?b then CroppedFaceCamera.runDetection ?e ?c ?s else ?s'] =>
        assert (Hk : same_capture st s)
          by (unfold CroppedFaceCamera.effect_cleanup;
              destruct (timeoutIds (CroppedFaceCamera.loop st)
                          !! currentEffect (CroppedFaceCamera.loop st));
              repeat split);
        destruct b; [|apply Hframe; exact Hk];
        apply (same_capture_attached s); [apply cropped_runDetection_capture|];
        apply Hframe; exact Hk
    end.
  - unfold CroppedFaceCamera.fire_timer.
    destruct (timers (CroppedFaceCamera.loop st) !! id); [|exact Hinv].
    match goal with
    | |- context [CroppedFaceCamera.runDetection ?e ?c ?s] =>
        apply (same_capture_attached s); [apply cropped_runDetection_capture|];
        apply Hframe; repeat split
    end.
  - unfold CroppedFaceCamera.fire_animationFrame.
    destruct (animationFrames (CroppedFaceCamera.loop st) !! id); [|exact Hinv].
    match goal with
    | |- context [CroppedFaceCamera.detectFaces ?c ?s] =>
        apply (same_capture_attached s); [apply cropped_detectFaces_capture|];
        apply Hframe; repeat split
    end.
  - unfold CroppedFaceCamera.settle_blazeface.
    destruct (inferences (CroppedFaceCamera.loop st) !! id) as [[sx sy|]|]; try exact Hinv.
    unfold CroppedFaceCamera.detectFaces_detected.
    destruct r; simpl; [|apply Hframe; repeat split].
    match goal with
    | |- context [CroppedFaceCamera.detectFaces_loop _ _ _ _ _ _ _ _ ?s] =>
        apply (same_capture_attached s); [apply cropped_loop_capture|];
        apply Hframe; repeat split
    end.
  - unfold CroppedFaceCamera.settle_landmarks.
    destruct (inferences (CroppedFaceCamera.loop st) !! id) as [[|sx sy p c rest acc]|];
      try exact Hinv.
    unfold CroppedFaceCamera.detectFaces_landmarked.
    destruct r; simpl; [|apply Hframe; repeat split].
    match goal with
    | |- context [CroppedFaceCamera.detectFaces_loop _ _ _ _ _ _ _ _ ?s] =>
        apply (same_capture_attached s); [apply cropped_loop_capture|];
        apply Hframe; repeat split
    end.
Qed.

Lemma cropped_run_attached (s v : R) (es : list (CroppedFaceCamera.Event R))
    (st : CroppedFaceCamera.State R) :
  cropped_streaming_attached st -> cropped_streaming_attached (CroppedFaceCamera.run s v st es).
Proof.
  revert st. induction es as [|e es IH]; intros st Hst; simpl; [exact Hst|].
  apply IH. apply cropped_step_attached. exact Hst.
Qed.

End StopCamera.




(** ** Model loader of camera.tsx *)

Section ModelLoader.
Context {R : Type} `{JsNumber R}.

Lemma idle_step (st : Camera.State R) (e : Camera.Event R) :
  Camera.model (Camera.hooks st) = None -> idle st -> idle (Camera.step st e).
Proof.
  intros Hmod (Ht & Ha & Hi & Hc). unfold idle.
  destruct e; simpl.
  - unfold Camera.loadModel_backend, Camera.loadModel_catch.
    destruct (Camera.loadStage st); try destruct r; simpl; auto.
  - unfold Camera.loadModel_loaded, Camera.loadModel_catch.
    destruct (Camera.loadStage st); try destruct r; simpl; auto.
  - auto.
  - unfold Camera.startCamera_resume.
    destruct (Camera.pendingGetUserMedia st); simpl; auto.
    destruct r; simpl; auto. destruct (Camera.mounted st); simpl; auto.
  - unfold Camera.loadedmetadata.
    destruct (srcObject (Camera.video st)); simpl; auto.
    destruct (onloadedmetadata (Camera.video st)); simpl; auto.
    destruct (Camera.mounted st); simpl; auto.
  - destruct (srcObject (Camera.video st)); simpl; auto.
  - auto.
  - unfold Camera.handleResize. destruct (Camera.mounted st); simpl; auto.
  - unfold Camera.stopCamera. destruct (Camera.mounted st); simpl; auto.
    destruct (srcObject (Camera.video st)); simpl; auto.
  - unfold Camera.flushEffects.
    destruct (decide _); [auto|].
    unfold Camera.effect_cleanup.
    destruct (timeoutIds (Camera.loop st) !! currentEffect (Camera.loop st));
      simpl; rewrite Hmod, andb_false_r; simpl; rewrite ?Ht, ?delete_empty; auto.
  - unfold Camera.fire_timer. rewrite Ht, lookup_empty. auto.
  - unfold Camera.fire_animationFrame. rewrite Ha, lookup_empty. auto.
  - unfold Camera.settle_inference. rewrite Hi, lookup_empty. auto.
Qed.

Lemma loader_inv_step (st : Camera.State R) (e : Camera.Event R) :
  loader_inv st -> loader_inv (Camera.step st e).
Proof.
  intros [Hstage Hidle].
  assert (Hkeep : (Camera.model (Camera.hooks (Camera.step st e)) = Camera.model (Camera.hooks st)
                   /\ (Camera.loadStage (Camera.step st e) = Camera.loadStage st
                       \/ (Camera.loadStage st <> Camera.LoadSettled /\
                           exists r, e = Camera.EvSetBackend r)))
                  \/ (Camera.loadStage (Camera.step st e) = Camera.LoadSettled
                      /\ timers (Camera.loop (Camera.step st e)) = timers (Camera.loop st)
                      /\ animationFrames (Camera.loop (Camera.step st e))
                         = animationFrames (Camera.loop st)
                      /\ inferences (Camera.loop (Camera.step st e)) = inferences (Camera.loop st)
                      /\ Camera.estimateFacesCalls (Camera.step st e)
                         = Camera.estimateFacesCalls st
                      /\ Camera.loadStage st <> Camera.LoadSettled)).
  { destruct e; simpl;
      try (unchanged).
    - unfold Camera.loadModel_backend, Camera.loadModel_catch.
      destruct (Camera.loadStage st) eqn:Hs; try destruct r; simpl;
        try (unchanged).
      + left. split; [reflexivity|]. right. split; [discriminate|eauto].
      + left. split; [reflexivity|]. right. split; [discriminate|eauto].
    - unfold Camera.loadModel_loaded, Camera.loadModel_catch.
      destruct (Camera.loadStage st) eqn:Hs; try destruct r; simpl;
        try (unchanged).
      + right. repeat split; try reflexivity. discriminate.
      + right. repeat split; try reflexivity. discriminate.
    - unfold Camera.startCamera_resume.
      destruct (Camera.pendingGetUserMedia st); simpl;
        [unchanged|].
      destruct r; simpl; [destruct (Camera.mounted st)|]; simpl;
        unchanged.
    - unfold Camera.loadedmetadata.
      destruct (srcObject (Camera.video st)); simpl;
        [|unchanged].
      destruct (onloadedmetadata (Camera.video st)); simpl;
        [destruct (Camera.mounted st)|]; simpl; unchanged.
    - destruct (srcObject (Camera.video st)); simpl; unchanged.
    - unfold Camera.handleResize.
      destruct (Camera.mounted st); simpl; unchanged.
    - unfold Camera.stopCamera.
      destruct (Camera.mounted st); simpl; [|unchanged].
      destruct (srcObject (Camera.video st)); simpl; unchanged.
    - unfold Camera.flushEffects.
      destruct (decide _); [unchanged|].
      match goal with
      | |- context [if ?b then Camera.runDetection ?e ?c ?s else ?s'] =>
          assert (Hk : Camera.hooks s = Camera.hooks st /\ Camera.loadStage s = Camera.loadStage st)
            by (unfold Camera.effect_cleanup;
                destruct (timeoutIds (Camera.loop st) !! currentEffect (Camera.loop st));
                simpl; auto);
          destruct b;
          [destruct (runDetection_hooks_video e c s) as (-> & _);
           rewrite (runDetection_loadStage e c s)|];
          destruct Hk as (-> & ->); unchanged
      end.
    - unfold Camera.fire_timer.
      destruct (timers (Camera.loop st) !! id); [|unchanged].
      match goal with
      | |- context [Camera.runDetection ?e ?c ?s] =>
          destruct (runDetection_hooks_video e c s) as (-> & _);
          rewrite (runDetection_loadStage e c s)
      end.
      unchanged.
    - unfold Camera.fire_animationFrame.
      destruct (animationFrames (Camera.loop st) !! id); [|unchanged].
      match goal with
      | |- context [Camera.detectFaces ?c ?k ?s] =>
          destruct (detectFaces_hooks_video c k s) as (-> & _);
          rewrite (detectFaces_loadStage c k s)
      end.
      unchanged.
    - unfold Camera.settle_inference.
      destruct (inferences (Camera.loop st) !! id) as [i|]; [|unchanged].
      destruct r; simpl; destruct (Camera.awaiter i); simpl;
        unchanged. }
  split.
  - intros Hns. destruct Hkeep as [[Hm [Hs|(Hs & _)]]|(Hs & _)].
    + rewrite Hm. apply Hstage. congruence.
    + rewrite Hm. apply Hstage. exact Hs.
    + contradiction.
  - intros Hnone. destruct Hkeep as [[Hm _]|(_ & Ht & Ha & Hi & Hc & Hns)].
    + rewrite Hm in Hnone. apply idle_step; auto.
    + destruct (Hidle (Hstage Hns)) as (Ht' & Ha' & Hi' & Hc').
      unfold idle. rewrite Ht, Ha, Hi, Hc. auto.
Qed.

Lemma loader_inv_run (es : list (Camera.Event R)) (st : Camera.State R) :
  loader_inv st -> loader_inv (Camera.run st es).
Proof.
  revert st. induction es as [|e es IH]; intros st Hst; simpl; [exact Hst|].
  apply IH. apply loader_inv_step. exact Hst.
Qed.

Lemma loader_inv_init : loader_inv Camera.init.
Proof. split; [reflexivity|]. intros _. repeat split. Qed.

(** Once the load has failed, the model stays unset and the loop idle. *)
Lemma load_failed_step (st : Camera.State R) (e : Camera.Event R) :
  load_failed st -> load_failed (Camera.step st e).
Proof.
  intros (Hs & Hm & Hl & Hidle).
  assert (Hkeep : Camera.loadStage (Camera.step st e) = Camera.LoadSettled
                  /\ Camera.model (Camera.hooks (Camera.step st e)) = None
                  /\ Camera.isLoading (Camera.hooks (Camera.step st e)) = false).
  { destruct Hidle as (Ht & Ha & Hi & Hc).
    destruct e; simpl; auto.
    - unfold Camera.loadModel_backend. rewrite Hs. auto.
    - unfold Camera.loadModel_loaded. rewrite Hs. auto.
    - unfold Camera.startCamera_resume.
      destruct (Camera.pendingGetUserMedia st); simpl; auto.
      destruct r; simpl; [destruct (Camera.mounted st)|]; simpl; auto.
    - unfold Camera.loadedmetadata.
      destruct (srcObject (Camera.video st)); simpl; auto.
      destruct (onloadedmetadata (Camera.video st)); simpl; auto.
      destruct (Camera.mounted st); simpl; auto.
    - destruct (srcObject (Camera.video st)); simpl; auto.
    - unfold Camera.handleResize. destruct (Camera.mounted st); simpl; auto.
    - unfold Camera.stopCamera. destruct (Camera.mounted st); simpl; auto.
      destruct (srcObject (Camera.video st)); simpl; auto.
    - unfold Camera.flushEffects.
      destruct (decide _); [auto|].
      unfold Camera.effect_cleanup.
      destruct (timeoutIds (Camera.loop st) !! currentEffect (Camera.loop st));
        simpl; rewrite Hm, andb_false_r; simpl; auto.
    - unfold Camera.fire_timer. rewrite Ht, lookup_empty. auto.
    - unfold Camera.fire_animationFrame. rewrite Ha, lookup_empty. auto.
    - unfold Camera.settle_inference. rewrite Hi, lookup_empty. auto. }
  destruct Hkeep as (Hs' & Hm' & Hl').
  repeat split; auto; apply (idle_step st e Hm Hidle).
Qed.

Lemma load_failed_run (es : list (Camera.Event R)) (st : Camera.State R) :
  load_failed st -> load_failed (Camera.run st es).
Proof.
  revert st. induction es as [|e es IH]; intros st Hst; simpl; [exact Hst|].
  apply IH. apply load_failed_step. exact Hst.
Qed.

Lemma loadFails_step (st : Camera.State R) (e : Camera.Event R) :
  loadFails st e = true ->
  Camera.step st e = Camera.loadModel_catch st.
Proof.
  unfold loadFails.
  destruct (Camera.loadStage st) eqn:Hs, e; try discriminate;
    destruct r; try discriminate; intros _; simpl.
  - unfold Camera.loadModel_backend. rewrite Hs. reflexivity.
  - unfold Camera.loadModel_loaded. rewrite Hs. reflexivity.
Qed.

End ModelLoader.

(** C2. In every session in which the load of the model fails, once
    the load operation has completed the loading flag is false, the
    error state holds a message and the stored model is still null; and
    whatever happens afterwards in the session, the model stays null,
    the loading flag stays false, no detection timer, animation-frame
    callback or suspended cycle ever exists, and model.estimateFaces is
    never called: the effect starts the loop only when [isStreaming] and
    a model are both present. *)
Theorem load_failure_prevents_inference :
  forall (R : Type) (N : JsNumber R) (before after : list (Camera.Event R))
         (e : Camera.Event R),
    loadFails (Camera.run Camera.init before) e = true ->
    let failed := Camera.step (Camera.run Camera.init before) e in
    Camera.isLoading (Camera.hooks failed) = false
    /\ Camera.error (Camera.hooks failed)
       = Some "Failed to load the face detection model."%string
    /\ Camera.model (Camera.hooks failed) = None
    /\ Camera.model (Camera.hooks (Camera.run failed after)) = None
    /\ Camera.isLoading (Camera.hooks (Camera.run failed after)) = false
    /\ Camera.estimateFacesCalls (Camera.run failed after) = 0
    /\ timers (Camera.loop (Camera.run failed after)) = ∅
    /\ animationFrames (Camera.loop (Camera.run failed after)) = ∅
    /\ inferences (Camera.loop (Camera.run failed after)) = ∅.
Proof.
  intros R N before after e Hfail failed.
  pose proof (loader_inv_run before Camera.init loader_inv_init) as [Hstage Hidle].
  assert (Hnone : Camera.model (Camera.hooks (Camera.run Camera.init before)) = None).
  { apply Hstage. unfold loadFails in Hfail.
    destruct (Camera.loadStage (Camera.run Camera.init before)); discriminate. }
  assert (Hfailed : load_failed failed).
  { unfold failed. rewrite (loadFails_step _ _ Hfail).
    unfold load_failed, Camera.loadModel_catch. simpl.
    repeat split; auto; apply (Hidle Hnone). }
  assert (Herr : Camera.error (Camera.hooks failed)
                 = Some "Failed to load the face detection model."%string).
  { unfold failed. rewrite (loadFails_step _ _ Hfail). reflexivity. }
  destruct Hfailed as (Hs & Hm & Hl & Hi).
  destruct (load_failed_run after failed (conj Hs (conj Hm (conj Hl Hi))))
    as (_ & Hm' & Hl' & Ht & Ha & Hi' & Hc).
  auto 10.
Qed.

(** C2 in that session: the camera streams and the model is never
    called. *)
Lemma load_failure_witness :
  let failed := Camera.step (Camera.run Camera.init [Camera.EvSetBackend (Fulfilled tt)])
                  (Camera.EvBlazefaceLoad (Rejected "network error")) in
  Camera.isLoading (Camera.hooks failed) = false
  /\ Camera.error (Camera.hooks failed) = Some "Failed to load the face detection model."%string
  /\ Camera.model (Camera.hooks failed) = None
  /\ Camera.model (Camera.hooks (Camera.run failed failedLoadSession)) = None
  /\ Camera.isLoading (Camera.hooks (Camera.run failed failedLoadSession)) = false
  /\ Camera.estimateFacesCalls (Camera.run failed failedLoadSession) = 0
  /\ timers (Camera.loop (Camera.run failed failedLoadSession)) = ∅
  /\ animationFrames (Camera.loop (Camera.run failed failedLoadSession)) = ∅
  /\ inferences (Camera.loop (Camera.run failed failedLoadSession)) = ∅.
Proof.
  apply (load_failure_prevents_inference float float_JsNumber
           [Camera.EvSetBackend (Fulfilled tt)] failedLoadSession
           (Camera.EvBlazefaceLoad (Rejected "network error"))).
  reflexivity.
Defined.

(** In the cropped-face variant a failure of createDetector leaves the
    BlazeFace model stored; the loop needs both models, so it stays
    idle there too. *)
Lemma cropped_detector_failure_keeps_loop_idle :
  let st := CroppedFaceCamera.run CroppedFaceCamera.scaleFactor_value
              CroppedFaceCamera.yScalerPos_value CroppedFaceCamera.init
              detectorFailureSession in
  CroppedFaceCamera.blazefaceModel (CroppedFaceCamera.hooks st) = Some 1%positive
  /\ CroppedFaceCamera.landmarkModel (CroppedFaceCamera.hooks st) = None
  /\ CroppedFaceCamera.isLoading (CroppedFaceCamera.hooks st) = false
  /\ CroppedFaceCamera.isStreaming (CroppedFaceCamera.hooks st) = true
  /\ CroppedFaceCamera.blazefaceCalls st = 0
  /\ CroppedFaceCamera.cyclesInFlight st = 0.
Proof. cbv zeta. repeat split; vm_compute; reflexivity. Qed.

(** ** Detection loop of camera.tsx *)

Section DetectionLoop.
Context {R : Type} `{JsNumber R}.

(** What the settlement of a pending inference with a rejection does. *)
Lemma settle_inference_rejected (st : Camera.State R) (id : positive)
    (i : Camera.Inference R) (err : string) :
  inferences (Camera.loop st) !! id = Some i ->
  let st' := Camera.settle_inference id (Rejected err) st in
  Camera.error (Camera.hooks st') = Some "Face detection failed. Please try again."%string
  /\ Camera.debugInfo (Camera.hooks st') = DebugError err
  /\ Camera.mounted st' = Camera.mounted st
  /\ Camera.video st' = Camera.video st
  /\ Camera.canvas st' = Camera.canvas st
  /\ Camera.estimateFacesCalls st' = Camera.estimateFacesCalls st
  /\ inferences (Camera.loop st') = delete id (inferences (Camera.loop st))
  /\ nextInference (Camera.loop st') = nextInference (Camera.loop st)
  /\ timers (Camera.loop st')
     = match Camera.awaiter i with
       | Camera.ResumeRunDetection effect closure =>
         <[nextTimer (Camera.loop st) :=
             {| delay := 100; timerEffect := effect; timerClosure := closure |}]>
           (timers (Camera.loop st))
       | Camera.NoAwaiter => timers (Camera.loop st)
       end
  /\ timeoutIds (Camera.loop st')
     = match Camera.awaiter i with
       | Camera.ResumeRunDetection effect closure =>
         <[effect := nextTimer (Camera.loop st)]> (timeoutIds (Camera.loop st))
       | Camera.NoAwaiter => timeoutIds (Camera.loop st)
       end.
Proof.
  intros Hi. unfold Camera.settle_inference. rewrite Hi. simpl.
  destruct (Camera.awaiter i); simpl; auto 12.
Qed.

(** A runDetection that finds the video ready calls the model and
    schedules nothing before the call settles. *)
Lemma runDetection_pending (st : Camera.State R) (effect : positive) (m : Model) :
  Camera.mounted st = true ->
  contextMode (Camera.canvas st) <> ModeOther ->
  readyState (Camera.video st) = HAVE_ENOUGH_DATA ->
  let st' := Camera.runDetection effect (Some m) st in
  Camera.estimateFacesCalls st' = S (Camera.estimateFacesCalls st)
  /\ timers (Camera.loop st') = timers (Camera.loop st)
  /\ inferences (Camera.loop st') !! nextInference (Camera.loop st)
     = Some {| Camera.scaleX := (clientWidth (Camera.video st) / videoWidth (Camera.video st))%js;
               Camera.scaleY := (clientHeight (Camera.video st) / videoHeight (Camera.video st))%js;
               Camera.awaiter := Camera.ResumeRunDetection effect (Some m) |}.
Proof.
  intros Hm Hc Hr. unfold Camera.runDetection.
  pose proof (detectFaces_pending st m (Camera.ResumeRunDetection effect (Some m)) Hm Hc Hr)
    as (Hp & Hi & Hcount & _ & _ & _ & Ht).
  destruct (Camera.detectFaces (Some m) (Camera.ResumeRunDetection effect (Some m)) st)
    as [st1 p]. simpl in *. subst p. auto.
Qed.

(** *** Quiescence after a stop *)








Lemma stop_commit_clears_nothing_unset (st : Camera.State R) :
  Camera.mounted st = true ->
  is_Some (srcObject (Camera.video st)) ->
  fst (effectDeps (Camera.loop st)) = true ->
  timeoutIds (Camera.loop st) !! currentEffect (Camera.loop st) = None ->
  timers (Camera.loop (Camera.flushEffects (Camera.stopCamera st)))
  = timers (Camera.loop st).
Proof.
  intros Hm [stream Hs] Hd Ht.
  unfold Camera.stopCamera. rewrite Hm, Hs.
  unfold Camera.flushEffects. simpl.
  destruct (decide _) as [E|_].
  { rewrite <- E in Hd. simpl in Hd. discriminate. }
  unfold Camera.effect_cleanup. simpl. rewrite Ht. simpl. reflexivity.
Qed.


End DetectionLoop.

(** C5. When the model call of a detection cycle fails, the cycle sets
    the error message and writes the failure to the debug text, the
    promise of detectFaces is fulfilled all the same (the failure stays
    inside the cycle), no pending timer is lost, and the runDetection
    that awaits the cycle schedules its successor, whether the session
    is streaming or not: when that timer fires with the video ready the
    model is called again. *)
Theorem inference_failure_keeps_loop :
  forall (R : Type) (N : JsNumber R) (st : Camera.State R) (id : positive)
         (i : Camera.Inference R) (err : string),
    inferences (Camera.loop st) !! id = Some i ->
    let st' := Camera.settle_inference id (Rejected err) st in
    Camera.error (Camera.hooks st') = Some "Face detection failed. Please try again."%string
    /\ Camera.debugInfo (Camera.hooks st') = DebugError err
    /\ snd (Camera.detectFaces_resume i (Rejected err)
              (Camera.upd_loop (take_inference id) st)) = Fulfilled tt
    /\ inferences (Camera.loop st') !! id = None
    /\ (forall t, t <> nextTimer (Camera.loop st) ->
                  timers (Camera.loop st') !! t = timers (Camera.loop st) !! t)
    /\ (forall effect closure,
           Camera.awaiter i = Camera.ResumeRunDetection effect closure ->
           timers (Camera.loop st') !! nextTimer (Camera.loop st)
           = Some {| delay := 100; timerEffect := effect; timerClosure := closure |}
           /\ timeoutIds (Camera.loop st') !! effect = Some (nextTimer (Camera.loop st)))
    /\ (forall effect m,
           Camera.awaiter i = Camera.ResumeRunDetection effect (Some m) ->
           Camera.mounted st = true ->
           contextMode (Camera.canvas st) <> ModeOther ->
           readyState (Camera.video st) = HAVE_ENOUGH_DATA ->
           Camera.estimateFacesCalls (Camera.step st' (Camera.EvTimer (nextTimer (Camera.loop st))))
           = S (Camera.estimateFacesCalls st)).
Proof.
  intros R N st id i err Hi st'.
  destruct (settle_inference_rejected st id i err Hi)
    as (He & Hd & Hm & Hv & Hc & Hn & Hinf & _ & Ht & Hids).
  fold st' in He, Hd, Hm, Hv, Hc, Hn, Hinf, Ht, Hids.
  split; [exact He|]. split; [exact Hd|]. split; [reflexivity|].
  split; [rewrite Hinf; apply lookup_delete_eq|].
  split; [|split].
  - intros t Hne. rewrite Ht.
    destruct (Camera.awaiter i); [|reflexivity].
    apply lookup_insert_ne. congruence.
  - intros effect closure Ha. rewrite Ht, Hids, Ha.
    split; apply lookup_insert_eq.
  - intros effect m Ha Hmounted Hctx Hready. simpl.
    unfold Camera.fire_timer. rewrite Ht, Ha, lookup_insert_eq. simpl.
    match goal with
    | |- context [Camera.runDetection ?e (Some ?c) ?s] =>
        destruct (runDetection_pending s e c) as (Hcalls & _)
    end; simpl; try congruence.
    rewrite Hcalls. simpl. congruence.
Qed.

(** C5 in the session of the example: the model call of the cycle in
    flight fails; the error and the debug text are set, timer 2 is the
    successor, and when it fires the model is called a second time. *)
Lemma inference_failure_witness :
  let st := Camera.run Camera.init exampleSession in
  let st' := Camera.settle_inference 1 (Rejected "out of memory") st in
  Camera.error (Camera.hooks st') = Some "Face detection failed. Please try again."%string
  /\ Camera.debugInfo (Camera.hooks st') = DebugError "out of memory"
  /\ timers (Camera.loop st') !! nextTimer (Camera.loop st)
     = Some {| delay := 100; timerEffect := 3; timerClosure := Some 1%positive |}
  /\ Camera.estimateFacesCalls st = 1
  /\ Camera.estimateFacesCalls (Camera.step st' (Camera.EvTimer (nextTimer (Camera.loop st)))) = 2.
Proof.
  cbv zeta.
  assert (Hi : inferences (Camera.loop (Camera.run Camera.init exampleSession)) !! 1%positive
               = Some {| Camera.scaleX := 0.5%float; Camera.scaleY := 0.5%float;
                         Camera.awaiter := Camera.ResumeRunDetection 3 (Some 1%positive) |})
    by (vm_compute; reflexivity).
  destruct (inference_failure_keeps_loop float float_JsNumber _ _ _ "out of memory" Hi)
    as (He & Hd & _ & _ & _ & Hs & Hn).
  destruct (Hs 3%positive (Some 1%positive) eq_refl) as [Ht _].
  assert (Hc : Camera.estimateFacesCalls (Camera.run Camera.init exampleSession) = 1)
    by (vm_compute; reflexivity).
  split; [exact He|]. split; [exact Hd|]. split; [exact Ht|]. split; [exact Hc|].
  rewrite (Hn 3%positive 1%positive eq_refl); [rewrite Hc; reflexivity | | |];
    vm_compute; congruence.
Defined.




(** ** Detection loop of the cropped-face variant *)

Section CroppedLoop.
Context {R : Type} `{JsNumber R}.
Variable scaleFactor : R.
Variable yScalerPos : R.

Local Abbreviation cropFace := (CroppedFaceCamera.cropFace scaleFactor yScalerPos).
Local Abbreviation step := (CroppedFaceCamera.step scaleFactor yScalerPos).
Local Abbreviation run := (CroppedFaceCamera.run scaleFactor yScalerPos).
Local Abbreviation entry := (croppedEntry scaleFactor yScalerPos).

Lemma cropped_run_cons (st : CroppedFaceCamera.State R) (e : CroppedFaceCamera.Event R)
    (es : list (CroppedFaceCamera.Event R)) :
  run st (e :: es) = run (step st e) es.
Proof. reflexivity. Qed.




End CroppedLoop.

Section CroppedScheduling.
Context {R : Type} `{JsNumber R}.

(** runDetection of the cropped-face variant: the cycle is suspended at
    its first await and its successor is scheduled in the same step. *)
Lemma cropped_runDetection_schedules_at_once (st : CroppedFaceCamera.State R)
    (effect : positive) (bm lm : Model) :
  CroppedFaceCamera.mounted st = true ->
  contextMode (CroppedFaceCamera.canvas st) <> ModeOther ->
  readyState (CroppedFaceCamera.video st) = HAVE_ENOUGH_DATA ->
  let st' := CroppedFaceCamera.runDetection effect (Some bm, Some lm) st in
  inferences (CroppedFaceCamera.loop st') !! nextInference (CroppedFaceCamera.loop st)
  = Some (CroppedFaceCamera.AwaitBlazeface
            (clientWidth (CroppedFaceCamera.video st) / videoWidth (CroppedFaceCamera.video st))%js
            (clientHeight (CroppedFaceCamera.video st) / videoHeight (CroppedFaceCamera.video st))%js)
  /\ timers (CroppedFaceCamera.loop st') !! nextTimer (CroppedFaceCamera.loop st)
     = Some {| delay := 600; timerEffect := effect; timerClosure := (Some bm, Some lm) |}
  /\ CroppedFaceCamera.blazefaceCalls st' = S (CroppedFaceCamera.blazefaceCalls st).
Proof.
  intros Hm Hc Hr.
  unfold CroppedFaceCamera.runDetection, CroppedFaceCamera.detectFaces, getContext2d.
  rewrite Hm.
  destruct (contextMode (CroppedFaceCamera.canvas st)) eqn:Hmode; try congruence;
    simpl; rewrite Hr; simpl; rewrite !lookup_insert_eq; auto.
Qed.

End CroppedScheduling.

(** C6, on the code. In the cropped-face variant runDetection schedules
    its successor in the step in which the cycle is suspended at its
    first await, so a model slower than the timer leaves two cycles in
    flight, and their settlements interleave: the state then holds the
    predictions of the later frame beside the crops of the earlier one.
    In camera.tsx, where runDetection awaits the cycle, a detectFaces
    re-requested through requestAnimationFrame runs beside the cycle of
    the timer. *)
Theorem cycles_overlap :
  (forall (R : Type) (N : JsNumber R) (st : CroppedFaceCamera.State R)
          (effect : positive) (bm lm : Model),
      CroppedFaceCamera.mounted st = true ->
      contextMode (CroppedFaceCamera.canvas st) <> ModeOther ->
      readyState (CroppedFaceCamera.video st) = HAVE_ENOUGH_DATA ->
      is_Some (inferences (CroppedFaceCamera.loop
                 (CroppedFaceCamera.runDetection effect (Some bm, Some lm) st))
               !! nextInference (CroppedFaceCamera.loop st))
      /\ timers (CroppedFaceCamera.loop
                   (CroppedFaceCamera.runDetection effect (Some bm, Some lm) st))
           !! nextTimer (CroppedFaceCamera.loop st)
         = Some {| delay := 600; timerEffect := effect; timerClosure := (Some bm, Some lm) |})
  /\ (let run := CroppedFaceCamera.run CroppedFaceCamera.scaleFactor_value
                   CroppedFaceCamera.yScalerPos_value in
      CroppedFaceCamera.all_enabled CroppedFaceCamera.scaleFactor_value
        CroppedFaceCamera.yScalerPos_value CroppedFaceCamera.init overlapSession = true
      /\ CroppedFaceCamera.cyclesInFlight (run CroppedFaceCamera.init overlapSession) = 1
      /\ is_Some (timers (CroppedFaceCamera.loop (run CroppedFaceCamera.init overlapSession))
                  !! 1%positive)
      /\ CroppedFaceCamera.cyclesInFlight
           (run CroppedFaceCamera.init (overlapSession ++ [CroppedFaceCamera.EvTimer 1])) = 2)
  /\ (let st := CroppedFaceCamera.run CroppedFaceCamera.scaleFactor_value
                  CroppedFaceCamera.yScalerPos_value CroppedFaceCamera.init
                  (overlapSession
                   ++ [CroppedFaceCamera.EvTimer 1;
                       CroppedFaceCamera.EvBlazeface 1 (Fulfilled [exampleFace]);
                       CroppedFaceCamera.EvBlazeface 2 (Fulfilled []);
                       CroppedFaceCamera.EvLandmarks 1 (Fulfilled [7%positive])]) in
      CroppedFaceCamera.predictions (CroppedFaceCamera.hooks st) = []
      /\ length (CroppedFaceCamera.croppedFaces (CroppedFaceCamera.hooks st)) = 1)
  /\ (Camera.all_enabled Camera.init animationFrameSession = true
      /\ size (inferences (Camera.loop (Camera.run Camera.init animationFrameSession))) = 2).
Proof.
  split; [|split; [|split]].
  - intros R N st effect bm lm Hm Hc Hr.
    destruct (cropped_runDetection_schedules_at_once st effect bm lm Hm Hc Hr)
      as (Hi & Ht & _).
    split; [rewrite Hi; eexists; reflexivity | exact Ht].
  - cbv zeta. split; [vm_compute; reflexivity|]. split; [vm_compute; reflexivity|].
    split; [vm_compute; eexists; reflexivity | vm_compute; reflexivity].
  - cbv zeta. split; vm_compute; reflexivity.
  - split; vm_compute; reflexivity.
Qed.



(** * Further properties *)

(** ** Capture controller and model loader of camera.tsx *)

Section CameraCapture.
Context {R : Type} `{JsNumber R}.

Lemma not_capturing_step (st : Camera.State R) (e : Camera.Event R) :
  not_capturing st -> grants e = false -> not_capturing (Camera.step st e).
Proof.
  intros (Hs & Hi & Ht & Ha & Hinf & Hc) Hg. unfold not_capturing, idle.
  destruct e; simpl.
  - unfold Camera.loadModel_backend, Camera.loadModel_catch.
    destruct (Camera.loadStage st); try destruct r; simpl; auto 10.
  - unfold Camera.loadModel_loaded, Camera.loadModel_catch.
    destruct (Camera.loadStage st); try destruct r; simpl; auto 10.
  - auto 10.
  - unfold Camera.startCamera_resume.
    destruct (Camera.pendingGetUserMedia st); simpl; auto 10.
    destruct r; [discriminate|]. simpl. auto 10.
  - unfold Camera.loadedmetadata. rewrite Hs. auto 10.
  - rewrite Hs. auto 10.
  - simpl. auto 10.
  - unfold Camera.handleResize. destruct (Camera.mounted st); simpl; auto 10.
  - unfold Camera.stopCamera. rewrite Hs. destruct (Camera.mounted st); auto 10.
  - unfold Camera.flushEffects.
    destruct (decide _); [auto 10|].
    unfold Camera.effect_cleanup.
    destruct (timeoutIds (Camera.loop st) !! currentEffect (Camera.loop st));
      simpl; rewrite Hi; simpl; rewrite ?Ht, ?delete_empty; auto 10.
  - unfold Camera.fire_timer. rewrite Ht, lookup_empty. auto 10.
  - unfold Camera.fire_animationFrame. rewrite Ha, lookup_empty. auto 10.
  - unfold Camera.settle_inference. rewrite Hinf, lookup_empty. auto 10.
Qed.

Lemma not_capturing_run (es : list (Camera.Event R)) (st : Camera.State R) :
  not_capturing st -> existsb grants es = false -> not_capturing (Camera.run st es).
Proof.
  revert st. induction es as [|e es IH]; intros st Hst Hg; simpl; [exact Hst|].
  simpl in Hg. apply orb_false_elim in Hg as [Hg1 Hg2].
  apply IH; [apply not_capturing_step; assumption | exact Hg2].
Qed.

Lemma not_capturing_init : not_capturing (Camera.init (R := R)).
Proof. repeat split. Qed.

(** Once the load has settled, no step changes the stored model. *)
Lemma settled_step (st : Camera.State R) (e : Camera.Event R) :
  Camera.loadStage st = Camera.LoadSettled ->
  Camera.loadStage (Camera.step st e) = Camera.LoadSettled
  /\ Camera.model (Camera.hooks (Camera.step st e)) = Camera.model (Camera.hooks st).
Proof.
  intros Hs. destruct e; simpl; auto.
  - unfold Camera.loadModel_backend. rewrite Hs. auto.
  - unfold Camera.loadModel_loaded. rewrite Hs. auto.
  - unfold Camera.startCamera_resume.
    destruct (Camera.pendingGetUserMedia st); simpl; auto.
    destruct r; simpl; [destruct (Camera.mounted st)|]; simpl; auto.
  - unfold Camera.loadedmetadata.
    destruct (srcObject (Camera.video st)); simpl; auto.
    destruct (onloadedmetadata (Camera.video st)); simpl; auto.
    destruct (Camera.mounted st); simpl; auto.
  - destruct (srcObject (Camera.video st)); simpl; auto.
  - unfold Camera.handleResize. destruct (Camera.mounted st); simpl; auto.
  - unfold Camera.stopCamera. destruct (Camera.mounted st); simpl; auto.
    destruct (srcObject (Camera.video st)); simpl; auto.
  - unfold Camera.flushEffects.
    destruct (decide _); [auto|].
    match goal with
    | |- context [if ?b then Camera.runDetection ?e ?c ?s else ?s'] =>
        assert (Hk : Camera.hooks s = Camera.hooks st /\ Camera.loadStage s = Camera.loadStage st)
          by (unfold Camera.effect_cleanup;
              destruct (timeoutIds (Camera.loop st) !! currentEffect (Camera.loop st));
              simpl; auto);
        destruct b;
        [destruct (runDetection_hooks_video e c s) as (-> & _);
         rewrite (runDetection_loadStage e c s)|];
        destruct Hk as (-> & ->); auto
    end.
  - unfold Camera.fire_timer.
    destruct (timers (Camera.loop st) !! id); [|auto].
    match goal with
    | |- context [Camera.runDetection ?e ?c ?s] =>
        destruct (runDetection_hooks_video e c s) as (-> & _);
        rewrite (runDetection_loadStage e c s)
    end. auto.
  - unfold Camera.fire_animationFrame.
    destruct (animationFrames (Camera.loop st) !! id); [|auto].
    match goal with
    | |- context [Camera.detectFaces ?c ?k ?s] =>
        destruct (detectFaces_hooks_video c k s) as (-> & _);
        rewrite (detectFaces_loadStage c k s)
    end. auto.
  - unfold Camera.settle_inference.
    destruct (inferences (Camera.loop st) !! id) as [i|]; [|auto].
    destruct r; simpl; destruct (Camera.awaiter i); simpl; auto.
Qed.

Lemma settled_run (es : list (Camera.Event R)) (st : Camera.State R) :
  Camera.loadStage st = Camera.LoadSettled ->
  Camera.model (Camera.hooks (Camera.run st es)) = Camera.model (Camera.hooks st).
Proof.
  revert st. induction es as [|e es IH]; intros st Hs; simpl; [reflexivity|].
  destruct (settled_step st e Hs) as [Hs' Hm]. rewrite (IH _ Hs'). exact Hm.
Qed.

(** No step sets the loading flag. *)
Lemma isLoading_step (st : Camera.State R) (e : Camera.Event R) :
  Camera.isLoading (Camera.hooks st) = false ->
  Camera.isLoading (Camera.hooks (Camera.step st e)) = false.
Proof.
  intros Hl. destruct e; simpl; auto.
  - unfold Camera.loadModel_backend, Camera.loadModel_catch.
    destruct (Camera.loadStage st); try destruct r; simpl; auto.
  - unfold Camera.loadModel_loaded, Camera.loadModel_catch.
    destruct (Camera.loadStage st); try destruct r; simpl; auto.
  - unfold Camera.startCamera_resume.
    destruct (Camera.pendingGetUserMedia st); simpl; auto.
    destruct r; simpl; [destruct (Camera.mounted st)|]; simpl; auto.
  - unfold Camera.loadedmetadata.
    destruct (srcObject (Camera.video st)); simpl; auto.
    destruct (onloadedmetadata (Camera.video st)); simpl; auto.
    destruct (Camera.mounted st); simpl; auto.
  - destruct (srcObject (Camera.video st)); simpl; auto.
  - unfold Camera.handleResize. destruct (Camera.mounted st); simpl; auto.
  - unfold Camera.stopCamera. destruct (Camera.mounted st); simpl; auto.
    destruct (srcObject (Camera.video st)); simpl; auto.
  - unfold Camera.flushEffects.
    destruct (decide _); [auto|].
    match goal with
    | |- context [if ?b then Camera.runDetection ?e ?c ?s else ?s'] =>
        assert (Hk : Camera.hooks s = Camera.hooks st)
          by (unfold Camera.effect_cleanup;
              destruct (timeoutIds (Camera.loop st) !! currentEffect (Camera.loop st));
              simpl; auto);
        destruct b;
        [destruct (runDetection_hooks_video e c s) as (-> & _)|];
        rewrite Hk; auto
    end.
  - unfold Camera.fire_timer.
    destruct (timers (Camera.loop st) !! id); [|auto].
    match goal with
    | |- context [Camera.runDetection ?e ?c ?s] =>
        destruct (runDetection_hooks_video e c s) as (-> & _)
    end. auto.
  - unfold Camera.fire_animationFrame.
    destruct (animationFrames (Camera.loop st) !! id); [|auto].
    match goal with
    | |- context [Camera.detectFaces ?c ?k ?s] =>
        destruct (detectFaces_hooks_video c k s) as (-> & _)
    end. auto.
  - unfold Camera.settle_inference.
    destruct (inferences (Camera.loop st) !! id) as [i|]; [|auto].
    destruct r; simpl; destruct (Camera.awaiter i); simpl; auto.
Qed.

Lemma isLoading_run (es : list (Camera.Event R)) (st : Camera.State R) :
  Camera.isLoading (Camera.hooks st) = false ->
  Camera.isLoading (Camera.hooks (Camera.run st es)) = false.
Proof.
  revert st. induction es as [|e es IH]; intros st Hl; simpl; [exact Hl|].
  apply IH. apply isLoading_step. exact Hl.
Qed.

(** The load settles with the loading flag cleared. *)
Lemma settles_not_loading (st : Camera.State R) (e : Camera.Event R) :
  Camera.loadStage (Camera.step st e) = Camera.LoadSettled ->
  Camera.loadStage st = Camera.LoadSettled
  \/ Camera.isLoading (Camera.hooks (Camera.step st e)) = false.
Proof.
  destruct e; simpl; auto.
  - unfold Camera.loadModel_backend, Camera.loadModel_catch.
    destruct (Camera.loadStage st) eqn:Hs; try destruct r; simpl; auto;
      intros Hx; congruence.
  - unfold Camera.loadModel_loaded, Camera.loadModel_catch.
    destruct (Camera.loadStage st) eqn:Hs; try destruct r; simpl; auto;
      intros Hx; congruence.
  - unfold Camera.startCamera_resume.
    destruct (Camera.pendingGetUserMedia st); simpl; auto.
    destruct r; simpl; [destruct (Camera.mounted st)|]; simpl; auto.
  - unfold Camera.loadedmetadata.
    destruct (srcObject (Camera.video st)); simpl; auto.
    destruct (onloadedmetadata (Camera.video st)); simpl; auto.
    destruct (Camera.mounted st); simpl; auto.
  - destruct (srcObject (Camera.video st)); simpl; auto.
  - unfold Camera.handleResize. destruct (Camera.mounted st); simpl; auto.
  - unfold Camera.stopCamera. destruct (Camera.mounted st); simpl; auto.
    destruct (srcObject (Camera.video st)); simpl; auto.
  - unfold Camera.flushEffects.
    destruct (decide _); [auto|].
    match goal with
    | |- context [if ?b then Camera.runDetection ?e ?c ?s else ?s'] =>
        assert (Hk : Camera.loadStage s = Camera.loadStage st)
          by (unfold Camera.effect_cleanup;
              destruct (timeoutIds (Camera.loop st) !! currentEffect (Camera.loop st));
              simpl; auto);
        destruct b; [rewrite (runDetection_loadStage e c s)|]; rewrite Hk; auto
    end.
  - unfold Camera.fire_timer.
    destruct (timers (Camera.loop st) !! id); [|auto].
    match goal with
    | |- context [Camera.runDetection ?e ?c ?s] => rewrite (runDetection_loadStage e c s)
    end. auto.
  - unfold Camera.fire_animationFrame.
    destruct (animationFrames (Camera.loop st) !! id); [|auto].
    match goal with
    | |- context [Camera.detectFaces ?c ?k ?s] => rewrite (detectFaces_loadStage c k s)
    end. auto.
  - unfold Camera.settle_inference.
    destruct (inferences (Camera.loop st) !! id) as [i|]; [|auto].
    destruct r; simpl; destruct (Camera.awaiter i); simpl; auto.
Qed.

Lemma settled_not_loading_run (es : list (Camera.Event R)) (st : Camera.State R) :
  (Camera.loadStage st = Camera.LoadSettled -> Camera.isLoading (Camera.hooks st) = false) ->
  Camera.loadStage (Camera.run st es) = Camera.LoadSettled ->
  Camera.isLoading (Camera.hooks (Camera.run st es)) = false.
Proof.
  revert st. induction es as [|e es IH]; intros st Hst; simpl; [exact Hst|].
  apply IH. intros Hs.
  destruct (settles_not_loading st e Hs) as [Hs0|Hl]; [|exact Hl].
  apply isLoading_step. apply Hst. exact Hs0.
Qed.

Lemma run_app (st : Camera.State R) (es1 es2 : list (Camera.Event R)) :
  Camera.run st (es1 ++ es2) = Camera.run (Camera.run st es1) es2.
Proof. unfold Camera.run. apply fold_left_app. Qed.

End CameraCapture.

(** X1. A session in which no camera request is granted never streams:
    whatever else happens, no stream is attached, the streaming flag
    stays false, no timer, animation frame or model call is pending and
    the model is never called; and a denied request puts the camera
    message into the error state. *)
Theorem denied_camera_never_streams :
  forall (R : Type) (N : JsNumber R) (es : list (Camera.Event R)),
    existsb grants es = false ->
    let st := Camera.run Camera.init es in
    (srcObject (Camera.video st) = None
     /\ Camera.isStreaming (Camera.hooks st) = false
     /\ Camera.estimateFacesCalls st = 0
     /\ timers (Camera.loop st) = ∅
     /\ animationFrames (Camera.loop st) = ∅
     /\ inferences (Camera.loop st) = ∅)
    /\ (forall err,
           Camera.pendingGetUserMedia st <> 0 ->
           let denied := Camera.step st (Camera.EvGetUserMedia (Rejected err)) in
           Camera.error (Camera.hooks denied)
           = Some "Failed to access the camera. Please make sure you have given permission."%string
           /\ Camera.isStreaming (Camera.hooks denied) = false
           /\ Camera.pendingGetUserMedia denied = pred (Camera.pendingGetUserMedia st)).
Proof.
  intros R N es Hg st.
  destruct (not_capturing_run es Camera.init not_capturing_init Hg)
    as (Hs & Hi & Ht & Ha & Hinf & Hc).
  fold st in Hs, Hi, Ht, Ha, Hinf, Hc.
  split; [auto 10|].
  intros err Hp denied. unfold denied. simpl. unfold Camera.startCamera_resume.
  destruct (Camera.pendingGetUserMedia st) as [|n]; [congruence|]. simpl. auto.
Qed.

(** X1 in the session in which permission is refused and then no camera
    is found. *)
Lemma denied_camera_witness :
  let st := Camera.run Camera.init deniedSession in
  Camera.all_enabled Camera.init deniedSession = true
  /\ srcObject (Camera.video st) = None
  /\ Camera.isStreaming (Camera.hooks st) = false
  /\ Camera.estimateFacesCalls st = 0
  /\ Camera.error (Camera.hooks st)
     = Some "Failed to access the camera. Please make sure you have given permission."%string.
Proof.
  cbv zeta. split; [vm_compute; reflexivity|].
  destruct (denied_camera_never_streams float float_JsNumber deniedSession eq_refl)
    as ((Hs & Hi & Hc & _) & _).
  split; [exact Hs|]. split; [exact Hi|]. split; [exact Hc|].
  vm_compute. reflexivity.
Defined.

(** X2. The model is loaded once per session: a stored model is never
    replaced or cleared by anything that happens later, and once the
    loading flag is false it stays false. *)
Theorem model_cached_for_session :
  forall (R : Type) (N : JsNumber R) (before after : list (Camera.Event R)) (m : Model),
    Camera.model (Camera.hooks (Camera.run Camera.init before)) = Some m ->
    Camera.model (Camera.hooks (Camera.run Camera.init (before ++ after))) = Some m
    /\ Camera.isLoading (Camera.hooks (Camera.run Camera.init before)) = false
    /\ Camera.isLoading (Camera.hooks (Camera.run Camera.init (before ++ after))) = false.
Proof.
  intros R N before after m Hm.
  pose proof (loader_inv_run before Camera.init loader_inv_init) as [Hstage _].
  assert (Hs : Camera.loadStage (Camera.run Camera.init before) = Camera.LoadSettled).
  { destruct (Camera.loadStage (Camera.run Camera.init before)) eqn:E; try reflexivity;
      rewrite Hstage in Hm; congruence. }
  assert (Hl : Camera.isLoading (Camera.hooks (Camera.run Camera.init before)) = false).
  { apply settled_not_loading_run; [discriminate | exact Hs]. }
  rewrite run_app. split; [|split].
  - rewrite (settled_run after _ Hs). exact Hm.
  - exact Hl.
  - apply isLoading_run. exact Hl.
Qed.

(** X2 in the session of the example: the model loaded at the start is
    the model after the stop and the answer of the in-flight cycle. *)
Lemma model_cached_witness :
  Camera.model (Camera.hooks (Camera.run Camera.init stopInFlightSession)) = Some 1%positive
  /\ Camera.isLoading (Camera.hooks (Camera.run Camera.init stopInFlightSession)) = false.
Proof.
  destruct (model_cached_for_session float float_JsNumber
              [Camera.EvSetBackend (Fulfilled tt); Camera.EvBlazefaceLoad (Fulfilled 1%positive)]
              (skipn 2 stopInFlightSession) 1%positive eq_refl) as (Hm & _ & Hl).
  split; [exact Hm | exact Hl].
Defined.

(** ** Renderer, results panel and waiting cycles of camera.tsx *)

Section CameraRendering.
Context {R : Type} `{JsNumber R}.

Lemma circles_renderFace (sx sy : R) (face : FaceDetection R) :
  circles (Camera.renderFace sx sy face) = scaledCircles sx sy face.
Proof.
  unfold Camera.renderFace, scaledCircles.
  destruct (topLeft face) as [x y]; simpl. apply circles_landmarks.
Qed.

Lemma circles_renderOverlay (w h sx sy : R) (faces : list (FaceDetection R)) :
  circles (Camera.renderOverlay w h sx sy faces) = flat_map (scaledCircles sx sy) faces.
Proof.
  unfold Camera.renderOverlay. simpl.
  induction faces as [|face faces IH]; simpl; [reflexivity|].
  rewrite circles_app, circles_renderFace, IH. reflexivity.
Qed.

Lemma renderItems_Some (faces : list (FaceDetection R)) (index : nat)
    (items : list (Camera.FaceItem R)) :
  Camera.renderItems index faces = Some items ->
  map Camera.itemIndex items = seq (S index) (length faces)
  /\ map Camera.itemProbability items = map probability faces
  /\ map Camera.itemTopLeft items = map topLeft faces
  /\ map Camera.itemBottomRight items = map bottomRight faces.
Proof.
  revert index items. induction faces as [|face faces IH]; intros index items; simpl.
  - intros Hx. injection Hx as <-. repeat split.
  - destruct (Camera.renderItem index face) as [item|] eqn:Hitem; simpl; [|discriminate].
    destruct (Camera.renderItems (S index) faces) as [rest|] eqn:Hrest; simpl; [|discriminate].
    intros Hx. injection Hx as <-.
    destruct (IH (S index) rest Hrest) as (H1 & H2 & H3 & H4).
    unfold Camera.renderItem in Hitem.
    destruct (Camera.landmarkAt face 0); simpl in Hitem; [|discriminate].
    destruct (Camera.landmarkAt face 1); simpl in Hitem; [|discriminate].
    destruct (Camera.landmarkAt face 2); simpl in Hitem; [|discriminate].
    destruct (Camera.landmarkAt face 3); simpl in Hitem; [|discriminate].
    destruct (Camera.landmarkAt face 4); simpl in Hitem; [|discriminate].
    destruct (Camera.landmarkAt face 5); simpl in Hitem; [|discriminate].
    injection Hitem as <-. simpl.
    rewrite H1, H2, H3, H4. replace (index + 1) with (S index) by lia. repeat split.
Qed.

(** detectFaces on a video that has not buffered enough. *)
Lemma detectFaces_not_ready (closure : option Model) (k : Camera.Awaiter) (st : Camera.State R) :
  readyState (Camera.video st) <> HAVE_ENOUGH_DATA ->
  let st' := fst (Camera.detectFaces closure k st) in
  snd (Camera.detectFaces closure k st) = Camera.Resolved
  /\ Camera.estimateFacesCalls st' = Camera.estimateFacesCalls st
  /\ calls (Camera.canvas st') = calls (Camera.canvas st)
  /\ Camera.hooks st' = Camera.hooks st
  /\ inferences (Camera.loop st') = inferences (Camera.loop st)
  /\ timers (Camera.loop st') = timers (Camera.loop st)
  /\ nextTimer (Camera.loop st') = nextTimer (Camera.loop st)
  /\ (Camera.mounted st = true -> is_Some closure ->
      contextMode (Camera.canvas st) <> ModeOther ->
      animationFrames (Camera.loop st')
      = <[nextAnimationFrame (Camera.loop st) := closure]> (animationFrames (Camera.loop st))).
Proof.
  intros Hr. unfold Camera.detectFaces.
  apply Nat.eqb_neq in Hr.
  destruct (Camera.mounted st) eqn:Hm, closure as [m|]; simpl;
    try (repeat split; auto; intros; try discriminate;
         match goal with Hx : is_Some None |- _ => destruct Hx; discriminate end).
  unfold getContext2d.
  destruct (contextMode (Camera.canvas st)); simpl; rewrite ?Hr; simpl;
    repeat split; auto; intros; congruence.
Qed.

End CameraRendering.

(** X3. Every landmark of every detection is drawn once, in order, as
    a circle of radius 3 at (lx * scaleX, ly * scaleY), each axis with
    its own factor; when the model finds no face the cycle clears the
    whole canvas, draws no shape and stores an empty list. *)
Theorem landmarks_drawn_scaled :
  forall (R : Type) (N : JsNumber R) (st : Camera.State R) (id : positive)
         (i : Camera.Inference R) (preds : list (FaceDetection R)),
    inferences (Camera.loop st) !! id = Some i ->
    let st' := Camera.settle_inference id (Fulfilled preds) st in
    circles (calls (Camera.canvas st'))
    = circles (calls (Camera.canvas st))
      ++ flat_map (fun face =>
                     map (fun landmark =>
                            Arc (fst landmark * Camera.scaleX i)%js
                                (snd landmark * Camera.scaleY i)%js (num_of_Z 3))
                         (landmarks face)) preds
    /\ (preds = [] ->
        calls (Camera.canvas st')
        = calls (Camera.canvas st)
          ++ [ClearRect (num_of_Z 0) (num_of_Z 0)
                        (width (Camera.canvas st)) (height (Camera.canvas st));
              SetFillStyle "rgba(255, 0, 0, 0.5)"; SetStrokeStyle "#FF0000";
              SetLineWidth (num_of_Z 2)]
        /\ Camera.predictions (Camera.hooks st') = []).
Proof.
  intros R N st id i preds Hi st'.
  destruct (settle_inference_fulfilled st id i preds Hi) as (Hp & Hc & _).
  fold st' in Hp, Hc. split.
  - rewrite Hc, circles_app, circles_renderOverlay. reflexivity.
  - intros ->. rewrite Hc, Hp. split; reflexivity.
Qed.

(** X3 for the cycle in flight in the session of the example. *)
Lemma landmarks_drawn_witness :
  circles (calls (Camera.canvas
    (Camera.settle_inference 1 (Fulfilled [exampleFace]) (Camera.run Camera.init exampleSession))))
  = [Arc 60%float 65%float 3%float; Arc 85%float 65%float 3%float;
     Arc 72.5%float 75%float 3%float; Arc 72.5%float 87.5%float 3%float;
     Arc 52.5%float 70%float 3%float; Arc 97.5%float 70%float 3%float].
Proof.
  assert (Hi : inferences (Camera.loop (Camera.run Camera.init exampleSession)) !! 1%positive
               = Some {| Camera.scaleX := 0.5%float; Camera.scaleY := 0.5%float;
                         Camera.awaiter := Camera.ResumeRunDetection 3 (Some 1%positive) |})
    by (vm_compute; reflexivity).
  rewrite (proj1 (landmarks_drawn_scaled float float_JsNumber _ _ _ [exampleFace] Hi)).
  vm_compute. reflexivity.
Defined.

(** X4. When the panel of results is shown and every stored detection
    has its six landmarks, it lists one entry per detection, numbered
    from 1 in the order of the model output, each with the probability
    and the corners of its detection; with no stored detection it says
    that no face was detected, and it is hidden unless the session is
    streaming and a model is stored. *)
Theorem results_panel_lists_detections :
  forall (R : Type) (N : JsNumber R) (st : Camera.State R),
    (Camera.isStreaming (Camera.hooks st) = true ->
     is_Some (Camera.model (Camera.hooks st)) ->
     Camera.predictions (Camera.hooks st) <> [] ->
     (forall face, face ∈ Camera.predictions (Camera.hooks st) -> 6 <= length (landmarks face)) ->
     exists items,
       Camera.resultsPanel st = Camera.PanelFaces items
       /\ map Camera.itemIndex items = seq 1 (length (Camera.predictions (Camera.hooks st)))
       /\ map Camera.itemProbability items = map probability (Camera.predictions (Camera.hooks st))
       /\ map Camera.itemTopLeft items = map topLeft (Camera.predictions (Camera.hooks st))
       /\ map Camera.itemBottomRight items
          = map bottomRight (Camera.predictions (Camera.hooks st)))
    /\ (Camera.isStreaming (Camera.hooks st) = true ->
        is_Some (Camera.model (Camera.hooks st)) ->
        Camera.predictions (Camera.hooks st) = [] ->
        Camera.resultsPanel st = Camera.PanelNoFaces)
    /\ (Camera.isStreaming (Camera.hooks st) = false \/ Camera.model (Camera.hooks st) = None ->
        Camera.resultsPanel st = Camera.PanelHidden).
Proof.
  intros R N st. unfold Camera.resultsPanel. split; [|split].
  - intros Hs Hm Hne Hall. rewrite Hs. simpl.
    rewrite (bool_decide_eq_true_2 _ Hm).
    destruct (Camera.predictions (Camera.hooks st)) as [|face faces] eqn:Hp; [congruence|].
    cbn [length Nat.ltb Nat.leb].
    destruct (Camera.renderItems 0 (face :: faces)) as [items|] eqn:Hitems.
    + exists items. split; [reflexivity|].
      apply (renderItems_Some (face :: faces) 0 items Hitems).
    + apply (proj1 (renderItems_None (face :: faces) 0)) in Hitems.
      destruct Hitems as (f & Hin & Hlen). specialize (Hall f Hin). lia.
  - intros Hs Hm Hp. rewrite Hs, Hp. simpl.
    rewrite (bool_decide_eq_true_2 _ Hm). reflexivity.
  - intros [Hs|Hm].
    + rewrite Hs. reflexivity.
    + rewrite Hm. rewrite andb_comm.
      rewrite bool_decide_eq_false_2; [reflexivity|]. intros [x Hx]. discriminate.
Qed.

(** X4 after the first cycle of the example: one entry, numbered 1. *)
Lemma results_panel_lists_witness :
  exists items,
    Camera.resultsPanel (Camera.run Camera.init stopBetweenCycles) = Camera.PanelFaces items
    /\ map Camera.itemIndex items = [1]
    /\ map Camera.itemTopLeft items = [(100%float, 100%float)].
Proof.
  destruct (proj1 (results_panel_lists_detections float float_JsNumber
                     (Camera.run Camera.init stopBetweenCycles)))
    as (items & Hp & Hi & _ & Ht & _).
  - vm_compute. reflexivity.
  - vm_compute. eexists. reflexivity.
  - vm_compute. discriminate.
  - intros face Hin.
    assert (Hf : face = exampleFace).
    { assert (Hpreds : Camera.predictions (Camera.hooks (Camera.run Camera.init stopBetweenCycles))
                       = [exampleFace]) by (vm_compute; reflexivity).
      rewrite Hpreds in Hin. apply list_elem_of_singleton in Hin. exact Hin. }
    rewrite Hf. simpl. lia.
  - exists items. split; [exact Hp|]. split; [exact Hi | exact Ht].
Defined.

(** X5. While the video has not buffered enough, a cycle neither calls
    the model nor draws nor touches the React state: the cycle of a
    timer reschedules itself with a new 100 ms timer, and a detectFaces
    that finds the refs, its model and the context asks for one more
    animation frame for the same closure, whether it was started by the
    timer or by an animation frame. *)
Theorem waiting_cycle_reschedules :
  forall (R : Type) (N : JsNumber R) (st : Camera.State R),
    readyState (Camera.video st) <> HAVE_ENOUGH_DATA ->
    (forall id t,
        timers (Camera.loop st) !! id = Some t ->
        let st' := Camera.step st (Camera.EvTimer id) in
        Camera.estimateFacesCalls st' = Camera.estimateFacesCalls st
        /\ calls (Camera.canvas st') = calls (Camera.canvas st)
        /\ Camera.hooks st' = Camera.hooks st
        /\ inferences (Camera.loop st') = inferences (Camera.loop st)
        /\ timers (Camera.loop st')
           = <[nextTimer (Camera.loop st) :=
                 {| delay := 100; timerEffect := timerEffect t; timerClosure := timerClosure t |}]>
               (delete id (timers (Camera.loop st)))
        /\ (Camera.mounted st = true -> is_Some (timerClosure t) ->
            contextMode (Camera.canvas st) <> ModeOther ->
            animationFrames (Camera.loop st')
            = <[nextAnimationFrame (Camera.loop st) := timerClosure t]>
                (animationFrames (Camera.loop st))))
    /\ (forall id closure,
        animationFrames (Camera.loop st) !! id = Some closure ->
        let st' := Camera.step st (Camera.EvAnimationFrame id) in
        Camera.estimateFacesCalls st' = Camera.estimateFacesCalls st
        /\ calls (Camera.canvas st') = calls (Camera.canvas st)
        /\ Camera.hooks st' = Camera.hooks st
        /\ inferences (Camera.loop st') = inferences (Camera.loop st)
        /\ timers (Camera.loop st') = timers (Camera.loop st)
        /\ (Camera.mounted st = true -> is_Some closure ->
            contextMode (Camera.canvas st) <> ModeOther ->
            animationFrames (Camera.loop st')
            = <[nextAnimationFrame (Camera.loop st) := closure]>
                (delete id (animationFrames (Camera.loop st))))).
Proof.
  intros R N st Hr. split.
  - intros id t Ht st'. unfold st'. simpl. unfold Camera.fire_timer. rewrite Ht.
    unfold Camera.runDetection.
    match goal with
    | |- context [Camera.detectFaces ?c ?k ?s] =>
        pose proof (detectFaces_not_ready c k s) as Hd;
        destruct (Camera.detectFaces c k s) as [s1 p]
    end.
    simpl in Hd. destruct (Hd Hr) as (-> & Hc & Hcalls & Hh & Hi & Htm & Hn & Ha).
    simpl. rewrite Hc, Hcalls, Hh, Hi, Htm, Hn. repeat split; auto.
  - intros id closure Ha st'. unfold st'. simpl. unfold Camera.fire_animationFrame. rewrite Ha.
    match goal with
    | |- context [Camera.detectFaces ?c ?k ?s] =>
        pose proof (detectFaces_not_ready c k s) as Hd
    end.
    simpl in Hd. destruct (Hd Hr) as (_ & Hc & Hcalls & Hh & Hi & Htm & Hn & Haf).
    repeat split; auto.
Qed.

(** X5 at the start of the session of the example, before the video has
    buffered: timer 1 fires and is replaced by timer 2, and a second
    animation frame is requested. *)
Lemma waiting_cycle_witness :
  let st := Camera.run Camera.init (firstn 8 startedSession) in
  let st' := Camera.step st (Camera.EvTimer 1) in
  Camera.estimateFacesCalls st' = 0
  /\ timers (Camera.loop st') !! 1%positive = None
  /\ timers (Camera.loop st') !! 2%positive
     = Some {| delay := 100; timerEffect := 3; timerClosure := Some 1%positive |}
  /\ animationFrames (Camera.loop st') !! 2%positive = Some (Some 1%positive).
Proof.
  cbv zeta.
  assert (Hr : readyState (Camera.video (Camera.run Camera.init (firstn 8 startedSession)))
               <> HAVE_ENOUGH_DATA) by (vm_compute; discriminate).
  assert (Ht : timers (Camera.loop (Camera.run Camera.init (firstn 8 startedSession)))
                 !! 1%positive
               = Some {| delay := 100; timerEffect := 3; timerClosure := Some 1%positive |})
    by (vm_compute; reflexivity).
  destruct (proj1 (waiting_cycle_reschedules float float_JsNumber _ Hr) _ _ Ht)
    as (Hc & _ & _ & _ & Htm & Ha).
  split; [rewrite Hc; vm_compute; reflexivity|].
  split; [rewrite Htm; vm_compute; reflexivity|].
  split; [rewrite Htm; vm_compute; reflexivity|].
  rewrite Ha; [vm_compute; reflexivity | vm_compute; reflexivity
              | vm_compute; eexists; reflexivity | vm_compute; discriminate].
Defined.

(** X6. A grant that arrives while a stream is already attached
    replaces the attached stream without stopping it: the tracks of the
    first stream that are not tracks of the second stay live through the
    grant and through a later stopCamera, which stops the tracks of the
    second stream only and leaves no stream attached. *)
Theorem second_grant_leaks_first_stream :
  forall (R : Type) (N : JsNumber R) (st : Camera.State R) (first second : MediaStream),
    Camera.mounted st = true ->
    srcObject (Camera.video st) = Some first ->
    Camera.pendingGetUserMedia st <> 0 ->
    let granted := Camera.step st (Camera.EvGetUserMedia (Fulfilled second)) in
    let stopped := Camera.stopCamera granted in
    srcObject (Camera.video granted) = Some second
    /\ srcObject (Camera.video stopped) = None
    /\ (forall track, track ∈ second -> track ∉ Camera.liveTracks stopped)
    /\ (forall track, track ∈ first -> track ∉ second ->
                      track ∈ Camera.liveTracks st ->
                      track ∈ Camera.liveTracks granted /\ track ∈ Camera.liveTracks stopped).
Proof.
  intros R N st first second Hm Hs Hp granted stopped.
  unfold stopped, granted. simpl. unfold Camera.startCamera_resume.
  destruct (Camera.pendingGetUserMedia st) as [|n]; [congruence|]. simpl.
  rewrite Hm. unfold Camera.stopCamera. simpl. rewrite Hm. simpl.
  repeat split.
  - intros track Hin Hlive. apply elem_of_difference in Hlive as [_ Hn].
    apply Hn. apply elem_of_list_to_set. exact Hin.
  - apply elem_of_union. left. assumption.
  - apply elem_of_difference. split.
    + apply elem_of_union. left. assumption.
    + intros Hx. apply elem_of_list_to_set in Hx. contradiction.
Qed.

(** X6 in the session in which Start is clicked twice: both clicks are
    enabled, and track 1 of the first stream is live after the stop. *)
Lemma second_grant_witness :
  Camera.all_enabled Camera.init doubleStartSession = true
  /\ srcObject (Camera.video (Camera.run Camera.init doubleStartSession)) = None
  /\ Camera.isStreaming (Camera.hooks (Camera.run Camera.init doubleStartSession)) = false
  /\ 1%positive ∈ Camera.liveTracks
       (Camera.stopCamera
          (Camera.step (Camera.run Camera.init (firstn 6 doubleStartSession))
             (Camera.EvGetUserMedia (Fulfilled [2%positive])))).
Proof.
  split; [vm_compute; reflexivity|]. split; [vm_compute; reflexivity|].
  split; [vm_compute; reflexivity|].
  apply (second_grant_leaks_first_stream float float_JsNumber
           (Camera.run Camera.init (firstn 6 doubleStartSession)) [1%positive] [2%positive]).
  - vm_compute. reflexivity.
  - vm_compute. reflexivity.
  - vm_compute. discriminate.
  - apply list_elem_of_singleton. reflexivity.
  - intros Hx. apply list_elem_of_singleton in Hx. discriminate.
  - assert (Hl : Camera.liveTracks (Camera.run Camera.init (firstn 6 doubleStartSession))
                 = ∅ ∪ list_to_set [1%positive]) by reflexivity.
    rewrite Hl. apply elem_of_union. right. apply elem_of_list_to_set.
    apply list_elem_of_singleton. reflexivity.
Defined.

(** ** Handles and the life of a detection loop *)

Section LoopHandles.
Context {C I D : Type}.
Implicit Type lp : EventLoop C I D.

Lemma below_insert {A : Type} (m : gmap positive A) (n : positive) (x : A) :
  below m n -> below (<[n := x]> m) (Pos.succ n).
Proof.
  intros Hb id [y Hy]. destruct (decide (n = id)) as [<-|Hne]; [lia|].
  rewrite lookup_insert_ne in Hy by exact Hne.
  assert (id < n)%positive by (apply Hb; eauto). lia.
Qed.

Lemma below_delete {A : Type} (m : gmap positive A) (n k : positive) :
  below m n -> below (delete k m) n.
Proof.
  intros Hb id [y Hy]. apply Hb.
  destruct (decide (k = id)) as [<-|Hne].
  - rewrite lookup_delete_eq in Hy. discriminate.
  - rewrite lookup_delete_ne in Hy by exact Hne. eauto.
Qed.

Lemma below_fresh {A : Type} (m : gmap positive A) (n : positive) :
  below m n -> m !! n = None.
Proof.
  intros Hb. destruct (m !! n) eqn:E; [|reflexivity].
  assert (n < n)%positive by (apply Hb; eauto). lia.
Qed.

Lemma loop_wf_clearTimeout lp (id : positive) : loop_wf lp -> loop_wf (clearTimeout id lp).
Proof.
  intros (H1 & H2 & H3 & H4 & H5 & H6). unfold loop_wf. simpl.
  repeat split; auto using below_delete.
  intros effect id' t Hid Ht. apply (H5 effect id' t Hid).
  destruct (decide (id = id')) as [<-|Hne].
  - rewrite lookup_delete_eq in Ht. discriminate.
  - rewrite lookup_delete_ne in Ht by exact Hne. exact Ht.
Qed.

Lemma loop_wf_requestAnimationFrame lp (closure : C) :
  loop_wf lp -> loop_wf (requestAnimationFrame closure lp).
Proof.
  intros (H1 & H2 & H3 & H4 & H5 & H6). unfold loop_wf. simpl.
  repeat split; auto using below_insert.
Qed.

Lemma loop_wf_take_animationFrame lp (id : positive) :
  loop_wf lp -> loop_wf (take_animationFrame id lp).
Proof.
  intros (H1 & H2 & H3 & H4 & H5 & H6). unfold loop_wf. simpl.
  repeat split; auto using below_delete.
Qed.

Lemma loop_wf_add_inference lp (i : I) : loop_wf lp -> loop_wf (add_inference i lp).
Proof.
  intros (H1 & H2 & H3 & H4 & H5 & H6). unfold loop_wf. simpl.
  repeat split; auto using below_insert.
Qed.

Lemma loop_wf_take_inference lp (id : positive) :
  loop_wf lp -> loop_wf (take_inference id lp).
Proof.
  intros (H1 & H2 & H3 & H4 & H5 & H6). unfold loop_wf. simpl.
  repeat split; auto using below_delete.
Qed.

Lemma loop_wf_new_effect lp (deps : D) : loop_wf lp -> loop_wf (new_effect deps lp).
Proof.
  intros (H1 & H2 & H3 & H4 & H5 & H6). unfold loop_wf. simpl.
  repeat split; auto. lia.
Qed.

Lemma loop_wf_schedule lp (ms : nat) (effect : positive) (closure : C) :
  loop_wf lp -> loop_wf (schedule ms effect closure lp).
Proof.
  intros (H1 & H2 & H3 & H4 & H5 & H6). unfold loop_wf, schedule. simpl.
  repeat split; auto using below_insert.
  - intros eff id Hid.
    destruct (decide (effect = eff)) as [<-|Hne].
    + rewrite lookup_insert_eq in Hid. injection Hid as <-. lia.
    + rewrite lookup_insert_ne in Hid by exact Hne.
      assert (id < nextTimer lp)%positive by eauto. lia.
  - intros eff id t Hid Ht.
    destruct (decide (effect = eff)) as [<-|Hne].
    + rewrite lookup_insert_eq in Hid. injection Hid as <-.
      rewrite lookup_insert_eq in Ht. injection Ht as <-. reflexivity.
    + rewrite lookup_insert_ne in Hid by exact Hne.
      assert (Hlt : (id < nextTimer lp)%positive) by eauto.
      rewrite lookup_insert_ne in Ht by lia. eauto.
Qed.

End LoopHandles.

Section CameraLoopLife.
Context {R : Type} `{JsNumber R}.

(** What detectFaces does to the event loop. *)
Lemma detectFaces_loop (closure : option Model) (k : Camera.Awaiter) (st : Camera.State R) :
  (snd (Camera.detectFaces closure k st) = Camera.Resolved
   /\ (Camera.loop (fst (Camera.detectFaces closure k st)) = Camera.loop st
       \/ Camera.loop (fst (Camera.detectFaces closure k st))
          = requestAnimationFrame closure (Camera.loop st)))
  \/ (snd (Camera.detectFaces closure k st) = Camera.Pending
      /\ exists i, Camera.awaiter i = k
                   /\ Camera.loop (fst (Camera.detectFaces closure k st))
                      = add_inference i (Camera.loop st)).
Proof.
  unfold Camera.detectFaces.
  destruct (Camera.mounted st) eqn:Hm, closure as [m|]; simpl; auto.
  destruct (getContext2d (Camera.canvas st)); simpl; auto.
  destruct (negb _); simpl; auto.
  right. split; [reflexivity|]. eexists. split; [|reflexivity]. reflexivity.
Qed.

(** What runDetection does to the event loop: it schedules its
    successor, or leaves a cycle that it awaits. *)
Lemma runDetection_loop (effect : positive) (closure : option Model) (st : Camera.State R) :
  Camera.loop (Camera.runDetection effect closure st)
  = schedule 100 effect closure (Camera.loop st)
  \/ Camera.loop (Camera.runDetection effect closure st)
     = schedule 100 effect closure (requestAnimationFrame closure (Camera.loop st))
  \/ exists i, Camera.awaiter i = Camera.ResumeRunDetection effect closure
               /\ Camera.loop (Camera.runDetection effect closure st)
                  = add_inference i (Camera.loop st).
Proof.
  unfold Camera.runDetection.
  destruct (detectFaces_loop closure (Camera.ResumeRunDetection effect closure) st)
    as [(Hp & [Hl|Hl]) | (Hp & i & Ha & Hl)];
    destruct (Camera.detectFaces closure (Camera.ResumeRunDetection effect closure) st)
      as [s1 p]; simpl in *; subst p; simpl.
  - left. rewrite Hl. reflexivity.
  - right. left. rewrite Hl. reflexivity.
  - right. right. exists i. auto.
Qed.

Lemma settle_inference_loop (id : positive) (r : Settled (list (FaceDetection R)))
    (i : Camera.Inference R) (st : Camera.State R) :
  inferences (Camera.loop st) !! id = Some i ->
  Camera.loop (Camera.settle_inference id r st)
  = match Camera.awaiter i with
    | Camera.ResumeRunDetection effect closure =>
      schedule 100 effect closure (take_inference id (Camera.loop st))
    | Camera.NoAwaiter => take_inference id (Camera.loop st)
    end.
Proof.
  intros Hi. unfold Camera.settle_inference. rewrite Hi.
  destruct r; simpl; destruct (Camera.awaiter i); reflexivity.
Qed.

Lemma step_loop_untouched (st : Camera.State R) (e : Camera.Event R) :
  touches_loop e = false -> Camera.loop (Camera.step st e) = Camera.loop st.
Proof.
  destruct e; simpl; try discriminate; intros _; auto.
  - unfold Camera.loadModel_backend, Camera.loadModel_catch.
    destruct (Camera.loadStage st); try destruct r; reflexivity.
  - unfold Camera.loadModel_loaded, Camera.loadModel_catch.
    destruct (Camera.loadStage st); try destruct r; reflexivity.
  - unfold Camera.startCamera_resume.
    destruct (Camera.pendingGetUserMedia st); simpl; auto.
    destruct r; simpl; [destruct (Camera.mounted st)|]; reflexivity.
  - unfold Camera.loadedmetadata.
    destruct (srcObject (Camera.video st)); simpl; auto.
    destruct (onloadedmetadata (Camera.video st)); simpl; auto.
    destruct (Camera.mounted st); reflexivity.
  - destruct (srcObject (Camera.video st)); reflexivity.
  - unfold Camera.handleResize. destruct (Camera.mounted st); reflexivity.
  - unfold Camera.stopCamera. destruct (Camera.mounted st); simpl; auto.
    destruct (srcObject (Camera.video st)); reflexivity.
Qed.

Lemma runDetection_wf (effect : positive) (closure : option Model) (st : Camera.State R) :
  loop_wf (Camera.loop st) -> loop_wf (Camera.loop (Camera.runDetection effect closure st)).
Proof.
  intros Hwf.
  destruct (runDetection_loop effect closure st) as [-> | [-> | (i & _ & ->)]];
    auto using loop_wf_schedule, loop_wf_requestAnimationFrame, loop_wf_add_inference.
Qed.

Lemma loop_wf_step (st : Camera.State R) (e : Camera.Event R) :
  loop_wf (Camera.loop st) -> loop_wf (Camera.loop (Camera.step st e)).
Proof.
  intros Hwf. destruct (touches_loop e) eqn:Ht.
  2: { rewrite step_loop_untouched by exact Ht. exact Hwf. }
  destruct e; try discriminate; simpl.
  - unfold Camera.flushEffects.
    destruct (decide _); [exact Hwf|].
    match goal with
    | |- context [if ?b then Camera.runDetection ?e ?c ?s else ?s'] =>
        assert (Hk : loop_wf (Camera.loop s))
          by (unfold Camera.effect_cleanup;
              destruct (timeoutIds (Camera.loop st) !! currentEffect (Camera.loop st));
              simpl; auto using loop_wf_new_effect, loop_wf_clearTimeout);
        destruct b; [apply runDetection_wf|]; exact Hk
    end.
  - unfold Camera.fire_timer.
    destruct (timers (Camera.loop st) !! id); [|exact Hwf].
    apply runDetection_wf. simpl. apply loop_wf_clearTimeout. exact Hwf.
  - unfold Camera.fire_animationFrame.
    destruct (animationFrames (Camera.loop st) !! id) as [closure|]; [|exact Hwf].
    match goal with
    | |- context [Camera.detectFaces ?c ?k ?s] =>
        destruct (detectFaces_loop c k s) as [(_ & [-> | ->]) | (_ & i & _ & ->)]
    end; simpl;
      auto using loop_wf_take_animationFrame, loop_wf_requestAnimationFrame,
        loop_wf_add_inference.
  - destruct (inferences (Camera.loop st) !! id) as [i|] eqn:Hi.
    + rewrite (settle_inference_loop id r i st Hi).
      destruct (Camera.awaiter i);
        auto using loop_wf_schedule, loop_wf_take_inference.
    + unfold Camera.settle_inference. rewrite Hi. exact Hwf.
Qed.

Lemma loop_wf_run (es : list (Camera.Event R)) (st : Camera.State R) :
  loop_wf (Camera.loop st) -> loop_wf (Camera.loop (Camera.run st es)).
Proof.
  revert st. induction es as [|e es IH]; intros st Hst; simpl; [exact Hst|].
  apply IH. apply loop_wf_step. exact Hst.
Qed.

Lemma loop_wf_init : loop_wf (Camera.loop (Camera.init (R := R))).
Proof.
  unfold loop_wf. simpl. repeat split;
    try (intros id [x Hx]; rewrite lookup_empty in Hx; discriminate).
  - intros effect id Hx. rewrite lookup_empty in Hx. discriminate.
  - intros effect id t Hx. rewrite lookup_empty in Hx. discriminate.
Qed.

(** A loop that goes on survives what happens to other handles. *)
Lemma loop_runs_keep (effect : positive) (st st' : Camera.State R) :
  loop_runs effect st ->
  (forall id t, timers (Camera.loop st) !! id = Some t -> timerEffect t = effect ->
                timers (Camera.loop st') !! id = Some t) ->
  (forall id i, inferences (Camera.loop st) !! id = Some i ->
                inferences (Camera.loop st') !! id = Some i) ->
  loop_runs effect st'.
Proof.
  intros [(id & t & Ht & He) | (id & i & closure & Hi & Ha)] Hkt Hki.
  - left. exists id, t. auto.
  - right. exists id, i, closure. auto.
Qed.

Lemma schedule_timers (ms : nat) (effect : positive) (closure : option Model)
    (lp : Camera.Loop (R := R)) (id : positive) (t : Timer (option Model)) :
  loop_wf lp -> timers lp !! id = Some t ->
  timers (schedule ms effect closure lp) !! id = Some t.
Proof.
  intros Hwf Ht. unfold schedule. simpl.
  destruct Hwf as (Hb & _).
  rewrite lookup_insert_ne; [exact Ht|].
  intros <-. rewrite (below_fresh _ _ Hb) in Ht. discriminate.
Qed.

Lemma add_inference_keeps (i : Camera.Inference R) (lp : Camera.Loop (R := R))
    (id : positive) (j : Camera.Inference R) :
  loop_wf lp -> inferences lp !! id = Some j ->
  inferences (add_inference i lp) !! id = Some j.
Proof.
  intros (_ & _ & Hb & _) Hj. simpl.
  rewrite lookup_insert_ne; [exact Hj|].
  intros <-. rewrite (below_fresh _ _ Hb) in Hj. discriminate.
Qed.

(** runDetection of [effect] leaves the loop of [effect] going, and
    keeps every other timer and suspended cycle. *)
Lemma runDetection_runs (effect : positive) (closure : option Model) (st : Camera.State R) :
  loop_wf (Camera.loop st) ->
  loop_runs effect (Camera.runDetection effect closure st)
  /\ (forall id t, timers (Camera.loop st) !! id = Some t ->
                   timers (Camera.loop (Camera.runDetection effect closure st)) !! id = Some t)
  /\ (forall id i, inferences (Camera.loop st) !! id = Some i ->
                   inferences (Camera.loop (Camera.runDetection effect closure st)) !! id
                   = Some i).
Proof.
  intros Hwf. unfold loop_runs.
  destruct (runDetection_loop effect closure st) as [Hl | [Hl | (i & Ha & Hl)]]; rewrite !Hl.
  - split; [|split].
    + left. eexists _, _. split; [unfold schedule; simpl; apply lookup_insert_eq | reflexivity].
    + intros id t Ht. apply schedule_timers; assumption.
    + intros id i Hi. exact Hi.
  - split; [|split].
    + left. eexists _, _. split; [unfold schedule; simpl; apply lookup_insert_eq | reflexivity].
    + intros id t Ht. apply schedule_timers; [apply loop_wf_requestAnimationFrame|]; assumption.
    + intros id i Hi. exact Hi.
  - split; [|split].
    + right. exists (nextInference (Camera.loop st)), i, closure.
      split; [simpl; apply lookup_insert_eq | exact Ha].
    + intros id t Ht. exact Ht.
    + intros id j Hj. apply add_inference_keeps; assumption.
Qed.

Lemma loop_runs_step (effect : positive) (st : Camera.State R) (e : Camera.Event R) :
  loop_wf (Camera.loop st) ->
  loop_runs effect st ->
  commits e = false \/ (effect < currentEffect (Camera.loop st))%positive ->
  loop_runs effect (Camera.step st e).
Proof.
  intros Hwf Hruns Hside. destruct (touches_loop e) eqn:Htouch.
  2: { apply (loop_runs_keep effect st); [exact Hruns| |];
       rewrite step_loop_untouched by exact Htouch; auto. }
  destruct e; try discriminate; simpl.
  - (* commit *)
    destruct Hside as [Hx|Hstale]; [discriminate|].
    unfold Camera.flushEffects.
    destruct (decide _); [exact Hruns|].
    match goal with
    | |- context [if ?b then Camera.runDetection ?e ?c ?s else ?s'] =>
        assert (Hk : loop_wf (Camera.loop s)
                     /\ (forall id t, timers (Camera.loop st) !! id = Some t ->
                                      timerEffect t = effect ->
                                      timers (Camera.loop s) !! id = Some t)
                     /\ (forall id i, inferences (Camera.loop st) !! id = Some i ->
                                      inferences (Camera.loop s) !! id = Some i));
        [| destruct Hk as (Hk1 & Hk2 & Hk3);
           destruct b;
           [destruct (runDetection_runs e c s Hk1) as (_ & Hk4 & Hk5);
            apply (loop_runs_keep effect st); [exact Hruns | |]; eauto
           |apply (loop_runs_keep effect st); [exact Hruns | |]; eauto]]
    end.
    unfold Camera.effect_cleanup.
    destruct (timeoutIds (Camera.loop st) !! currentEffect (Camera.loop st)) as [tid|] eqn:Htid;
      simpl.
    + split; [auto using loop_wf_new_effect, loop_wf_clearTimeout|].
      split; [|auto].
      intros id t Ht He.
      rewrite lookup_delete_ne; [exact Ht|].
      intros <-. destruct Hwf as (_ & _ & _ & _ & Hrec & _).
      pose proof (Hrec _ _ _ Htid Ht) as Hcur. lia.
    + split; [auto using loop_wf_new_effect|]. auto.
  - (* timer *)
    unfold Camera.fire_timer.
    destruct (timers (Camera.loop st) !! id) as [t|] eqn:Ht; [|exact Hruns].
    match goal with
    | |- context [Camera.runDetection ?e ?c ?s] =>
        assert (Hk1 : loop_wf (Camera.loop s))
          by (simpl; apply loop_wf_clearTimeout; exact Hwf);
        destruct (runDetection_runs e c s Hk1) as (Hgo & Hk4 & Hk5)
    end.
    destruct Hruns as [(id' & t' & Ht' & He) | (id' & i & closure & Hi & Ha)].
    + destruct (decide (id = id')) as [<-|Hne].
      * assert (t' = t) by congruence. subst t'. rewrite <- He. exact Hgo.
      * left. exists id', t'. split; [|exact He].
        apply Hk4. simpl. rewrite lookup_delete_ne by exact Hne. exact Ht'.
    + right. exists id', i, closure. split; [|exact Ha]. apply Hk5. exact Hi.
  - (* animation frame *)
    unfold Camera.fire_animationFrame.
    destruct (animationFrames (Camera.loop st) !! id) as [closure|]; [|exact Hruns].
    apply (loop_runs_keep effect st); [exact Hruns | |].
    + intros id' t Ht _.
      match goal with
      | |- context [Camera.detectFaces ?c ?k ?s] =>
          destruct (detectFaces_loop c k s) as [(_ & [-> | ->]) | (_ & i & _ & ->)]
      end; exact Ht.
    + intros id' j Hj.
      match goal with
      | |- context [Camera.detectFaces ?c ?k ?s] =>
          destruct (detectFaces_loop c k s) as [(_ & [-> | ->]) | (_ & i & _ & ->)]
      end; try exact Hj.
      apply add_inference_keeps; [|exact Hj].
      simpl. apply loop_wf_take_animationFrame. exact Hwf.
  - (* settlement *)
    destruct (inferences (Camera.loop st) !! id) as [i|] eqn:Hi.
    2: { unfold Camera.settle_inference. rewrite Hi. exact Hruns. }
    pose proof (settle_inference_loop id r i st Hi) as Hl.
    assert (Hwf' : loop_wf (take_inference id (Camera.loop st)))
      by (apply loop_wf_take_inference; exact Hwf).
    unfold loop_runs.
    destruct Hruns as [(id' & t' & Ht' & He) | (id' & j & closure & Hj & Ha)].
    + left. exists id', t'. split; [|exact He]. rewrite Hl.
      destruct (Camera.awaiter i); [|exact Ht'].
      apply schedule_timers; [exact Hwf' | exact Ht'].
    + destruct (decide (id = id')) as [<-|Hne].
      * assert (j = i) by congruence. subst j. rewrite Hl, Ha.
        left. eexists _, _.
        split; [unfold schedule; simpl; apply lookup_insert_eq | reflexivity].
      * right. exists id', j, closure. split; [|exact Ha]. rewrite Hl.
        destruct (Camera.awaiter i); simpl;
          rewrite lookup_delete_ne by exact Hne; exact Hj.
Qed.

Lemma currentEffect_step (st : Camera.State R) (e : Camera.Event R) :
  loop_wf (Camera.loop st) ->
  (currentEffect (Camera.loop st) <= currentEffect (Camera.loop (Camera.step st e)))%positive.
Proof.
  intros Hwf. destruct (touches_loop e) eqn:Ht.
  2: { rewrite step_loop_untouched by exact Ht. lia. }
  assert (Hrun : forall eff c s, currentEffect (Camera.loop (Camera.runDetection eff c s))
                                 = currentEffect (Camera.loop s)).
  { intros eff c s.
    destruct (runDetection_loop eff c s) as [-> | [-> | (i & _ & ->)]]; reflexivity. }
  destruct e; try discriminate; simpl.
  - unfold Camera.flushEffects.
    destruct (decide _); [lia|].
    destruct Hwf as (_ & _ & _ & _ & _ & Hlt).
    match goal with
    | |- context [if ?b then Camera.runDetection ?e ?c ?s else ?s'] =>
        assert (Hk : currentEffect (Camera.loop s) = nextEffect (Camera.loop st))
          by (unfold Camera.effect_cleanup;
              destruct (timeoutIds (Camera.loop st) !! currentEffect (Camera.loop st));
              reflexivity);
        destruct b; [rewrite Hrun|]; rewrite Hk; lia
    end.
  - unfold Camera.fire_timer.
    destruct (timers (Camera.loop st) !! id); [|lia]. rewrite Hrun. simpl. lia.
  - unfold Camera.fire_animationFrame.
    destruct (animationFrames (Camera.loop st) !! id) as [closure|]; [|lia].
    match goal with
    | |- context [Camera.detectFaces ?c ?k ?s] =>
        destruct (detectFaces_loop c k s) as [(_ & [-> | ->]) | (_ & i & _ & ->)]
    end; simpl; lia.
  - destruct (inferences (Camera.loop st) !! id) as [i|] eqn:Hi.
    + rewrite (settle_inference_loop id r i st Hi). destruct (Camera.awaiter i); simpl; lia.
    + unfold Camera.settle_inference. rewrite Hi. lia.
Qed.

Lemma stale_loop_runs_forever (effect : positive) (es : list (Camera.Event R))
    (st : Camera.State R) :
  loop_wf (Camera.loop st) ->
  loop_runs effect st ->
  (effect < currentEffect (Camera.loop st))%positive ->
  loop_runs effect (Camera.run st es).
Proof.
  revert st. induction es as [|e es IH]; intros st Hwf Hruns Hstale; simpl; [exact Hruns|].
  apply IH.
  - apply loop_wf_step. exact Hwf.
  - apply loop_runs_step; auto.
  - pose proof (currentEffect_step st e Hwf). lia.
Qed.

Lemma loop_runs_between_commits (effect : positive) (es : list (Camera.Event R))
    (st : Camera.State R) :
  loop_wf (Camera.loop st) ->
  loop_runs effect st ->
  existsb commits es = false ->
  loop_runs effect (Camera.run st es).
Proof.
  revert st. induction es as [|e es IH]; intros st Hwf Hruns Hc; simpl; [exact Hruns|].
  simpl in Hc. apply orb_false_elim in Hc as [Hc1 Hc2].
  apply IH; [apply loop_wf_step; exact Hwf | | exact Hc2].
  apply loop_runs_step; auto.
Qed.

End CameraLoopLife.

(** X7. Nothing but the cleanup of its own effect run ends a detection
    loop of camera.tsx.  Between two commits a loop that has its timer
    pending, or awaits a cycle, still has one or the other after any
    event: a click on Stop, a failing model, a video that is not ready.
    The loop of an effect run that is no longer the current one goes on
    through every later event of the session, commits included. *)
Theorem detection_loop_never_ends_by_itself :
  forall (R : Type) (N : JsNumber R) (before after : list (Camera.Event R)) (effect : positive),
    let st := Camera.run Camera.init before in
    loop_runs effect st ->
    (existsb commits after = false -> loop_runs effect (Camera.run st after))
    /\ ((effect < currentEffect (Camera.loop st))%positive ->
        loop_runs effect (Camera.run st after)).
Proof.
  intros R N before after effect st Hruns.
  pose proof (loop_wf_run before Camera.init loop_wf_init) as Hwf. fold st in Hwf.
  split.
  - intros Hc. apply loop_runs_between_commits; assumption.
  - intros Hstale. apply stale_loop_runs_forever; assumption.
Qed.

(** X7 after the stop of the example, which found a cycle in flight:
    the loop of effect run 3 is stale and still has a timer pending
    after the model has answered, the camera was started again, the
    commit has started the loop of run 5 and the stale timer has fired. *)
Lemma detection_loop_witness :
  let st := Camera.run Camera.init (exampleSession ++ [Camera.EvClickStop; Camera.EvFlushEffects]) in
  let later := Camera.run st
                 [Camera.EvInference 1 (Fulfilled [exampleFace]);
                  Camera.EvClickStart; Camera.EvGetUserMedia (Fulfilled [2%positive]);
                  Camera.EvLoadedMetadata 640%float 480%float; Camera.EvFlushEffects;
                  Camera.EvTimer 2] in
  currentEffect (Camera.loop st) = 4%positive
  /\ currentEffect (Camera.loop later) = 5%positive
  /\ loop_runs 3 later
  /\ loop_runs 5 later.
Proof.
  cbv zeta. split; [vm_compute; reflexivity|]. split; [vm_compute; reflexivity|].
  split.
  - assert (Hruns : loop_runs 3 (Camera.run Camera.init
                       (exampleSession ++ [Camera.EvClickStop; Camera.EvFlushEffects]))).
    { right. exists 1%positive. eexists _, _. split; vm_compute; reflexivity. }
    destruct (detection_loop_never_ends_by_itself float float_JsNumber
                (exampleSession ++ [Camera.EvClickStop; Camera.EvFlushEffects])
                [Camera.EvInference 1 (Fulfilled [exampleFace]);
                 Camera.EvClickStart; Camera.EvGetUserMedia (Fulfilled [2%positive]);
                 Camera.EvLoadedMetadata 640%float 480%float; Camera.EvFlushEffects;
                 Camera.EvTimer 2] 3%positive Hruns) as [_ Hstale].
    apply Hstale. vm_compute. reflexivity.
  - left. exists 3%positive. eexists. split; vm_compute; reflexivity.
Defined.

(** ** Loader and timer loop of the cropped-face variant *)

Section CroppedInvariants.
Context {R : Type} `{JsNumber R}.
Variable scaleFactor : R.
Variable yScalerPos : R.

Local Abbreviation step := (CroppedFaceCamera.step scaleFactor yScalerPos).
Local Abbreviation run := (CroppedFaceCamera.run scaleFactor yScalerPos).

(** What detectFaces and the for-of loop leave alone. *)
Lemma cropped_detectFaces_frame (closure : CroppedFaceCamera.Closure)
    (st : CroppedFaceCamera.State R) :
  same_timers st (fst (CroppedFaceCamera.detectFaces closure st))
  /\ same_models st (fst (CroppedFaceCamera.detectFaces closure st)).
Proof.
  unfold CroppedFaceCamera.detectFaces, same_timers, same_models.
  destruct (CroppedFaceCamera.mounted st) eqn:Hm, closure as [[bm|] [lm|]]; simpl; auto.
  destruct (getContext2d (CroppedFaceCamera.canvas st)); simpl; auto.
  destruct (negb _); simpl; auto.
Qed.

Lemma cropped_loop_frame (sx sy : R) (preds rest : list (FaceDetection R))
    (acc : list (CroppedFaceCamera.CroppedFace R)) (id : positive)
    (st : CroppedFaceCamera.State R) :
  let st' := fst (CroppedFaceCamera.detectFaces_loop scaleFactor yScalerPos
                    sx sy preds rest acc id st) in
  same_timers st st' /\ same_models st st'.
Proof.
  cbv zeta. unfold CroppedFaceCamera.detectFaces_loop, same_timers, same_models.
  destruct rest; simpl; auto.
Qed.

Lemma cropped_settle_blazeface_frame (id : positive) (r : Settled (list (FaceDetection R)))
    (st : CroppedFaceCamera.State R) :
  let st' := CroppedFaceCamera.settle_blazeface scaleFactor yScalerPos id r st in
  same_timers st st' /\ same_models st st'.
Proof.
  cbv zeta. unfold CroppedFaceCamera.settle_blazeface.
  destruct (inferences (CroppedFaceCamera.loop st) !! id) as [[sx sy|]|];
    try solve [split; repeat split].
  unfold CroppedFaceCamera.detectFaces_detected.
  destruct r; simpl; [|solve [split; repeat split]].
  match goal with
  | |- context [CroppedFaceCamera.detectFaces_loop _ _ ?a ?b ?c ?d ?e ?f ?s] =>
      pose proof (cropped_loop_frame a b c d e f s) as Hf; cbv zeta in Hf;
      destruct Hf as [(T1 & T2 & T3) (M1 & M2)]
  end.
  unfold same_timers, same_models. rewrite T1, T2, T3, M1, M2. simpl. auto.
Qed.

Lemma cropped_settle_landmarks_frame (id : positive) (r : Settled (list CroppedFaceCamera.Face))
    (st : CroppedFaceCamera.State R) :
  let st' := CroppedFaceCamera.settle_landmarks scaleFactor yScalerPos id r st in
  same_timers st st' /\ same_models st st'.
Proof.
  cbv zeta. unfold CroppedFaceCamera.settle_landmarks.
  destruct (inferences (CroppedFaceCamera.loop st) !! id) as [[|sx sy p c rest acc]|];
    try solve [split; repeat split].
  unfold CroppedFaceCamera.detectFaces_landmarked.
  destruct r; simpl; [|solve [split; repeat split]].
  match goal with
  | |- context [CroppedFaceCamera.detectFaces_loop _ _ ?a ?b ?c ?d ?e ?f ?s] =>
      pose proof (cropped_loop_frame a b c d e f s) as Hf; cbv zeta in Hf;
      destruct Hf as [(T1 & T2 & T3) (M1 & M2)]
  end.
  unfold same_timers, same_models. rewrite T1, T2, T3, M1, M2. simpl. auto.
Qed.

(** runDetection adds the successor and records it. *)
Lemma cropped_runDetection_timers (effect : positive) (closure : CroppedFaceCamera.Closure)
    (st : CroppedFaceCamera.State R) :
  let st' := CroppedFaceCamera.runDetection effect closure st in
  timers (CroppedFaceCamera.loop st')
  = <[nextTimer (CroppedFaceCamera.loop (fst (CroppedFaceCamera.detectFaces closure st))) :=
        {| delay := 600; timerEffect := effect; timerClosure := closure |}]>
      (timers (CroppedFaceCamera.loop st))
  /\ timeoutIds (CroppedFaceCamera.loop st')
     = <[effect := nextTimer (CroppedFaceCamera.loop
                                (fst (CroppedFaceCamera.detectFaces closure st)))]>
         (timeoutIds (CroppedFaceCamera.loop st))
  /\ currentEffect (CroppedFaceCamera.loop st') = currentEffect (CroppedFaceCamera.loop st)
  /\ same_models st st'.
Proof.
  cbv zeta. unfold CroppedFaceCamera.runDetection.
  destruct (cropped_detectFaces_frame closure st) as [(T1 & T2 & T3) (M1 & M2)].
  simpl. rewrite T1, T2, T3. unfold same_models. simpl. auto.
Qed.

(** The events that leave the event loop as it is. *)
Lemma cropped_step_loop_untouched (st : CroppedFaceCamera.State R)
    (e : CroppedFaceCamera.Event R) :
  match e with
  | CroppedFaceCamera.EvFlushEffects | CroppedFaceCamera.EvTimer _
  | CroppedFaceCamera.EvAnimationFrame _ | CroppedFaceCamera.EvBlazeface _ _
  | CroppedFaceCamera.EvLandmarks _ _ => True
  | _ => CroppedFaceCamera.loop (step st e) = CroppedFaceCamera.loop st
         /\ CroppedFaceCamera.blazefaceCalls (step st e) = CroppedFaceCamera.blazefaceCalls st
         /\ CroppedFaceCamera.landmarkCalls (step st e) = CroppedFaceCamera.landmarkCalls st
  end.
Proof.
  destruct e; simpl; auto.
  - unfold CroppedFaceCamera.loadModels_backend, CroppedFaceCamera.loadModels_catch.
    destruct (CroppedFaceCamera.loadStage st); try destruct r; auto.
  - unfold CroppedFaceCamera.loadModels_blazeface, CroppedFaceCamera.loadModels_catch.
    destruct (CroppedFaceCamera.loadStage st); try destruct r; auto.
  - unfold CroppedFaceCamera.loadModels_detector, CroppedFaceCamera.loadModels_catch.
    destruct (CroppedFaceCamera.loadStage st); try destruct r; auto.
  - unfold CroppedFaceCamera.startCamera_resume.
    destruct (CroppedFaceCamera.pendingGetUserMedia st); simpl; auto.
    destruct r; simpl; [destruct (CroppedFaceCamera.mounted st)|]; auto.
  - unfold CroppedFaceCamera.loadedmetadata.
    destruct (srcObject (CroppedFaceCamera.video st)); simpl; auto.
    destruct (onloadedmetadata (CroppedFaceCamera.video st)); simpl; auto.
    destruct (CroppedFaceCamera.mounted st); auto.
  - destruct (srcObject (CroppedFaceCamera.video st)); auto.
  - unfold CroppedFaceCamera.stopCamera. destruct (CroppedFaceCamera.mounted st); simpl; auto.
    destruct (srcObject (CroppedFaceCamera.video st)); auto.
Qed.

Lemma one_timer_same (st st' : CroppedFaceCamera.State R) :
  same_timers st st' -> one_timer st -> one_timer st'.
Proof.
  intros (T1 & T2 & T3) Hone id t. rewrite T1, T2, T3. apply Hone.
Qed.

(** After runDetection of the current effect run, on a state whose
    pending timers are gone, the successor is the only timer. *)
Lemma one_timer_runDetection (closure : CroppedFaceCamera.Closure)
    (st : CroppedFaceCamera.State R) :
  timers (CroppedFaceCamera.loop st) = ∅ ->
  one_timer (CroppedFaceCamera.runDetection (currentEffect (CroppedFaceCamera.loop st))
               closure st).
Proof.
  intros Hempty id t.
  destruct (cropped_runDetection_timers (currentEffect (CroppedFaceCamera.loop st)) closure st)
    as (Ht & Hids & Hc & _).
  rewrite Ht, Hids, Hc, Hempty.
  match goal with |- <[?n := _]> _ !! _ = _ -> _ => destruct (decide (n = id)) as [<-|Hne] end.
  - rewrite !lookup_insert_eq. intros Hx. injection Hx as <-. auto.
  - rewrite lookup_insert_ne by exact Hne. rewrite lookup_empty. discriminate.
Qed.

(** With the invariant, removing the recorded timer removes every timer. *)
Lemma one_timer_delete (st : CroppedFaceCamera.State R) (id : positive)
    (t : Timer CroppedFaceCamera.Closure) :
  one_timer st ->
  timers (CroppedFaceCamera.loop st) !! id = Some t ->
  delete id (timers (CroppedFaceCamera.loop st)) = ∅.
Proof.
  intros Hone Ht. apply map_empty. intros id'.
  destruct (decide (id = id')) as [<-|Hne]; [apply lookup_delete_eq|].
  rewrite lookup_delete_ne by exact Hne.
  destruct (timers (CroppedFaceCamera.loop st) !! id') as [t'|] eqn:Ht'; [|reflexivity].
  destruct (Hone _ _ Ht) as [_ H1]. destruct (Hone _ _ Ht') as [_ H2]. congruence.
Qed.

Lemma one_timer_cleanup (st : CroppedFaceCamera.State R) :
  one_timer st ->
  timers (CroppedFaceCamera.loop (CroppedFaceCamera.effect_cleanup st)) = ∅.
Proof.
  intros Hone. unfold CroppedFaceCamera.effect_cleanup.
  destruct (timeoutIds (CroppedFaceCamera.loop st) !! currentEffect (CroppedFaceCamera.loop st))
    as [tid|] eqn:Htid; simpl.
  - apply map_empty. intros id'.
    destruct (decide (tid = id')) as [<-|Hne]; [apply lookup_delete_eq|].
    rewrite lookup_delete_ne by exact Hne.
    destruct (timers (CroppedFaceCamera.loop st) !! id') as [t'|] eqn:Ht'; [|reflexivity].
    destruct (Hone _ _ Ht') as [_ H2]. congruence.
  - apply map_empty. intros id'.
    destruct (timers (CroppedFaceCamera.loop st) !! id') as [t'|] eqn:Ht'; [|reflexivity].
    destruct (Hone _ _ Ht') as [_ H2]. congruence.
Qed.

Lemma one_timer_step (st : CroppedFaceCamera.State R) (e : CroppedFaceCamera.Event R) :
  one_timer st -> one_timer (step st e).
Proof.
  intros Hone. pose proof (cropped_step_loop_untouched st e) as Hu.
  destruct e; simpl in *;
    try (destruct Hu as (Hl & _); intros id t; try rewrite Hl; apply Hone).
  - (* commit *)
    unfold CroppedFaceCamera.flushEffects.
    destruct (decide _); [exact Hone|].
    pose proof (one_timer_cleanup st Hone) as Hempty.
    match goal with
    | |- context [if ?b then CroppedFaceCamera.runDetection ?e ?c ?s else ?s'] =>
        assert (Hs : timers (CroppedFaceCamera.loop s) = ∅) by exact Hempty;
        destruct b
    end.
    + match goal with
      | |- one_timer (CroppedFaceCamera.runDetection _ ?c ?s) =>
          exact (one_timer_runDetection c s Hs)
      end.
    + intros id t. rewrite Hs, lookup_empty. discriminate.
  - (* timer *)
    unfold CroppedFaceCamera.fire_timer.
    destruct (timers (CroppedFaceCamera.loop st) !! id) as [t|] eqn:Ht; [|exact Hone].
    destruct (Hone _ _ Ht) as [He _]. rewrite He.
    apply (one_timer_runDetection (timerClosure t)
             (CroppedFaceCamera.upd_loop (clearTimeout id) st)).
    simpl. exact (one_timer_delete st id t Hone Ht).
  - (* animation frame *)
    unfold CroppedFaceCamera.fire_animationFrame.
    destruct (animationFrames (CroppedFaceCamera.loop st) !! id) as [closure|]; [|exact Hone].
    match goal with
    | |- context [CroppedFaceCamera.detectFaces ?c ?s] =>
        apply (one_timer_same s); [apply cropped_detectFaces_frame|]
    end.
    intros id' t. simpl. apply Hone.
  - apply (one_timer_same st); [apply cropped_settle_blazeface_frame | exact Hone].
  - apply (one_timer_same st); [apply cropped_settle_landmarks_frame | exact Hone].
Qed.

Lemma one_timer_run (es : list (CroppedFaceCamera.Event R)) (st : CroppedFaceCamera.State R) :
  one_timer st -> one_timer (run st es).
Proof.
  revert st. induction es as [|e es IH]; intros st Hst; simpl; [exact Hst|].
  apply IH. apply one_timer_step. exact Hst.
Qed.

Lemma one_timer_init : one_timer (CroppedFaceCamera.init (R := R)).
Proof. intros id t. simpl. rewrite lookup_empty. discriminate. Qed.

Lemma effect_cleanup_cases (st : CroppedFaceCamera.State R) :
  CroppedFaceCamera.effect_cleanup st = st
  \/ exists id, CroppedFaceCamera.effect_cleanup st
                = CroppedFaceCamera.upd_loop (clearTimeout id) st.
Proof.
  unfold CroppedFaceCamera.effect_cleanup.
  destruct (timeoutIds (CroppedFaceCamera.loop st) !! currentEffect (CroppedFaceCamera.loop st));
    [right; eexists; reflexivity | left; reflexivity].
Qed.

(** A commit that does not find the session streaming with both models
    runs at most the cleanup. *)
Lemma flushEffects_cases (st : CroppedFaceCamera.State R) :
  CroppedFaceCamera.isStreaming (CroppedFaceCamera.hooks st)
  && bool_decide (is_Some (CroppedFaceCamera.blazefaceModel (CroppedFaceCamera.hooks st)))
  && bool_decide (is_Some (CroppedFaceCamera.landmarkModel (CroppedFaceCamera.hooks st)))
  = false ->
  CroppedFaceCamera.flushEffects st = st
  \/ CroppedFaceCamera.flushEffects st
     = CroppedFaceCamera.upd_loop
         (new_effect (CroppedFaceCamera.isStreaming (CroppedFaceCamera.hooks st),
                      (CroppedFaceCamera.blazefaceModel (CroppedFaceCamera.hooks st),
                       CroppedFaceCamera.landmarkModel (CroppedFaceCamera.hooks st))))
         (CroppedFaceCamera.effect_cleanup st).
Proof.
  intros Hc. unfold CroppedFaceCamera.flushEffects.
  destruct (decide _) as [E|_]; [left; reflexivity|right].
  cbv zeta.
  destruct (effect_cleanup_cases st) as [-> | [id ->]];
    cbn [CroppedFaceCamera.upd_loop CroppedFaceCamera.hooks]; rewrite Hc; reflexivity.
Qed.

(** The commit after a stop leaves no timer. *)
Lemma flushEffects_not_streaming (st : CroppedFaceCamera.State R) :
  one_timer st ->
  CroppedFaceCamera.isStreaming (CroppedFaceCamera.hooks st) = false ->
  srcObject (CroppedFaceCamera.video st) = None ->
  readyState (CroppedFaceCamera.video st) = HAVE_NOTHING ->
  fst (effectDeps (CroppedFaceCamera.loop st)) = true ->
  loop_over (CroppedFaceCamera.flushEffects st)
  /\ CroppedFaceCamera.blazefaceCalls (CroppedFaceCamera.flushEffects st)
     = CroppedFaceCamera.blazefaceCalls st.
Proof.
  intros Hone Hstr Hsrc Hrs Hd.
  pose proof (one_timer_cleanup st Hone) as Hempty.
  assert (Hc : CroppedFaceCamera.isStreaming (CroppedFaceCamera.hooks st)
               && bool_decide (is_Some (CroppedFaceCamera.blazefaceModel
                                          (CroppedFaceCamera.hooks st)))
               && bool_decide (is_Some (CroppedFaceCamera.landmarkModel
                                          (CroppedFaceCamera.hooks st))) = false)
    by (rewrite Hstr; reflexivity).
  destruct (flushEffects_cases st Hc) as [E | ->].
  - exfalso. unfold CroppedFaceCamera.flushEffects in E.
    destruct (decide _) as [E'|E'].
    + rewrite <- E' in Hd. simpl in Hd. congruence.
    + unfold CroppedFaceCamera.flushEffects in Hc. apply E'.
      apply (f_equal (fun s => effectDeps (CroppedFaceCamera.loop s))) in E.
      revert E. cbv zeta.
      destruct (effect_cleanup_cases st) as [-> | [id ->]];
        cbn [CroppedFaceCamera.upd_loop CroppedFaceCamera.hooks]; rewrite Hc;
        simpl; auto.
  - revert Hempty.
    destruct (effect_cleanup_cases st) as [-> | [id ->]]; simpl; intros Hempty;
      unfold loop_over; simpl; auto.
Qed.

Lemma cropped_stop_commit (st : CroppedFaceCamera.State R) :
  one_timer st ->
  CroppedFaceCamera.mounted st = true ->
  is_Some (srcObject (CroppedFaceCamera.video st)) ->
  fst (effectDeps (CroppedFaceCamera.loop st)) = true ->
  loop_over (CroppedFaceCamera.flushEffects (CroppedFaceCamera.stopCamera st))
  /\ CroppedFaceCamera.blazefaceCalls (CroppedFaceCamera.flushEffects
                                         (CroppedFaceCamera.stopCamera st))
     = CroppedFaceCamera.blazefaceCalls st.
Proof.
  intros Hone Hm [stream Hs] Hd.
  assert (Hb : CroppedFaceCamera.blazefaceCalls (CroppedFaceCamera.stopCamera st)
               = CroppedFaceCamera.blazefaceCalls st)
    by (unfold CroppedFaceCamera.stopCamera; rewrite Hm, Hs; reflexivity).
  rewrite <- Hb.
  apply flushEffects_not_streaming;
    unfold CroppedFaceCamera.stopCamera; rewrite Hm, Hs; simpl; auto.
Qed.

(** detectFaces on a video element without enough data calls no model. *)
Lemma cropped_detectFaces_not_ready (closure : CroppedFaceCamera.Closure)
    (st : CroppedFaceCamera.State R) :
  readyState (CroppedFaceCamera.video st) = HAVE_NOTHING ->
  CroppedFaceCamera.blazefaceCalls (fst (CroppedFaceCamera.detectFaces closure st))
  = CroppedFaceCamera.blazefaceCalls st.
Proof.
  intros Hrs. unfold CroppedFaceCamera.detectFaces.
  destruct (CroppedFaceCamera.mounted st), closure as [[bm|] [lm|]]; simpl; auto.
  destruct (getContext2d (CroppedFaceCamera.canvas st)); simpl; auto.
  rewrite Hrs. reflexivity.
Qed.

(** The settlements of a cycle do not call the BlazeFace model. *)
Lemma cropped_settle_blazefaceCalls (st : CroppedFaceCamera.State R)
    (e : CroppedFaceCamera.Event R) :
  match e with
  | CroppedFaceCamera.EvBlazeface _ _ | CroppedFaceCamera.EvLandmarks _ _ =>
      CroppedFaceCamera.blazefaceCalls (step st e) = CroppedFaceCamera.blazefaceCalls st
      /\ same_capture st (step st e)
  | _ => True
  end.
Proof.
  destruct e; simpl; auto.
  - unfold CroppedFaceCamera.settle_blazeface.
    destruct (inferences (CroppedFaceCamera.loop st) !! id) as [[sx sy|]|];
      try solve [split; repeat split].
    unfold CroppedFaceCamera.detectFaces_detected.
    destruct r as [preds|]; [|solve [split; repeat split]].
    unfold CroppedFaceCamera.detectFaces_loop. destruct preds; split; repeat split.
  - unfold CroppedFaceCamera.settle_landmarks.
    destruct (inferences (CroppedFaceCamera.loop st) !! id) as [[|sx sy p c rest acc]|];
      try solve [split; repeat split].
    unfold CroppedFaceCamera.detectFaces_landmarked.
    destruct r; [|solve [split; repeat split]].
    unfold CroppedFaceCamera.detectFaces_loop. destruct rest; split; repeat split.
Qed.

Lemma loop_over_same (st st' : CroppedFaceCamera.State R) :
  same_timers st st' -> same_capture st st' -> loop_over st -> loop_over st'.
Proof.
  intros (T1 & _) (_ & V & I) (Ht & Hi & Hs & Hr).
  unfold loop_over. rewrite T1, V, I. auto.
Qed.

Lemma loop_over_step (st : CroppedFaceCamera.State R) (e : CroppedFaceCamera.Event R) :
  loop_over st -> cropped_grants e = false ->
  loop_over (step st e)
  /\ CroppedFaceCamera.blazefaceCalls (step st e) = CroppedFaceCamera.blazefaceCalls st.
Proof.
  intros Hover Hg. pose proof Hover as (Ht & Hi & Hs & Hr).
  pose proof (cropped_settle_blazefaceCalls st e) as Hsettle.
  destruct e; simpl in *.
  - unfold loop_over, CroppedFaceCamera.loadModels_backend, CroppedFaceCamera.loadModels_catch.
    destruct (CroppedFaceCamera.loadStage st); try destruct r; simpl; auto.
  - unfold loop_over, CroppedFaceCamera.loadModels_blazeface, CroppedFaceCamera.loadModels_catch.
    destruct (CroppedFaceCamera.loadStage st); try destruct r; simpl; auto.
  - unfold loop_over, CroppedFaceCamera.loadModels_detector, CroppedFaceCamera.loadModels_catch.
    destruct (CroppedFaceCamera.loadStage st); try destruct r; simpl; auto.
  - unfold loop_over. simpl. auto.
  - unfold loop_over, CroppedFaceCamera.startCamera_resume.
    destruct (CroppedFaceCamera.pendingGetUserMedia st); simpl; auto.
    destruct r; [discriminate|]. simpl. auto.
  - unfold CroppedFaceCamera.loadedmetadata. rewrite Hs. auto.
  - rewrite Hs. auto.
  - unfold loop_over. simpl. auto.
  - unfold CroppedFaceCamera.stopCamera. rewrite Hs.
    destruct (CroppedFaceCamera.mounted st); auto.
  - assert (Hc : CroppedFaceCamera.isStreaming (CroppedFaceCamera.hooks st)
                 && bool_decide (is_Some (CroppedFaceCamera.blazefaceModel
                                            (CroppedFaceCamera.hooks st)))
                 && bool_decide (is_Some (CroppedFaceCamera.landmarkModel
                                            (CroppedFaceCamera.hooks st))) = false)
      by (rewrite Hi; reflexivity).
    destruct (flushEffects_cases st Hc) as [-> | ->]; [auto|].
    destruct (effect_cleanup_cases st) as [-> | [id ->]];
      unfold loop_over; simpl; rewrite ?Ht, ?delete_empty; auto.
  - unfold CroppedFaceCamera.fire_timer. rewrite Ht, lookup_empty. auto.
  - unfold CroppedFaceCamera.fire_animationFrame.
    destruct (animationFrames (CroppedFaceCamera.loop st) !! id) as [closure|]; [|auto].
    split.
    + match goal with
      | |- context [CroppedFaceCamera.detectFaces ?c ?s] =>
          apply (loop_over_same s);
            [apply cropped_detectFaces_frame | apply cropped_detectFaces_capture |]
      end.
      unfold loop_over. simpl. auto.
    + match goal with
      | |- context [CroppedFaceCamera.detectFaces ?c ?s] =>
          rewrite (cropped_detectFaces_not_ready c s) by exact Hr
      end.
      reflexivity.
  - destruct Hsettle as [Hb Hcap]. split; [|exact Hb].
    apply (loop_over_same st); [apply cropped_settle_blazeface_frame | exact Hcap | exact Hover].
  - destruct Hsettle as [Hb Hcap]. split; [|exact Hb].
    apply (loop_over_same st); [apply cropped_settle_landmarks_frame | exact Hcap | exact Hover].
Qed.

Lemma loop_over_run (es : list (CroppedFaceCamera.Event R)) (st : CroppedFaceCamera.State R) :
  loop_over st -> existsb cropped_grants es = false ->
  loop_over (run st es)
  /\ CroppedFaceCamera.blazefaceCalls (run st es) = CroppedFaceCamera.blazefaceCalls st.
Proof.
  revert st. induction es as [|e es IH]; intros st Hst Hg; simpl; [auto|].
  simpl in Hg. apply orb_false_elim in Hg as [Hg1 Hg2].
  destruct (loop_over_step st e Hst Hg1) as [Hover Hb].
  destruct (IH _ Hover Hg2) as [Hover' Hb'].
  split; [exact Hover' | exact (eq_trans Hb' Hb)].
Qed.

Lemma cropped_mounted_run (es : list (CroppedFaceCamera.Event R)) :
  CroppedFaceCamera.mounted (run CroppedFaceCamera.init es) = true.
Proof.
  apply (cropped_run_attached scaleFactor yScalerPos es CroppedFaceCamera.init).
  split; [reflexivity | discriminate].
Qed.

(** *** The loader *)

Lemma cropped_idle_same (st st' : CroppedFaceCamera.State R) :
  CroppedFaceCamera.loop st' = CroppedFaceCamera.loop st ->
  CroppedFaceCamera.blazefaceCalls st' = CroppedFaceCamera.blazefaceCalls st ->
  CroppedFaceCamera.landmarkCalls st' = CroppedFaceCamera.landmarkCalls st ->
  cropped_idle st -> cropped_idle st'.
Proof.
  intros Hl Hb Hc. unfold cropped_idle. rewrite Hl, Hb, Hc. auto.
Qed.

(** Without the landmark model the events of the loop find nothing to
    run. *)
Lemma cropped_idle_loop_step (st : CroppedFaceCamera.State R) (e : CroppedFaceCamera.Event R) :
  CroppedFaceCamera.landmarkModel (CroppedFaceCamera.hooks st) = None ->
  cropped_idle st ->
  match e with
  | CroppedFaceCamera.EvFlushEffects | CroppedFaceCamera.EvTimer _
  | CroppedFaceCamera.EvAnimationFrame _ | CroppedFaceCamera.EvBlazeface _ _
  | CroppedFaceCamera.EvLandmarks _ _ =>
      cropped_idle (step st e)
      /\ CroppedFaceCamera.hooks (step st e) = CroppedFaceCamera.hooks st
      /\ CroppedFaceCamera.loadStage (step st e) = CroppedFaceCamera.loadStage st
  | _ => True
  end.
Proof.
  intros Hlm Hidle. pose proof Hidle as (Ht & Ha & Hi & Hb & Hc).
  destruct e; simpl; auto.
  - assert (Hcond : CroppedFaceCamera.isStreaming (CroppedFaceCamera.hooks st)
                 && bool_decide (is_Some (CroppedFaceCamera.blazefaceModel
                                            (CroppedFaceCamera.hooks st)))
                 && bool_decide (is_Some (CroppedFaceCamera.landmarkModel
                                            (CroppedFaceCamera.hooks st))) = false)
      by (rewrite Hlm; simpl; apply andb_false_r).
    destruct (flushEffects_cases st Hcond) as [-> | ->]; [auto|].
    destruct (effect_cleanup_cases st) as [-> | [id ->]];
      unfold cropped_idle; simpl; rewrite ?Ht, ?delete_empty; repeat split; auto.
  - unfold CroppedFaceCamera.fire_timer. rewrite Ht, lookup_empty. auto.
  - unfold CroppedFaceCamera.fire_animationFrame. rewrite Ha, lookup_empty. auto.
  - unfold CroppedFaceCamera.settle_blazeface. rewrite Hi, lookup_empty. auto.
  - unfold CroppedFaceCamera.settle_landmarks. rewrite Hi, lookup_empty. auto.
Qed.

Lemma same_models_trans (a b c : CroppedFaceCamera.State R) :
  same_models a b -> same_models b c -> same_models a c.
Proof. intros (M1 & M2) (N1 & N2). split; congruence. Qed.

Lemma cropped_step_same_models (st : CroppedFaceCamera.State R)
    (e : CroppedFaceCamera.Event R) :
  match e with
  | CroppedFaceCamera.EvFlushEffects | CroppedFaceCamera.EvTimer _
  | CroppedFaceCamera.EvAnimationFrame _ | CroppedFaceCamera.EvBlazeface _ _
  | CroppedFaceCamera.EvLandmarks _ _ => same_models st (step st e)
  | _ => True
  end.
Proof.
  assert (Hcl : same_models st (CroppedFaceCamera.effect_cleanup st))
    by (destruct (effect_cleanup_cases st) as [-> | [id ->]]; split; reflexivity).
  destruct e; simpl; auto.
  - unfold CroppedFaceCamera.flushEffects.
    destruct (decide _); [split; reflexivity|]. cbv zeta.
    match goal with |- context [if ?b then _ else _] => destruct b end.
    + eapply same_models_trans; [|apply cropped_runDetection_timers].
      destruct Hcl as (M1 & M2). split; simpl; assumption.
    + destruct Hcl as (M1 & M2). split; simpl; assumption.
  - unfold CroppedFaceCamera.fire_timer.
    destruct (timers (CroppedFaceCamera.loop st) !! id) as [t|]; [|split; reflexivity].
    eapply same_models_trans; [|apply cropped_runDetection_timers].
    split; reflexivity.
  - unfold CroppedFaceCamera.fire_animationFrame.
    destruct (animationFrames (CroppedFaceCamera.loop st) !! id) as [closure|];
      [|split; reflexivity].
    eapply same_models_trans; [|apply cropped_detectFaces_frame].
    split; reflexivity.
  - apply cropped_settle_blazeface_frame.
  - apply cropped_settle_landmarks_frame.
Qed.

Lemma cropped_loader_inv_step (st : CroppedFaceCamera.State R) (e : CroppedFaceCamera.Event R) :
  cropped_loader_inv st -> cropped_loader_inv (step st e).
Proof.
  intros [Hstage Hidle].
  pose proof (cropped_step_loop_untouched st e) as Hu.
  pose proof (fun Hlm => cropped_idle_loop_step st e Hlm (Hidle Hlm)) as Hloop.
  assert (Hframe : forall st',
             CroppedFaceCamera.landmarkModel (CroppedFaceCamera.hooks st')
             = CroppedFaceCamera.landmarkModel (CroppedFaceCamera.hooks st) ->
             (CroppedFaceCamera.loadStage st' <> CroppedFaceCamera.LoadSettled ->
              CroppedFaceCamera.loadStage st <> CroppedFaceCamera.LoadSettled) ->
             CroppedFaceCamera.loop st' = CroppedFaceCamera.loop st
             /\ CroppedFaceCamera.blazefaceCalls st' = CroppedFaceCamera.blazefaceCalls st
             /\ CroppedFaceCamera.landmarkCalls st' = CroppedFaceCamera.landmarkCalls st ->
             cropped_loader_inv st').
  { intros st' Hlm Hst (Hl & Hb & Hc). split.
    - intros Hne. rewrite Hlm. apply Hstage, Hst, Hne.
    - intros Hnone. rewrite Hlm in Hnone.
      apply (cropped_idle_same st st' Hl Hb Hc (Hidle Hnone)). }
  pose proof (cropped_step_same_models st e) as Hsame.
  assert (Hlp : same_models st (step st e) ->
                (CroppedFaceCamera.landmarkModel (CroppedFaceCamera.hooks st) = None ->
                 cropped_idle (step st e)) ->
                cropped_loader_inv (step st e)).
  { intros (M1 & M2) Hi. split.
    - intros Hne. rewrite M1. apply Hstage. rewrite <- M2. exact Hne.
    - intros Hnone. apply Hi. rewrite <- M1. exact Hnone. }
  destruct e; simpl in Hu, Hloop, Hsame |- *;
    try (apply Hframe; [reflexivity | auto | exact Hu]);
    try (apply Hlp; [exact Hsame | intros Hlm; apply (Hloop Hlm)]).
  - (* setBackend *)
    unfold CroppedFaceCamera.loadModels_backend, CroppedFaceCamera.loadModels_catch in *.
    destruct (CroppedFaceCamera.loadStage st) eqn:Hs; try destruct r;
      try (apply Hframe; [reflexivity | simpl; congruence | exact Hu]);
      split; auto.
  - unfold CroppedFaceCamera.loadModels_blazeface, CroppedFaceCamera.loadModels_catch in *.
    destruct (CroppedFaceCamera.loadStage st) eqn:Hs; try destruct r;
      try (apply Hframe; [reflexivity | simpl; congruence | exact Hu]);
      split; auto.
  - unfold CroppedFaceCamera.loadModels_detector, CroppedFaceCamera.loadModels_catch in *.
    destruct (CroppedFaceCamera.loadStage st) eqn:Hs; try destruct r;
      try (apply Hframe; [reflexivity | simpl; congruence | exact Hu]);
      try (split; auto; fail).
    split; simpl; [congruence | discriminate].
  - (* getUserMedia *)
    apply Hframe; [| | exact Hu].
    + unfold CroppedFaceCamera.startCamera_resume.
      destruct (CroppedFaceCamera.pendingGetUserMedia st); simpl; auto.
      destruct r; simpl; [destruct (CroppedFaceCamera.mounted st)|]; reflexivity.
    + unfold CroppedFaceCamera.startCamera_resume.
      destruct (CroppedFaceCamera.pendingGetUserMedia st); simpl; auto.
      destruct r; simpl; [destruct (CroppedFaceCamera.mounted st)|]; auto.
  - (* loadedmetadata *)
    apply Hframe; [| | exact Hu];
      unfold CroppedFaceCamera.loadedmetadata;
      destruct (srcObject (CroppedFaceCamera.video st)); simpl; auto;
      destruct (onloadedmetadata (CroppedFaceCamera.video st)); simpl; auto;
      destruct (CroppedFaceCamera.mounted st); auto.
  - apply Hframe; [| | exact Hu];
      destruct (srcObject (CroppedFaceCamera.video st)); auto.
  - apply Hframe; [| | exact Hu];
      unfold CroppedFaceCamera.stopCamera; destruct (CroppedFaceCamera.mounted st); simpl; auto;
      destruct (srcObject (CroppedFaceCamera.video st)); auto.
Qed.

End CroppedInvariants.

(** ** Sessions and cycles of the cropped-face variant *)

Section CroppedSessions.
Context {R : Type} `{JsNumber R}.
Variable scaleFactor : R.
Variable yScalerPos : R.

Local Abbreviation cropFace := (CroppedFaceCamera.cropFace scaleFactor yScalerPos).
Local Abbreviation renderFace := (CroppedFaceCamera.renderFace yScalerPos).
Local Abbreviation step := (CroppedFaceCamera.step scaleFactor yScalerPos).
Local Abbreviation run := (CroppedFaceCamera.run scaleFactor yScalerPos).

Lemma cropped_loader_inv_run (es : list (CroppedFaceCamera.Event R))
    (st : CroppedFaceCamera.State R) :
  cropped_loader_inv st -> cropped_loader_inv (run st es).
Proof.
  revert st. induction es as [|e es IH]; intros st Hst; simpl; [exact Hst|].
  apply IH. apply cropped_loader_inv_step. exact Hst.
Qed.

Lemma cropped_loader_inv_init : cropped_loader_inv (CroppedFaceCamera.init (R := R)).
Proof.
  split; [reflexivity|]. intros _. repeat split.
Qed.

(** The step at which the load fails is the catch block. *)
Lemma loadModelsFails_step (st : CroppedFaceCamera.State R) (e : CroppedFaceCamera.Event R) :
  loadModelsFails st e = true ->
  exists err, step st e = CroppedFaceCamera.loadModels_catch err st.
Proof.
  unfold loadModelsFails.
  destruct (CroppedFaceCamera.loadStage st) eqn:Hs, e as [[]|[]|[]| | | | | | | | | | |];
    try discriminate; intros _; eexists; simpl;
    unfold CroppedFaceCamera.loadModels_backend, CroppedFaceCamera.loadModels_blazeface,
      CroppedFaceCamera.loadModels_detector; rewrite Hs; reflexivity.
Qed.

(** A failed load is final. *)
Lemma cropped_load_failed_step (st : CroppedFaceCamera.State R)
    (e : CroppedFaceCamera.Event R) :
  cropped_load_failed st -> cropped_load_failed (step st e).
Proof.
  intros (Hs & Hlm & Hl & Hidle).
  pose proof (cropped_step_loop_untouched scaleFactor yScalerPos st e) as Hu.
  pose proof (cropped_idle_loop_step scaleFactor yScalerPos st e Hlm Hidle) as Hloop.
  unfold cropped_load_failed.
  destruct e; simpl in Hu, Hloop |- *;
    try (destruct Hloop as (Hi' & Hh & Hst); rewrite Hh, Hst; auto; fail);
    try (destruct Hu as (L1 & L2 & L3);
         pose proof (cropped_idle_same _ _ L1 L2 L3 Hidle) as Hidle').
  - unfold CroppedFaceCamera.loadModels_backend in *. rewrite Hs in *. auto.
  - unfold CroppedFaceCamera.loadModels_blazeface in *. rewrite Hs in *. auto.
  - unfold CroppedFaceCamera.loadModels_detector in *. rewrite Hs in *. auto.
  - auto.
  - split; [|split; [|split; [|exact Hidle']]];
      unfold CroppedFaceCamera.startCamera_resume;
      destruct (CroppedFaceCamera.pendingGetUserMedia st); simpl; auto;
      destruct r; simpl; auto; destruct (CroppedFaceCamera.mounted st); auto.
  - split; [|split; [|split; [|exact Hidle']]];
      unfold CroppedFaceCamera.loadedmetadata;
      destruct (srcObject (CroppedFaceCamera.video st)); simpl; auto;
      destruct (onloadedmetadata (CroppedFaceCamera.video st)); simpl; auto;
      destruct (CroppedFaceCamera.mounted st); auto.
  - split; [|split; [|split; [|exact Hidle']]];
      destruct (srcObject (CroppedFaceCamera.video st)); auto.
  - auto.
  - split; [|split; [|split; [|exact Hidle']]];
      unfold CroppedFaceCamera.stopCamera; destruct (CroppedFaceCamera.mounted st); simpl; auto;
      destruct (srcObject (CroppedFaceCamera.video st)); auto.
Qed.

Lemma cropped_load_failed_run (es : list (CroppedFaceCamera.Event R))
    (st : CroppedFaceCamera.State R) :
  cropped_load_failed st -> cropped_load_failed (run st es).
Proof.
  revert st. induction es as [|e es IH]; intros st Hst; simpl; [exact Hst|].
  apply IH. apply cropped_load_failed_step. exact Hst.
Qed.

(** *** One cycle *)

(** What the remaining iterations of the for-of loop do besides filling
    the list: one call of the landmark model and one box with its
    landmarks per face, nothing on the timers. *)
Lemma landmarks_chain_account (sx sy : R) (preds : list (FaceDetection R)) (id : positive) :
  forall (rest : list (FaceDetection R)) (answers : list (list CroppedFaceCamera.Face))
         (landmarks : list CroppedFaceCamera.Face) (c : Canvas R)
         (acc : list (CroppedFaceCamera.CroppedFace R)) (st : CroppedFaceCamera.State R),
    inferences (CroppedFaceCamera.loop st) !! id
    = Some (CroppedFaceCamera.AwaitLandmarks sx sy preds c rest acc) ->
    length answers = length rest ->
    let st' := run st (map (fun l => CroppedFaceCamera.EvLandmarks id (Fulfilled l))
                           (landmarks :: answers)) in
    CroppedFaceCamera.landmarkCalls st' = CroppedFaceCamera.landmarkCalls st + length rest
    /\ CroppedFaceCamera.blazefaceCalls st' = CroppedFaceCamera.blazefaceCalls st
    /\ calls (CroppedFaceCamera.canvas st')
       = calls (CroppedFaceCamera.canvas st) ++ flat_map (renderFace sx sy) rest
    /\ timers (CroppedFaceCamera.loop st') = timers (CroppedFaceCamera.loop st).
Proof.
  induction rest as [|next rest IH]; intros answers landmarks c acc st Hi Hlen.
  - destruct answers; [|discriminate]. simpl.
    unfold CroppedFaceCamera.settle_landmarks. rewrite Hi. simpl.
    rewrite app_nil_r, Nat.add_0_r. auto.
  - destruct answers as [|answer answers]; [discriminate|].
    injection Hlen as Hlen.
    cbv zeta. cbn [map]. rewrite cropped_run_cons.
    set (st1 := step st (CroppedFaceCamera.EvLandmarks id (Fulfilled landmarks))).
    assert (H1 : inferences (CroppedFaceCamera.loop st1) !! id
                 = Some (CroppedFaceCamera.AwaitLandmarks sx sy preds
                           (cropFace (CroppedFaceCamera.video st) next) rest
                           (acc ++ [{| CroppedFaceCamera.image := c;
                                       CroppedFaceCamera.meshes := landmarks |}]))
                 /\ CroppedFaceCamera.landmarkCalls st1 = S (CroppedFaceCamera.landmarkCalls st)
                 /\ CroppedFaceCamera.blazefaceCalls st1 = CroppedFaceCamera.blazefaceCalls st
                 /\ calls (CroppedFaceCamera.canvas st1)
                    = calls (CroppedFaceCamera.canvas st) ++ renderFace sx sy next
                 /\ timers (CroppedFaceCamera.loop st1) = timers (CroppedFaceCamera.loop st)).
    { unfold st1. simpl. unfold CroppedFaceCamera.settle_landmarks. rewrite Hi. simpl.
      rewrite lookup_insert_eq. auto. }
    destruct H1 as (H1 & Hl1 & Hb1 & Hc1 & Ht1).
    pose proof (IH answers answer _ _ st1 H1 Hlen) as HIH.
    cbv zeta in HIH. cbn [map] in HIH.
    destruct HIH as (Hl & Hb & Hc & Ht).
    rewrite Hl, Hb, Hc, Ht, Hl1, Hb1, Hc1, Ht1.
    cbn [flat_map length]. rewrite <- app_assoc.
    repeat split; auto; lia.
Qed.

(** A whole cycle from its first await on. *)
Lemma cycle_account (st : CroppedFaceCamera.State R) (id : positive) (sx sy : R)
    (preds : list (FaceDetection R)) (answers : list (list CroppedFaceCamera.Face)) :
  inferences (CroppedFaceCamera.loop st) !! id = Some (CroppedFaceCamera.AwaitBlazeface sx sy) ->
  length answers = length preds ->
  let st' := run st (cycleEvents id preds answers) in
  CroppedFaceCamera.landmarkCalls st' = CroppedFaceCamera.landmarkCalls st + length preds
  /\ CroppedFaceCamera.blazefaceCalls st' = CroppedFaceCamera.blazefaceCalls st
  /\ calls (CroppedFaceCamera.canvas st')
     = calls (CroppedFaceCamera.canvas st)
       ++ clearOverlay (CroppedFaceCamera.canvas st) ++ flat_map (renderFace sx sy) preds
  /\ timers (CroppedFaceCamera.loop st') = timers (CroppedFaceCamera.loop st).
Proof.
  intros Hi Hlen. unfold cycleEvents.
  destruct preds as [|face rest].
  - destruct answers; [|discriminate]. simpl.
    unfold CroppedFaceCamera.settle_blazeface. rewrite Hi. simpl.
    rewrite Nat.add_0_r. auto.
  - destruct answers as [|landmarks answers]; [discriminate|].
    injection Hlen as Hlen.
    cbv zeta. cbn [map]. rewrite cropped_run_cons.
    set (st1 := step st (CroppedFaceCamera.EvBlazeface id (Fulfilled (face :: rest)))).
    assert (H1 : inferences (CroppedFaceCamera.loop st1) !! id
                 = Some (CroppedFaceCamera.AwaitLandmarks sx sy (face :: rest)
                           (cropFace (CroppedFaceCamera.video st) face) rest [])
                 /\ CroppedFaceCamera.landmarkCalls st1 = S (CroppedFaceCamera.landmarkCalls st)
                 /\ CroppedFaceCamera.blazefaceCalls st1 = CroppedFaceCamera.blazefaceCalls st
                 /\ calls (CroppedFaceCamera.canvas st1)
                    = (calls (CroppedFaceCamera.canvas st)
                       ++ clearOverlay (CroppedFaceCamera.canvas st))
                      ++ renderFace sx sy face
                 /\ timers (CroppedFaceCamera.loop st1) = timers (CroppedFaceCamera.loop st)).
    { unfold st1. simpl. unfold CroppedFaceCamera.settle_blazeface. rewrite Hi. simpl.
      rewrite lookup_insert_eq. auto. }
    destruct H1 as (H1 & Hl1 & Hb1 & Hc1 & Ht1).
    pose proof (landmarks_chain_account sx sy (face :: rest) id rest answers landmarks
                  _ [] st1 H1 Hlen) as Hchain.
    cbv zeta in Hchain. cbn [map] in Hchain.
    destruct Hchain as (Hl & Hb & Hc & Ht).
    rewrite Hl, Hb, Hc, Ht, Hl1, Hb1, Hc1, Ht1.
    cbn [flat_map length]. rewrite <- !app_assoc.
    repeat split; auto; lia.
Qed.

(** The boxes among what a cycle draws. *)
Lemma rectangles_cycle (c : Canvas R) (sx sy : R) (preds : list (FaceDetection R)) :
  rectangles (clearOverlay c ++ flat_map (renderFace sx sy) preds)
  = map (offsetBox yScalerPos sx sy) preds.
Proof.
  rewrite rectangles_app. simpl.
  induction preds as [|face preds IH]; [reflexivity|].
  cbn [flat_map map]. rewrite rectangles_app, cropped_renderFace_rectangles, IH.
  reflexivity.
Qed.

(** The loop from a suspended iteration to a failing landmark call. *)
Lemma landmarks_chain_fails (sx sy : R) (preds : list (FaceDetection R)) (id : positive)
    (err : string) :
  forall (answers : list (list CroppedFaceCamera.Face)) (rest : list (FaceDetection R))
         (c : Canvas R) (acc : list (CroppedFaceCamera.CroppedFace R))
         (st : CroppedFaceCamera.State R),
    inferences (CroppedFaceCamera.loop st) !! id
    = Some (CroppedFaceCamera.AwaitLandmarks sx sy preds c rest acc) ->
    length answers <= length rest ->
    let st' := run st (map (fun l => CroppedFaceCamera.EvLandmarks id (Fulfilled l)) answers
                       ++ [CroppedFaceCamera.EvLandmarks id (Rejected err)]) in
    CroppedFaceCamera.croppedFaces (CroppedFaceCamera.hooks st')
    = CroppedFaceCamera.croppedFaces (CroppedFaceCamera.hooks st)
    /\ CroppedFaceCamera.predictions (CroppedFaceCamera.hooks st')
       = CroppedFaceCamera.predictions (CroppedFaceCamera.hooks st)
    /\ CroppedFaceCamera.error (CroppedFaceCamera.hooks st')
       = Some "Face detection failed. Please try again."%string
    /\ CroppedFaceCamera.debugInfo (CroppedFaceCamera.hooks st') = DebugError err
    /\ inferences (CroppedFaceCamera.loop st') !! id = None
    /\ CroppedFaceCamera.landmarkCalls st'
       = CroppedFaceCamera.landmarkCalls st + length answers
    /\ timers (CroppedFaceCamera.loop st') = timers (CroppedFaceCamera.loop st).
Proof.
  induction answers as [|answer answers IH]; intros rest c acc st Hi Hlen.
  - simpl. unfold CroppedFaceCamera.settle_landmarks. rewrite Hi. simpl.
    rewrite Nat.add_0_r. repeat split; auto. apply lookup_delete_eq.
  - destruct rest as [|next rest]; [simpl in Hlen; lia|].
    simpl in Hlen. apply le_S_n in Hlen.
    cbv zeta. cbn [map app]. rewrite cropped_run_cons.
    set (st1 := step st (CroppedFaceCamera.EvLandmarks id (Fulfilled answer))).
    assert (H1 : inferences (CroppedFaceCamera.loop st1) !! id
                 = Some (CroppedFaceCamera.AwaitLandmarks sx sy preds
                           (cropFace (CroppedFaceCamera.video st) next) rest
                           (acc ++ [{| CroppedFaceCamera.image := c;
                                       CroppedFaceCamera.meshes := answer |}]))
                 /\ CroppedFaceCamera.hooks st1 = CroppedFaceCamera.hooks st
                 /\ CroppedFaceCamera.landmarkCalls st1 = S (CroppedFaceCamera.landmarkCalls st)
                 /\ timers (CroppedFaceCamera.loop st1) = timers (CroppedFaceCamera.loop st)).
    { unfold st1. simpl. unfold CroppedFaceCamera.settle_landmarks. rewrite Hi. simpl.
      rewrite lookup_insert_eq. auto. }
    destruct H1 as (H1 & Hh1 & Hl1 & Ht1).
    pose proof (IH rest _ _ st1 H1 Hlen) as HIH.
    cbv zeta in HIH.
    destruct HIH as (Hc & Hp & He & Hd & Hn & Hl & Ht).
    rewrite Hc, Hp, He, Hd, Hn, Hl, Ht, Hh1, Hl1, Ht1.
    cbn [length]. repeat split; auto; lia.
Qed.

(** A cycle whose landmark call fails at one of the faces. *)
Lemma cycle_fails (st : CroppedFaceCamera.State R) (id : positive) (sx sy : R)
    (preds : list (FaceDetection R)) (answers : list (list CroppedFaceCamera.Face))
    (err : string) :
  inferences (CroppedFaceCamera.loop st) !! id = Some (CroppedFaceCamera.AwaitBlazeface sx sy) ->
  length answers < length preds ->
  let st' := run st (failingCycleEvents id preds answers err) in
  CroppedFaceCamera.predictions (CroppedFaceCamera.hooks st') = preds
  /\ CroppedFaceCamera.croppedFaces (CroppedFaceCamera.hooks st')
     = CroppedFaceCamera.croppedFaces (CroppedFaceCamera.hooks st)
  /\ CroppedFaceCamera.error (CroppedFaceCamera.hooks st')
     = Some "Face detection failed. Please try again."%string
  /\ CroppedFaceCamera.debugInfo (CroppedFaceCamera.hooks st') = DebugError err
  /\ inferences (CroppedFaceCamera.loop st') !! id = None
  /\ CroppedFaceCamera.landmarkCalls st'
     = CroppedFaceCamera.landmarkCalls st + S (length answers)
  /\ timers (CroppedFaceCamera.loop st') = timers (CroppedFaceCamera.loop st).
Proof.
  intros Hi Hlen. unfold failingCycleEvents, cycleEvents.
  destruct preds as [|face rest]; [simpl in Hlen; lia|].
  assert (Hlen' : length answers <= length rest) by (simpl in Hlen; lia).
  cbv zeta. cbn [app]. rewrite cropped_run_cons.
  set (st1 := step st (CroppedFaceCamera.EvBlazeface id (Fulfilled (face :: rest)))).
  assert (H1 : inferences (CroppedFaceCamera.loop st1) !! id
               = Some (CroppedFaceCamera.AwaitLandmarks sx sy (face :: rest)
                         (cropFace (CroppedFaceCamera.video st) face) rest [])
               /\ CroppedFaceCamera.predictions (CroppedFaceCamera.hooks st1) = face :: rest
               /\ CroppedFaceCamera.croppedFaces (CroppedFaceCamera.hooks st1)
                  = CroppedFaceCamera.croppedFaces (CroppedFaceCamera.hooks st)
               /\ CroppedFaceCamera.landmarkCalls st1 = S (CroppedFaceCamera.landmarkCalls st)
               /\ timers (CroppedFaceCamera.loop st1) = timers (CroppedFaceCamera.loop st)).
  { unfold st1. simpl. unfold CroppedFaceCamera.settle_blazeface. rewrite Hi. simpl.
    rewrite lookup_insert_eq. auto. }
  destruct H1 as (H1 & Hp1 & Hc1 & Hl1 & Ht1).
  pose proof (landmarks_chain_fails sx sy (face :: rest) id err answers rest _ [] st1 H1 Hlen')
    as Hchain.
  cbv zeta in Hchain.
  destruct Hchain as (Hc & Hp & He & Hd & Hn & Hl & Ht).
  rewrite Hc, Hp, He, Hd, Hn, Hl, Ht, Hp1, Hc1, Hl1, Ht1.
  repeat split; auto; lia.
Qed.

End CroppedSessions.

(** ** Further properties of the cropped-face variant *)

(** X8. The detection loop of the cropped-face variant needs both
    models.  In every session, as long as no landmark model is stored
    there is no timer, no animation-frame callback and no suspended
    cycle, and neither model has been called.  When one of the three
    awaits of loadModels rejects, the catch block clears the loading
    flag and sets the load message, and from then on the landmark model
    is never stored, whatever happens: a BlazeFace model loaded before
    the failure is of no use. *)
Theorem cropped_loop_needs_both_models :
  forall (R : Type) (N : JsNumber R) (scaleFactor yScalerPos : R),
    (forall es : list (CroppedFaceCamera.Event R),
        let st := CroppedFaceCamera.run scaleFactor yScalerPos CroppedFaceCamera.init es in
        CroppedFaceCamera.landmarkModel (CroppedFaceCamera.hooks st) = None ->
        cropped_idle st)
    /\ (forall (before after : list (CroppedFaceCamera.Event R))
               (e : CroppedFaceCamera.Event R),
        loadModelsFails
          (CroppedFaceCamera.run scaleFactor yScalerPos CroppedFaceCamera.init before) e = true ->
        let failed := CroppedFaceCamera.step scaleFactor yScalerPos
                        (CroppedFaceCamera.run scaleFactor yScalerPos
                           CroppedFaceCamera.init before) e in
        CroppedFaceCamera.isLoading (CroppedFaceCamera.hooks failed) = false
        /\ CroppedFaceCamera.error (CroppedFaceCamera.hooks failed)
           = Some "Failed to load the face detection models."%string
        /\ CroppedFaceCamera.landmarkModel
             (CroppedFaceCamera.hooks
                (CroppedFaceCamera.run scaleFactor yScalerPos failed after)) = None
        /\ CroppedFaceCamera.isLoading
             (CroppedFaceCamera.hooks
                (CroppedFaceCamera.run scaleFactor yScalerPos failed after)) = false
        /\ cropped_idle (CroppedFaceCamera.run scaleFactor yScalerPos failed after)).
Proof.
  intros R N s v. split.
  - intros es st.
    apply (cropped_loader_inv_run s v es CroppedFaceCamera.init cropped_loader_inv_init).
  - intros before after e Hfail failed.
    pose proof (cropped_loader_inv_run s v before CroppedFaceCamera.init
                  cropped_loader_inv_init) as [Hstage Hidle].
    assert (Hnone : CroppedFaceCamera.landmarkModel
                      (CroppedFaceCamera.hooks
                         (CroppedFaceCamera.run s v CroppedFaceCamera.init before)) = None).
    { apply Hstage. unfold loadModelsFails in Hfail.
      destruct (CroppedFaceCamera.loadStage
                  (CroppedFaceCamera.run s v CroppedFaceCamera.init before)); discriminate. }
    destruct (loadModelsFails_step s v _ _ Hfail) as [err Hstep].
    assert (Hfailed : cropped_load_failed failed).
    { unfold failed. rewrite Hstep.
      unfold cropped_load_failed, CroppedFaceCamera.loadModels_catch. simpl.
      repeat split; auto; apply (Hidle Hnone). }
    assert (Herr : CroppedFaceCamera.error (CroppedFaceCamera.hooks failed)
                   = Some "Failed to load the face detection models."%string).
    { unfold failed. rewrite Hstep. reflexivity. }
    pose proof Hfailed as (_ & _ & Hl & _).
    destruct (cropped_load_failed_run s v after failed Hfailed) as (_ & Hm' & Hl' & Hi').
    auto.
Qed.

(** X8 in the session in which createDetector fails after the BlazeFace
    model has loaded and the camera is started afterwards. *)
Lemma cropped_loop_needs_both_models_witness :
  let before := [CroppedFaceCamera.EvSetBackend (Fulfilled tt);
                 CroppedFaceCamera.EvBlazefaceLoad (Fulfilled 1%positive)] in
  let e := CroppedFaceCamera.EvCreateDetector (Rejected "fetch failed") in
  let after := [CroppedFaceCamera.EvFlushEffects;
                CroppedFaceCamera.EvClickStart;
                CroppedFaceCamera.EvGetUserMedia (Fulfilled [1%positive]);
                CroppedFaceCamera.EvLoadedMetadata 640%float 480%float;
                CroppedFaceCamera.EvReadyState HAVE_ENOUGH_DATA;
                CroppedFaceCamera.EvFlushEffects] in
  let run := CroppedFaceCamera.run CroppedFaceCamera.scaleFactor_value
               CroppedFaceCamera.yScalerPos_value in
  let failed := CroppedFaceCamera.step CroppedFaceCamera.scaleFactor_value
                  CroppedFaceCamera.yScalerPos_value (run CroppedFaceCamera.init before) e in
  loadModelsFails (run CroppedFaceCamera.init before) e = true
  /\ CroppedFaceCamera.blazefaceModel (CroppedFaceCamera.hooks (run failed after))
     = Some 1%positive
  /\ CroppedFaceCamera.isStreaming (CroppedFaceCamera.hooks (run failed after)) = true
  /\ CroppedFaceCamera.landmarkModel (CroppedFaceCamera.hooks (run failed after)) = None
  /\ cropped_idle (run failed after).
Proof.
  cbv zeta.
  assert (Hfail : loadModelsFails
                    (CroppedFaceCamera.run CroppedFaceCamera.scaleFactor_value
                       CroppedFaceCamera.yScalerPos_value CroppedFaceCamera.init
                       [CroppedFaceCamera.EvSetBackend (Fulfilled tt);
                        CroppedFaceCamera.EvBlazefaceLoad (Fulfilled 1%positive)])
                    (CroppedFaceCamera.EvCreateDetector (Rejected "fetch failed")) = true)
    by (vm_compute; reflexivity).
  split; [exact Hfail|].
  split; [vm_compute; reflexivity|].
  split; [vm_compute; reflexivity|].
  destruct (proj2 (cropped_loop_needs_both_models float float_JsNumber
                     CroppedFaceCamera.scaleFactor_value CroppedFaceCamera.yScalerPos_value)
              [CroppedFaceCamera.EvSetBackend (Fulfilled tt);
               CroppedFaceCamera.EvBlazefaceLoad (Fulfilled 1%positive)]
              [CroppedFaceCamera.EvFlushEffects;
               CroppedFaceCamera.EvClickStart;
               CroppedFaceCamera.EvGetUserMedia (Fulfilled [1%positive]);
               CroppedFaceCamera.EvLoadedMetadata 640%float 480%float;
               CroppedFaceCamera.EvReadyState HAVE_ENOUGH_DATA;
               CroppedFaceCamera.EvFlushEffects]
              (CroppedFaceCamera.EvCreateDetector (Rejected "fetch failed")) Hfail)
    as (_ & _ & Hm & _ & Hi).
  split; [exact Hm | exact Hi].
Defined.

(** X9. In the cropped-face variant at most one timer of the detection
    loop is pending at any moment of any session, and it belongs to the
    current run of the detection effect: runDetection records its
    successor in [timeoutId] in the step that schedules it, so the
    cleanup always finds it. *)
Theorem cropped_single_pending_timer :
  forall (R : Type) (N : JsNumber R) (scaleFactor yScalerPos : R)
         (es : list (CroppedFaceCamera.Event R)) (id1 id2 : positive)
         (t1 t2 : Timer CroppedFaceCamera.Closure),
    let st := CroppedFaceCamera.run scaleFactor yScalerPos CroppedFaceCamera.init es in
    timers (CroppedFaceCamera.loop st) !! id1 = Some t1 ->
    timers (CroppedFaceCamera.loop st) !! id2 = Some t2 ->
    id1 = id2
    /\ timerEffect t1 = currentEffect (CroppedFaceCamera.loop st).
Proof.
  intros R N s v es id1 id2 t1 t2 st H1 H2.
  pose proof (one_timer_run s v es CroppedFaceCamera.init one_timer_init) as Hone.
  fold st in Hone.
  destruct (Hone _ _ H1) as [He1 Hi1]. destruct (Hone _ _ H2) as [_ Hi2].
  split; [congruence | exact He1].
Qed.

(** X9 after the first timer of the overlap session has fired: timer 2
    is the only one. *)
Lemma cropped_single_pending_timer_witness :
  let st := CroppedFaceCamera.run CroppedFaceCamera.scaleFactor_value
              CroppedFaceCamera.yScalerPos_value CroppedFaceCamera.init
              (overlapSession ++ [CroppedFaceCamera.EvTimer 1]) in
  timers (CroppedFaceCamera.loop st) !! 2%positive
  = Some {| delay := 600; timerEffect := 3%positive;
            timerClosure := (Some 1%positive, Some 2%positive) |}
  /\ currentEffect (CroppedFaceCamera.loop st) = 3%positive.
Proof.
  cbv zeta.
  assert (Ht : timers (CroppedFaceCamera.loop
                         (CroppedFaceCamera.run CroppedFaceCamera.scaleFactor_value
                            CroppedFaceCamera.yScalerPos_value CroppedFaceCamera.init
                            (overlapSession ++ [CroppedFaceCamera.EvTimer 1]))) !! 2%positive
               = Some {| delay := 600; timerEffect := 3%positive;
                         timerClosure := (Some 1%positive, Some 2%positive) |})
    by (vm_compute; reflexivity).
  split; [exact Ht|].
  destruct (cropped_single_pending_timer float float_JsNumber
              CroppedFaceCamera.scaleFactor_value CroppedFaceCamera.yScalerPos_value
              (overlapSession ++ [CroppedFaceCamera.EvTimer 1]) 2%positive 2%positive
              _ _ Ht Ht) as (_ & He).
  symmetry. exact He.
Defined.

(** X10. Stopping the cropped-face variant ends its timer loop, also
    with a cycle in flight.  When Stop is handled with a stream attached
    in a session whose detection effect ran for the streaming state, the
    commit that follows leaves no timer pending, and until a new stream
    is granted no timer is pending and the BlazeFace model is not called
    again, whatever else happens (a cycle in flight runs to its end, an
    animation-frame callback finds the video element without data). *)
Theorem cropped_stop_ends_timer_loop :
  forall (R : Type) (N : JsNumber R) (scaleFactor yScalerPos : R)
         (before after : list (CroppedFaceCamera.Event R)),
    let st := CroppedFaceCamera.run scaleFactor yScalerPos CroppedFaceCamera.init before in
    is_Some (srcObject (CroppedFaceCamera.video st)) ->
    fst (effectDeps (CroppedFaceCamera.loop st)) = true ->
    existsb cropped_grants after = false ->
    let st' := CroppedFaceCamera.run scaleFactor yScalerPos st
                 ([CroppedFaceCamera.EvClickStop; CroppedFaceCamera.EvFlushEffects] ++ after) in
    timers (CroppedFaceCamera.loop st') = ∅
    /\ CroppedFaceCamera.isStreaming (CroppedFaceCamera.hooks st') = false
    /\ CroppedFaceCamera.blazefaceCalls st' = CroppedFaceCamera.blazefaceCalls st.
Proof.
  intros R N s v before after st Hsrc Hdeps Hg st'.
  pose proof (one_timer_run s v before CroppedFaceCamera.init one_timer_init) as Hone.
  pose proof (cropped_mounted_run s v before) as Hm.
  fold st in Hone, Hm.
  destruct (cropped_stop_commit st Hone Hm Hsrc Hdeps) as [Hover Hb].
  destruct (loop_over_run s v after _ Hover Hg) as [(Ht & Hi & _) Hb'].
  unfold st'. cbn [app]. rewrite !cropped_run_cons.
  repeat split; [exact Ht | exact Hi | exact (eq_trans Hb' Hb)].
Qed.

(** X10 for a stop while the first cycle of the overlap session waits
    for the BlazeFace model: the cycle runs to its end and calls the
    landmark model, the timer loop is over. *)
Lemma cropped_stop_ends_timer_loop_witness :
  let st := CroppedFaceCamera.run CroppedFaceCamera.scaleFactor_value
              CroppedFaceCamera.yScalerPos_value CroppedFaceCamera.init overlapSession in
  let st' := CroppedFaceCamera.run CroppedFaceCamera.scaleFactor_value
               CroppedFaceCamera.yScalerPos_value st
               ([CroppedFaceCamera.EvClickStop; CroppedFaceCamera.EvFlushEffects]
                ++ afterCroppedStop) in
  CroppedFaceCamera.cyclesInFlight st = 1
  /\ CroppedFaceCamera.landmarkCalls st' = 1
  /\ timers (CroppedFaceCamera.loop st') = ∅
  /\ CroppedFaceCamera.blazefaceCalls st' = 1.
Proof.
  cbv zeta.
  split; [vm_compute; reflexivity|].
  split; [vm_compute; reflexivity|].
  destruct (cropped_stop_ends_timer_loop float float_JsNumber
              CroppedFaceCamera.scaleFactor_value CroppedFaceCamera.yScalerPos_value
              overlapSession afterCroppedStop) as (Ht & _ & Hb).
  - vm_compute. eexists. reflexivity.
  - vm_compute. reflexivity.
  - reflexivity.
  - split; [exact Ht|]. rewrite Hb. vm_compute. reflexivity.
Defined.

(** X11. What one successful cycle of the cropped-face variant does
    besides storing its results: it calls the landmark model once per
    detected face and the BlazeFace model not again, it appends to the
    overlay one clearRect with the three style settings and then, face
    by face in the order of the detections, the box and the landmark
    circles of the face, so the boxes drawn are one per detection with
    the 0.85 offset on the top; and it schedules nothing. *)
Theorem cropped_cycle_accounting :
  forall (R : Type) (N : JsNumber R) (scaleFactor yScalerPos : R)
         (st : CroppedFaceCamera.State R) (id : positive) (scaleX scaleY : R)
         (preds : list (FaceDetection R)) (answers : list (list CroppedFaceCamera.Face)),
    inferences (CroppedFaceCamera.loop st) !! id
    = Some (CroppedFaceCamera.AwaitBlazeface scaleX scaleY) ->
    length answers = length preds ->
    let st' := CroppedFaceCamera.run scaleFactor yScalerPos st
                 (cycleEvents id preds answers) in
    CroppedFaceCamera.landmarkCalls st' = CroppedFaceCamera.landmarkCalls st + length preds
    /\ CroppedFaceCamera.blazefaceCalls st' = CroppedFaceCamera.blazefaceCalls st
    /\ (exists drawn,
           calls (CroppedFaceCamera.canvas st') = calls (CroppedFaceCamera.canvas st) ++ drawn
           /\ drawn = clearOverlay (CroppedFaceCamera.canvas st)
                      ++ flat_map (CroppedFaceCamera.renderFace yScalerPos scaleX scaleY) preds
           /\ rectangles drawn = map (offsetBox yScalerPos scaleX scaleY) preds)
    /\ timers (CroppedFaceCamera.loop st') = timers (CroppedFaceCamera.loop st).
Proof.
  intros R N s v st id sx sy preds answers Hi Hlen st'.
  destruct (cycle_account s v st id sx sy preds answers Hi Hlen) as (Hl & Hb & Hc & Ht).
  fold st' in Hl, Hb, Hc, Ht.
  repeat split; auto.
  eexists. split; [exact Hc|]. split; [reflexivity|].
  apply rectangles_cycle.
Qed.

(** X11 for the cycle in flight at the end of the overlap session,
    answered with two faces. *)
Lemma cropped_cycle_accounting_witness :
  let st := CroppedFaceCamera.run CroppedFaceCamera.scaleFactor_value
              CroppedFaceCamera.yScalerPos_value CroppedFaceCamera.init overlapSession in
  let st' := CroppedFaceCamera.run CroppedFaceCamera.scaleFactor_value
               CroppedFaceCamera.yScalerPos_value st
               (cycleEvents 1 [exampleFace; secondFace] [[7%positive]; [8%positive]]) in
  CroppedFaceCamera.landmarkCalls st' = 2
  /\ CroppedFaceCamera.blazefaceCalls st' = 1
  /\ rectangles (calls (CroppedFaceCamera.canvas st'))
     = [StrokeRect 50%float 42.5%float 50%float 50%float;
        StrokeRect 150%float 51%float 40%float 50%float].
Proof.
  cbv zeta.
  destruct (cropped_cycle_accounting float float_JsNumber
              CroppedFaceCamera.scaleFactor_value CroppedFaceCamera.yScalerPos_value
              (CroppedFaceCamera.run CroppedFaceCamera.scaleFactor_value
                 CroppedFaceCamera.yScalerPos_value CroppedFaceCamera.init overlapSession)
              1%positive 0.5%float 0.5%float
              [exampleFace; secondFace] [[7%positive]; [8%positive]])
    as (Hl & Hb & (drawn & Hc & _ & Hr) & _).
  - vm_compute. reflexivity.
  - reflexivity.
  - split; [rewrite Hl; vm_compute; reflexivity|].
    split; [rewrite Hb; vm_compute; reflexivity|].
    rewrite Hc, rectangles_app, Hr. vm_compute. reflexivity.
Defined.

(** X12. When the landmark model rejects at one of the faces of a
    cycle, the catch block ends the cycle: the detections of this frame
    are stored, but the cropped-face list is the one stored before the
    cycle (the crops of this frame collected so far are dropped), the
    error message and the debug text of the failure are set, the
    landmark model was called once more than it answered, and no timer
    is touched, so the loop goes on. *)
Theorem cropped_landmark_failure_keeps_old_crops :
  forall (R : Type) (N : JsNumber R) (scaleFactor yScalerPos : R)
         (st : CroppedFaceCamera.State R) (id : positive) (scaleX scaleY : R)
         (preds : list (FaceDetection R)) (answers : list (list CroppedFaceCamera.Face))
         (err : string),
    inferences (CroppedFaceCamera.loop st) !! id
    = Some (CroppedFaceCamera.AwaitBlazeface scaleX scaleY) ->
    length answers < length preds ->
    let st' := CroppedFaceCamera.run scaleFactor yScalerPos st
                 (failingCycleEvents id preds answers err) in
    CroppedFaceCamera.predictions (CroppedFaceCamera.hooks st') = preds
    /\ CroppedFaceCamera.croppedFaces (CroppedFaceCamera.hooks st')
       = CroppedFaceCamera.croppedFaces (CroppedFaceCamera.hooks st)
    /\ CroppedFaceCamera.error (CroppedFaceCamera.hooks st')
       = Some "Face detection failed. Please try again."%string
    /\ CroppedFaceCamera.debugInfo (CroppedFaceCamera.hooks st') = DebugError err
    /\ inferences (CroppedFaceCamera.loop st') !! id = None
    /\ CroppedFaceCamera.landmarkCalls st'
       = CroppedFaceCamera.landmarkCalls st + S (length answers)
    /\ timers (CroppedFaceCamera.loop st') = timers (CroppedFaceCamera.loop st).
Proof.
  intros R N s v st id sx sy preds answers err Hi Hlen st'.
  exact (cycle_fails s v st id sx sy preds answers err Hi Hlen).
Qed.

(** X12 in the overlap session: two faces are detected, the landmark
    model answers for the first and fails at the second. *)
Lemma cropped_landmark_failure_witness :
  let st := CroppedFaceCamera.run CroppedFaceCamera.scaleFactor_value
              CroppedFaceCamera.yScalerPos_value CroppedFaceCamera.init overlapSession in
  let st' := CroppedFaceCamera.run CroppedFaceCamera.scaleFactor_value
               CroppedFaceCamera.yScalerPos_value st
               (failingCycleEvents 1 [exampleFace; secondFace] [[7%positive]]
                  "out of memory") in
  CroppedFaceCamera.predictions (CroppedFaceCamera.hooks st') = [exampleFace; secondFace]
  /\ CroppedFaceCamera.croppedFaces (CroppedFaceCamera.hooks st') = []
  /\ CroppedFaceCamera.landmarkCalls st' = 2
  /\ size (timers (CroppedFaceCamera.loop st')) = 1.
Proof.
  cbv zeta.
  destruct (cropped_landmark_failure_keeps_old_crops float float_JsNumber
              CroppedFaceCamera.scaleFactor_value CroppedFaceCamera.yScalerPos_value
              (CroppedFaceCamera.run CroppedFaceCamera.scaleFactor_value
                 CroppedFaceCamera.yScalerPos_value CroppedFaceCamera.init overlapSession)
              1%positive 0.5%float 0.5%float
              [exampleFace; secondFace] [[7%positive]] "out of memory")
    as (Hp & Hc & _ & _ & _ & Hl & Ht).
  - vm_compute. reflexivity.
  - simpl. lia.
  - split; [exact Hp|].
    split; [rewrite Hc; vm_compute; reflexivity|].
    split; [rewrite Hl; vm_compute; reflexivity|].
    rewrite Ht. vm_compute. reflexivity.
Defined.

(** ** The frame counter of camera.tsx *)

Section FrameCounter.
Context {R : Type} `{JsNumber R}.

Lemma may_call_refl (st : Camera.State R) : may_call st st.
Proof. split; [reflexivity | lia]. Qed.

Lemma may_call_trans (a b c : Camera.State R) :
  may_call a b -> may_call b c -> may_call a c.
Proof. intros [F1 C1] [F2 C2]. split; [congruence | lia]. Qed.

Lemma may_call_counts (st st' : Camera.State R) :
  may_call st st' -> counts_inv st -> counts_inv st'.
Proof. unfold counts_inv. intros [F C] Hinv. rewrite F. lia. Qed.

Lemma may_call_detectFaces (closure : option Model) (k : Camera.Awaiter) (st : Camera.State R) :
  may_call st (fst (Camera.detectFaces closure k st)).
Proof.
  unfold Camera.detectFaces.
  destruct (Camera.mounted st), closure as [m|]; simpl; try apply may_call_refl.
  destruct (getContext2d (Camera.canvas st)); simpl; try apply may_call_refl.
  destruct (negb _); split; simpl; try reflexivity; try lia.
  rewrite map_size_insert.
  match goal with |- context [match ?x with _ => _ end] => destruct x end;
    unfold Datatypes.id; lia.
Qed.

Lemma may_call_runDetection (effect : positive) (closure : option Model)
    (st : Camera.State R) :
  may_call st (Camera.runDetection effect closure st).
Proof.
  unfold Camera.runDetection.
  pose proof (may_call_detectFaces closure (Camera.ResumeRunDetection effect closure) st) as Hd.
  destruct (Camera.detectFaces closure (Camera.ResumeRunDetection effect closure) st)
    as [s1 p]; simpl in Hd.
  destruct p; exact Hd.
Qed.

Lemma may_call_cleanup (st : Camera.State R) : may_call st (Camera.effect_cleanup st).
Proof.
  unfold Camera.effect_cleanup.
  destruct (timeoutIds (Camera.loop st) !! currentEffect (Camera.loop st));
    split; simpl; try reflexivity; lia.
Qed.

(** Every event but an answer of the model leaves the frame counter. *)
Lemma may_call_step (st : Camera.State R) (e : Camera.Event R) :
  is_answer e = false -> may_call st (Camera.step st e).
Proof.
  intros Ha.
  destruct (touches_loop e) eqn:Ht.
  - destruct e; try discriminate; simpl.
    + unfold Camera.flushEffects. destruct (decide _); [apply may_call_refl|]. cbv zeta.
      match goal with |- context [if ?b then _ else _] => destruct b end.
      * eapply may_call_trans; [|apply may_call_runDetection].
        eapply may_call_trans; [apply may_call_cleanup|].
        split; simpl; [reflexivity | lia].
      * eapply may_call_trans; [apply may_call_cleanup|].
        split; simpl; [reflexivity | lia].
    + unfold Camera.fire_timer.
      destruct (timers (Camera.loop st) !! id); [|apply may_call_refl].
      eapply may_call_trans; [|apply may_call_runDetection].
      split; simpl; [reflexivity | lia].
    + unfold Camera.fire_animationFrame.
      destruct (animationFrames (Camera.loop st) !! id); [|apply may_call_refl].
      eapply may_call_trans; [|apply may_call_detectFaces].
      split; simpl; [reflexivity | lia].
    + destruct r as [preds|err]; [discriminate|].
      unfold Camera.settle_inference.
      destruct (inferences (Camera.loop st) !! id) as [i|] eqn:Hi; [|apply may_call_refl].
      simpl. destruct (Camera.awaiter i); split; simpl; try reflexivity;
        rewrite map_size_delete, Hi; unfold Datatypes.id; lia.
  - pose proof (step_loop_untouched st e Ht) as Hl.
    split; [|rewrite Hl].
    + destruct e; try discriminate; simpl; auto.
      * unfold Camera.loadModel_backend, Camera.loadModel_catch.
        destruct (Camera.loadStage st); try destruct r; reflexivity.
      * unfold Camera.loadModel_loaded, Camera.loadModel_catch.
        destruct (Camera.loadStage st); try destruct r; reflexivity.
      * unfold Camera.startCamera_resume.
        destruct (Camera.pendingGetUserMedia st); simpl; auto.
        destruct r; simpl; [destruct (Camera.mounted st)|]; reflexivity.
      * unfold Camera.loadedmetadata.
        destruct (srcObject (Camera.video st)); simpl; auto.
        destruct (onloadedmetadata (Camera.video st)); simpl; auto.
        destruct (Camera.mounted st); reflexivity.
      * destruct (srcObject (Camera.video st)); reflexivity.
      * unfold Camera.handleResize. destruct (Camera.mounted st); reflexivity.
      * unfold Camera.stopCamera. destruct (Camera.mounted st); simpl; auto.
        destruct (srcObject (Camera.video st)); reflexivity.
    + assert (Hc : Camera.estimateFacesCalls (Camera.step st e) = Camera.estimateFacesCalls st);
        [|rewrite Hc; lia].
      destruct e; try discriminate; simpl; auto.
      * unfold Camera.loadModel_backend, Camera.loadModel_catch.
        destruct (Camera.loadStage st); try destruct r; reflexivity.
      * unfold Camera.loadModel_loaded, Camera.loadModel_catch.
        destruct (Camera.loadStage st); try destruct r; reflexivity.
      * unfold Camera.startCamera_resume.
        destruct (Camera.pendingGetUserMedia st); simpl; auto.
        destruct r; simpl; [destruct (Camera.mounted st)|]; reflexivity.
      * unfold Camera.loadedmetadata.
        destruct (srcObject (Camera.video st)); simpl; auto.
        destruct (onloadedmetadata (Camera.video st)); simpl; auto.
        destruct (Camera.mounted st); reflexivity.
      * destruct (srcObject (Camera.video st)); reflexivity.
      * unfold Camera.handleResize. destruct (Camera.mounted st); reflexivity.
      * unfold Camera.stopCamera. destruct (Camera.mounted st); simpl; auto.
        destruct (srcObject (Camera.video st)); reflexivity.
Qed.

(** An answer of the model to a cycle in flight is counted as a frame. *)
Lemma answer_step (st : Camera.State R) (id : positive) (i : Camera.Inference R)
    (preds : list (FaceDetection R)) :
  inferences (Camera.loop st) !! id = Some i ->
  let st' := Camera.step st (Camera.EvInference id (Fulfilled preds)) in
  Camera.frameCount st' = S (Camera.frameCount st)
  /\ Camera.debugInfo (Camera.hooks st') = DebugFrame (S (Camera.frameCount st)) preds
  /\ inferences (Camera.loop st') = delete id (inferences (Camera.loop st))
  /\ Camera.estimateFacesCalls st' = Camera.estimateFacesCalls st.
Proof.
  intros Hi. simpl. unfold Camera.settle_inference. rewrite Hi. simpl.
  destruct (Camera.awaiter i); simpl; auto.
Qed.

Lemma counts_inv_step (st : Camera.State R) (e : Camera.Event R) :
  counts_inv st -> counts_inv (Camera.step st e).
Proof.
  intros Hinv. destruct (is_answer e) eqn:Ha.
  - destruct e; try discriminate. destruct r as [preds|]; [|discriminate].
    destruct (inferences (Camera.loop st) !! id) as [i|] eqn:Hi.
    + destruct (answer_step st id i preds Hi) as (Hf & _ & Hd & Hc).
      unfold counts_inv in *. rewrite Hf, Hd, Hc, map_size_delete, Hi.
      pose proof (map_size_ne_0_lookup_2 (inferences (Camera.loop st)) id
                    (ex_intro _ i Hi)). lia.
    + simpl. unfold Camera.settle_inference. rewrite Hi. exact Hinv.
  - exact (may_call_counts _ _ (may_call_step st e Ha) Hinv).
Qed.

Lemma counts_inv_run (es : list (Camera.Event R)) (st : Camera.State R) :
  counts_inv st -> counts_inv (Camera.run st es).
Proof.
  revert st. induction es as [|e es IH]; intros st Hst; simpl; [exact Hst|].
  apply IH. apply counts_inv_step. exact Hst.
Qed.

End FrameCounter.

(** X13. The frame counter of camera.tsx counts the answers of the
    model over the whole session.  In every session the frames counted
    and the cycles in flight together never exceed the calls of the
    model; an answer to a cycle in flight adds one to the counter and
    puts the new count with the raw predictions into the debug text;
    and no other event changes the counter: not a stop, not a new
    start, not a failing cycle. *)
Theorem frame_counter_counts_answers :
  forall (R : Type) (N : JsNumber R) (es : list (Camera.Event R)),
    let st := Camera.run Camera.init es in
    Camera.frameCount st + size (inferences (Camera.loop st)) <= Camera.estimateFacesCalls st
    /\ (forall e, is_answer e = false -> Camera.frameCount (Camera.step st e) = Camera.frameCount st)
    /\ (forall id i preds,
           inferences (Camera.loop st) !! id = Some i ->
           let st' := Camera.step st (Camera.EvInference id (Fulfilled preds)) in
           Camera.frameCount st' = S (Camera.frameCount st)
           /\ Camera.debugInfo (Camera.hooks st')
              = DebugFrame (S (Camera.frameCount st)) preds).
Proof.
  intros R N es st. split; [|split].
  - apply (counts_inv_run es Camera.init). unfold counts_inv. simpl.
    rewrite map_size_empty. lia.
  - intros e Ha. apply (may_call_step st e Ha).
  - intros id i preds Hi st'.
    destruct (answer_step st id i preds Hi) as (Hf & Hd & _). auto.
Qed.

(** X13 in the session of the example: the answer to the cycle in flight
    is frame 1, and a stop before the answer does not change that. *)
Lemma frame_counter_witness :
  let st := Camera.run Camera.init exampleSession in
  let answered := Camera.step st (Camera.EvInference 1 (Fulfilled [exampleFace])) in
  Camera.frameCount st = 0
  /\ Camera.frameCount (Camera.step st Camera.EvClickStop) = 0
  /\ Camera.frameCount answered = 1
  /\ Camera.debugInfo (Camera.hooks answered) = DebugFrame 1 [exampleFace].
Proof.
  cbv zeta.
  assert (H0 : Camera.frameCount (Camera.run Camera.init exampleSession) = 0)
    by (vm_compute; reflexivity).
  destruct (frame_counter_counts_answers float float_JsNumber exampleSession)
    as (_ & Hkeep & Hanswer).
  split; [exact H0|].
  split; [rewrite (Hkeep Camera.EvClickStop eq_refl); exact H0|].
  destruct (Hanswer 1%positive
              {| Camera.scaleX := 0.5%float; Camera.scaleY := 0.5%float;
                 Camera.awaiter := Camera.ResumeRunDetection 3 (Some 1%positive) |}
              [exampleFace]) as [Hf Hd].
  - vm_compute. reflexivity.
  - rewrite Hf, Hd, H0. split; reflexivity.
Defined.
